(** * Workflow engine of the project-management backend

    A shallow embedding of
      - app/models/workflow.py            (the three tables and the enumerations),
      - app/repositories/workflow_repository.py
      - app/api/workflows.py              (the routes the properties below are about)
    together with the properties of the stage-transition state machine and
    of the business-rule evaluator.

    Conventions.
      - A JSON column or request body is a value of [json]; a Python [dict]
        with string keys is a [gmap string json].  The numbers of a JSON
        document are Python's [bool], [int] and [float]; a [float] is a
        finite double (JSON has no token for NaN or an infinity, and the
        JSON columns of the database refuse them).
      - A [string] is the sequence of the characters of a Python [str], so
        [String.length] is [len]; text holds no NUL character.
      - The database is the PostgreSQL server app/config.py names in
        [database_url].
      - A table is a finite map from the integer primary key to the row.
      - Timestamps are integers (instants of the clock); the two clocks an
        operation reads ([datetime.utcnow()] of the process and [now()] of the
        database server) are explicit arguments.
      - An operation that raises returns [inl] of the exception; an operation
        that writes returns the new database next to its result. *)

From stdpp Require Import gmap strings list fin_maps sorting.
From Stdlib Require Import ZArith.

#[local] Open Scope Z_scope.
#[local] Set Warnings "-register-all".

(** ** JSON values as Python objects *)

(** A finite [float]: the double [(-1)^negative * mantissa * 2^exponent],
    with [mantissa = 0] for [0.0] and [-0.0].  ([1.0] is [mk false 1 0],
    [0.5] is [mk false 1 (-1)], [-2.5] is [mk true 5 (-1)].) *)
Module Float.
Record t := mk {
  negative : bool;
  mantissa : N;
  exponent : Z
}.

Definition significand (x : t) : Z :=
  if negative x then - Z.of_N (mantissa x) else Z.of_N (mantissa x).

(** [m1 * 2^e1 == m2 * 2^e2], both sides brought to the smaller exponent.
    Python compares a [float] with a [float] and with an [int] by their
    exact values. *)
Definition value_eqb (m1 e1 m2 e2 : Z) : bool :=
  let e := Z.min e1 e2 in
  m1 * 2 ^ (e1 - e) =? m2 * 2 ^ (e2 - e).

(** [x == y] on two floats. *)
Definition eqb (x y : t) : bool :=
  value_eqb (significand x) (exponent x) (significand y) (exponent y).

(** [x == z] for a float and an [int] (or a [bool], which is an [int]). *)
Definition eq_int (x : t) (z : Z) : bool :=
  value_eqb (significand x) (exponent x) z 0.

Fixpoint odd_part (p : positive) : positive * Z :=
  match p with
  | xO q => let '(r, k) := odd_part q in (r, k + 1)
  | _ => (p, 0)
  end.

(** The number [m * 2^e] written with an odd mantissa (0 as [+0 * 2^0]):
    one representative for each value. *)
Definition lowest_terms (m e : Z) : t :=
  match m with
  | Z0 => mk false 0 0
  | Zpos p => let '(r, k) := odd_part p in mk false (Npos r) (e + k)
  | Zneg p => let '(r, k) := odd_part p in mk true (Npos r) (e + k)
  end.
End Float.

Inductive json :=
| JNull
| JBool (b : bool)
| JInt (z : Z)
| JFloat (x : Float.t)
| JStr (s : string)
| JList (l : list json)
| JDict (d : gmap string json).

(** Python's [==] on the objects a JSON document decodes to.  [bool] is a
    subclass of [int], so [True == 1] and [False == 0], and numbers of
    different types compare by value, so [1 == 1.0]; lists compare
    elementwise; dicts compare by length and then key by key; objects of
    unrelated types are unequal. *)
Fixpoint py_eq (a b : json) {struct a} : bool :=
  match a, b with
  | JNull, JNull => true
  | JBool x, JBool y => Bool.eqb x y
  | JBool x, JInt y => Z.b2z x =? y
  | JInt x, JBool y => x =? Z.b2z y
  | JInt x, JInt y => x =? y
  | JBool x, JFloat y => Float.eq_int y (Z.b2z x)
  | JInt x, JFloat y => Float.eq_int y x
  | JFloat x, JBool y => Float.eq_int x (Z.b2z y)
  | JFloat x, JInt y => Float.eq_int x y
  | JFloat x, JFloat y => Float.eqb x y
  | JStr x, JStr y => String.eqb x y
  | JList xs, JList ys =>
      (fix list_eq (xs ys : list json) {struct xs} : bool :=
         match xs, ys with
         | [], [] => true
         | x :: xs', y :: ys' => py_eq x y && list_eq xs' ys'
         | _, _ => false
         end) xs ys
  | JDict m1, JDict m2 =>
      bool_decide (size m1 = size m2) &&
      map_fold (fun k v acc =>
                  acc && match m2 !! k with
                         | Some w => py_eq v w
                         | None => false
                         end) true m1
  | _, _ => false
  end.

(** [a != b] *)
Definition py_ne (a b : json) : bool := negb (py_eq a b).

(** The value with every number read by its value, at any depth: a boolean
    as 0 or 1, and booleans, integers and floats alike as the one
    representative of their value.  Two values are [==] exactly when they
    agree after this reading (lemma [py_eq_numbers_by_value]). *)
Fixpoint numbers_by_value (j : json) : json :=
  match j with
  | JBool b => JFloat (Float.lowest_terms (Z.b2z b) 0)
  | JInt z => JFloat (Float.lowest_terms z 0)
  | JFloat x => JFloat (Float.lowest_terms (Float.significand x) (Float.exponent x))
  | JList l => JList (numbers_by_value <$> l)
  | JDict d => JDict (numbers_by_value <$> d)
  | _ => j
  end.

(** Number of nodes of a value, the measure for induction through lists and
    dicts. *)
Fixpoint json_size (j : json) : nat :=
  match j with
  | JList l => S (foldr (fun x acc => (json_size x + acc)%nat) 0%nat l)
  | JDict d => S (map_fold (fun _ x acc => (json_size x + acc)%nat) 0%nat d)
  | _ => 1%nat
  end.

(** Truth value of an optional dict or list, as [if x:] and [x or y] test it:
    [None] and the empty container are false. *)
Definition dict_truthy (d : option (gmap string json)) : bool :=
  match d with
  | None => false
  | Some m => negb (bool_decide (m = ∅))
  end.

Definition list_truthy {A} (l : option (list A)) : bool :=
  match l with
  | None | Some [] => false
  | Some (_ :: _) => true
  end.

(** ** app/models/workflow.py *)

Inductive WorkflowType := SALES | SUPPORT | DEVELOPMENT | MARKETING | OPERATIONS.

#[global] Instance WorkflowType_eq_dec : EqDecision WorkflowType.
Proof. solve_decision. Defined.

(** [for workflow_type in WorkflowType]: members in definition order. *)
Definition WorkflowType_members : list WorkflowType :=
  [SALES; SUPPORT; DEVELOPMENT; MARKETING; OPERATIONS].

(** [workflow_type.value] *)
Definition WorkflowType_value (t : WorkflowType) : string :=
  match t with
  | SALES => "sales"
  | SUPPORT => "support"
  | DEVELOPMENT => "development"
  | MARKETING => "marketing"
  | OPERATIONS => "operations"
  end.

(** [WorkflowType(s)]: the member whose value is [s]; [None] stands for the
    [ValueError] the enum constructor raises. *)
Definition WorkflowType_of_value (s : string) : option WorkflowType :=
  find (fun t => String.eqb (WorkflowType_value t) s) WorkflowType_members.

Inductive WorkflowStage :=
| LEAD | QUALIFICATION | PROPOSAL | NEGOTIATION | CLOSED_WON | CLOSED_LOST
| STAGE_DEVELOPMENT | TESTING | DEPLOYMENT | MAINTENANCE.

(** [for stage in WorkflowStage]: members in definition order. *)
Definition WorkflowStage_members : list WorkflowStage :=
  [LEAD; QUALIFICATION; PROPOSAL; NEGOTIATION; CLOSED_WON; CLOSED_LOST;
   STAGE_DEVELOPMENT; TESTING; DEPLOYMENT; MAINTENANCE].

(** [stage.value]; [STAGE_DEVELOPMENT] is the member [DEVELOPMENT] of
    [WorkflowStage]. *)
Definition WorkflowStage_value (stage : WorkflowStage) : string :=
  match stage with
  | LEAD => "lead"
  | QUALIFICATION => "qualification"
  | PROPOSAL => "proposal"
  | NEGOTIATION => "negotiation"
  | CLOSED_WON => "closed_won"
  | CLOSED_LOST => "closed_lost"
  | STAGE_DEVELOPMENT => "development"
  | TESTING => "testing"
  | DEPLOYMENT => "deployment"
  | MAINTENANCE => "maintenance"
  end.

Module Workflow.
Record t := mk {
  name : string;
  description : option string;
  type : WorkflowType;
  stages : gmap string json;
  rules : option (gmap string json);
  is_active : bool;
  created_at : Z;
  updated_at : Z
}.
End Workflow.

Module WorkflowInstance.
Record t := mk {
  workflow_id : Z;
  project_id : Z;
  current_stage : string;
  stage_data : option (gmap string json);
  history : option (list (gmap string json));
  is_completed : bool;
  created_at : Z;
  updated_at : Z
}.
End WorkflowInstance.

Module BusinessRule.
Record t := mk {
  name : string;
  description : option string;
  rule_type : string;
  conditions : gmap string json;
  actions : gmap string json;
  is_active : bool;
  created_at : Z;
  updated_at : Z
}.
End BusinessRule.

(** Of a project only its existence matters to the workflow engine. *)
Module Project.
Record t := mk {
  name : string;
  owner_id : Z
}.
End Project.

(** The database: one finite map per table, keyed by the primary key [id]. *)
Record Db := mkDb {
  workflows : gmap Z Workflow.t;
  workflow_instances : gmap Z WorkflowInstance.t;
  business_rules : gmap Z BusinessRule.t;
  projects : gmap Z Project.t
}.

(** ** Queries *)

(** [.order_by(desc(created_at)).all()] over the rows [(id, row)] of a query:
    a sort by creation time, latest first. *)
Definition later_first {A} (created_at : A -> Z) : relation (Z * A) :=
  fun x y => created_at x.2 >= created_at y.2.

#[global] Instance later_first_dec {A} (created_at : A -> Z) x y :
  Decision (later_first created_at x y).
Proof. unfold later_first. apply _. Defined.

Definition order_by_desc {A} (created_at : A -> Z) (rows : list (Z * A)) : list (Z * A) :=
  merge_sort (later_first created_at) rows.

(** [.filter(cond)] over a table. *)
Definition query_filter {A} (cond : A -> bool) (table : gmap Z A) : list (Z * A) :=
  filter (fun r => cond r.2 = true) (map_to_list table).

(** The primary key the database gives to an inserted row: one more than the
    largest key in use (1 in an empty table). *)
Definition next_id {A} (table : gmap Z A) : Z :=
  1 + foldr Z.max 0 (map_to_list table).*1.

(** A value assigned to a [String(n)] column, [character varying(n)] in the
    database: a value of at most [n] characters is stored as it is; a longer
    one is refused ("value too long for type character varying(n)"), unless
    every character after the [n]-th is a space, in which case the first
    [n] characters are stored. *)
Definition varchar (n : nat) (s : string) : option string :=
  if (String.length s <=? n)%nat then Some s
  else if forallb (Ascii.eqb Ascii.Space)
            (String.list_ascii_of_string (String.substring n (String.length s - n) s))
       then Some (String.substring 0 n s)
       else None.

(** ** Results and exceptions *)

(** [DataError] is SQLAlchemy's, raised by a flush whose statement the
    database refuses for a value that does not fit its column;
    [ValidationError] is pydantic's, raised when an object does not satisfy
    the schema it is read into, with the field at fault. *)
Inductive exn :=
| ValueError (msg : string)
| ZeroDivisionError
| HTTPException (status_code : Z) (detail : string)
| DataError
| ValidationError (field : string).

(** The exceptions of the routes and repository methods below that [exn]
    has no case for: a method the object does not have, and a constraint of
    the database that the flushed UPDATE violates. *)
Inductive failure :=
| Raised (e : exn)
| AttributeError (msg : string)
| IntegrityError.

Definition HTTP_400_BAD_REQUEST : Z := 400.
Definition HTTP_404_NOT_FOUND : Z := 404.

(** ** The ORM session: Python objects and the unit of work

    [stage_data] and [history] are declared [Column(JSON, nullable=True)] in
    app/models/workflow.py, with no mutation-tracking wrapper, so a loaded
    row holds a plain Python [list] or [dict] for them.  Such an object has
    an identity and is changed in place by [append] and [update]; the
    attributes of a loaded row are therefore references into a heap.

    The session is the one app/database.py builds
    ([sessionmaker(autocommit=False, autoflush=False)]).  Assigning to a
    mapped attribute records, the first time, the object the attribute held
    before in the [committed_state] of the row.  [commit] flushes: a column
    goes into the UPDATE only when its attribute was assigned and the object
    it holds now is unequal ([==], evaluated at flush time) to the recorded
    one.  [refresh] and [get] then read the row back from the database. *)
Module Py.
Definition ref := nat.

Record heap := mkHeap {
  lists : list (list (gmap string json));
  dicts : list (gmap string json)
}.

Definition empty : heap := mkHeap [] [].

(** [[]] or a decoded JSON array: a new list object. *)
Definition alloc_list (items : list (gmap string json)) (h : heap) : ref * heap :=
  (length (lists h), mkHeap (lists h ++ [items]) (dicts h)).

(** [{}] or a decoded JSON object: a new dict object. *)
Definition alloc_dict (d : gmap string json) (h : heap) : ref * heap :=
  (length (dicts h), mkHeap (lists h) (dicts h ++ [d])).

Definition get_list (r : ref) (h : heap) : list (gmap string json) :=
  default [] (lists h !! r).

Definition get_dict (r : ref) (h : heap) : gmap string json :=
  default ∅ (dicts h !! r).

(** [l.append(x)]: the object [l] itself changes. *)
Definition append (r : ref) (x : gmap string json) (h : heap) : heap :=
  mkHeap (alter (fun items => items ++ [x]) r (lists h)) (dicts h).

(** [d.update(other)]: the keys of [other] are written into the object [d]. *)
Definition update (r : ref) (other : gmap string json) (h : heap) : heap :=
  mkHeap (lists h) (alter (fun d => other ∪ d) r (dicts h)).

(** Truth value of an attribute holding [None] or a list, resp. dict. *)
Definition list_true (v : option ref) (h : heap) : bool :=
  list_truthy (flip get_list h <$> v).

Definition dict_true (v : option ref) (h : heap) : bool :=
  dict_truthy (flip get_dict h <$> v).

(** [value == committed] on two attribute values, as the flush evaluates
    it.  One and the same list or dict object is equal to itself (its items
    are identical objects); [None] is equal to [None] only. *)
Definition list_is_equal (value committed : option ref) (h : heap) : bool :=
  match value, committed with
  | None, None => true
  | Some a, Some b =>
      if decide (a = b) then true
      else py_eq (JList (JDict <$> get_list a h)) (JList (JDict <$> get_list b h))
  | _, _ => false
  end.

Definition dict_is_equal (value committed : option ref) (h : heap) : bool :=
  match value, committed with
  | None, None => true
  | Some a, Some b =>
      if decide (a = b) then true
      else py_eq (JDict (get_dict a h)) (JDict (get_dict b h))
  | _, _ => false
  end.
End Py.

(** A [WorkflowInstance] object attached to the session: its attribute
    dictionary, the JSON attributes being references, and the
    [committed_state] of the attributes [transition_stage] assigns. *)
Record InstanceObject := mkObject {
  o_workflow_id : Z;
  o_project_id : Z;
  o_current_stage : string;
  o_stage_data : option Py.ref;
  o_history : option Py.ref;
  o_is_completed : bool;
  o_created_at : Z;
  o_updated_at : Z;
  committed_current_stage : option string;
  committed_stage_data : option (option Py.ref);
  committed_history : option (option Py.ref)
}.

Definition Session : Type := Py.heap * InstanceObject.

(** Statements over the session, in sequence. *)
Definition Stmt (A : Type) : Type := Session -> A * Session.

Definition ret {A} (x : A) : Stmt A := fun s => (x, s).

Definition bind {A B} (m : Stmt A) (k : A -> Stmt B) : Stmt B :=
  fun s => let '(x, s') := m s in k x s'.

Declare Scope stmt_scope.
Delimit Scope stmt_scope with stmt.
Notation "x <- m ;; k" := (bind m (fun x => k))
  (at level 100, m at next level, right associativity) : stmt_scope.
Notation "m ;; k" := (bind m (fun _ => k))
  (at level 100, right associativity) : stmt_scope.

(** Loading a row: each non-null JSON column is decoded into a new object. *)
Definition load (row : WorkflowInstance.t) : Session :=
  let h0 := Py.empty in
  let '(sd, h1) :=
    match WorkflowInstance.stage_data row with
    | None => (None, h0)
    | Some d => let '(r, h) := Py.alloc_dict d h0 in (Some r, h)
    end in
  let '(hi, h2) :=
    match WorkflowInstance.history row with
    | None => (None, h1)
    | Some l => let '(r, h) := Py.alloc_list l h1 in (Some r, h)
    end in
  (h2, mkObject (WorkflowInstance.workflow_id row) (WorkflowInstance.project_id row)
         (WorkflowInstance.current_stage row) sd hi
         (WorkflowInstance.is_completed row)
         (WorkflowInstance.created_at row) (WorkflowInstance.updated_at row)
         None None None).

(** [instance.current_stage] *)
Definition get_current_stage : Stmt string :=
  fun s => (o_current_stage s.2, s).

(** [instance.history or []] *)
Definition history_or_new : Stmt Py.ref :=
  fun '(h, o) =>
    match o_history o with
    | Some r => if Py.list_true (Some r) h then (r, (h, o))
                else let '(r', h') := Py.alloc_list [] h in (r', (h', o))
    | None => let '(r', h') := Py.alloc_list [] h in (r', (h', o))
    end.

(** [instance.stage_data or {}] *)
Definition stage_data_or_new : Stmt Py.ref :=
  fun '(h, o) =>
    match o_stage_data o with
    | Some r => if Py.dict_true (Some r) h then (r, (h, o))
                else let '(r', h') := Py.alloc_dict ∅ h in (r', (h', o))
    | None => let '(r', h') := Py.alloc_dict ∅ h in (r', (h', o))
    end.

Definition list_append (r : Py.ref) (x : gmap string json) : Stmt unit :=
  fun '(h, o) => (tt, (Py.append r x h, o)).

Definition dict_update (r : Py.ref) (other : gmap string json) : Stmt unit :=
  fun '(h, o) => (tt, (Py.update r other h, o)).

(** Attribute assignment: the previous value goes to [committed_state]
    unless the attribute has an entry there already. *)
Definition set_history (r : Py.ref) : Stmt unit :=
  fun '(h, o) =>
    (tt, (h, mkObject (o_workflow_id o) (o_project_id o) (o_current_stage o)
                (o_stage_data o) (Some r) (o_is_completed o)
                (o_created_at o) (o_updated_at o)
                (committed_current_stage o) (committed_stage_data o)
                (match committed_history o with
                 | None => Some (o_history o)
                 | Some c => Some c
                 end))).

Definition set_stage_data (r : Py.ref) : Stmt unit :=
  fun '(h, o) =>
    (tt, (h, mkObject (o_workflow_id o) (o_project_id o) (o_current_stage o)
                (Some r) (o_history o) (o_is_completed o)
                (o_created_at o) (o_updated_at o)
                (committed_current_stage o)
                (match committed_stage_data o with
                 | None => Some (o_stage_data o)
                 | Some c => Some c
                 end)
                (committed_history o))).

Definition set_current_stage (stage : string) : Stmt unit :=
  fun '(h, o) =>
    (tt, (h, mkObject (o_workflow_id o) (o_project_id o) stage
                (o_stage_data o) (o_history o) (o_is_completed o)
                (o_created_at o) (o_updated_at o)
                (match committed_current_stage o with
                 | None => Some (o_current_stage o)
                 | Some c => Some c
                 end)
                (committed_stage_data o) (committed_history o))).

(** The columns of the UPDATE a flush emits for the object: [Some v] when the
    column is written with [v]. *)
Record UpdateParams := mkParams {
  p_current_stage : option string;
  p_stage_data : option (option (gmap string json));
  p_history : option (option (list (gmap string json)))
}.

Definition collect_update_commands (s : Session) : UpdateParams :=
  let '(h, o) := s in
  mkParams
    (match committed_current_stage o with
     | Some c => if String.eqb (o_current_stage o) c then None
                 else Some (o_current_stage o)
     | None => None
     end)
    (match committed_stage_data o with
     | Some c => if Py.dict_is_equal (o_stage_data o) c h then None
                 else Some (flip Py.get_dict h <$> o_stage_data o)
     | None => None
     end)
    (match committed_history o with
     | Some c => if Py.list_is_equal (o_history o) c h then None
                 else Some (flip Py.get_list h <$> o_history o)
     | None => None
     end).

(** With no column to write no UPDATE is emitted for the row. *)
Definition nothing_to_write (p : UpdateParams) : bool :=
  match p with
  | mkParams None None None => true
  | _ => false
  end.

(** The row after the UPDATE; [updated_at] has [onupdate=now()]. *)
Definition apply_update (db_now : Z) (p : UpdateParams) (row : WorkflowInstance.t)
  : WorkflowInstance.t :=
  if nothing_to_write p then row
  else
    WorkflowInstance.mk
      (WorkflowInstance.workflow_id row) (WorkflowInstance.project_id row)
      (default (WorkflowInstance.current_stage row) (p_current_stage p))
      (default (WorkflowInstance.stage_data row) (p_stage_data p))
      (default (WorkflowInstance.history row) (p_history p))
      (WorkflowInstance.is_completed row)
      (WorkflowInstance.created_at row) db_now.

Definition set_workflow_instances (t : gmap Z WorkflowInstance.t) (db : Db) : Db :=
  mkDb (workflows db) t (business_rules db) (projects db).

Definition set_workflows (t : gmap Z Workflow.t) (db : Db) : Db :=
  mkDb t (workflow_instances db) (business_rules db) (projects db).

Definition set_business_rules (t : gmap Z BusinessRule.t) (db : Db) : Db :=
  mkDb (workflows db) (workflow_instances db) t (projects db).

(** The parameters of the UPDATE as the columns take them:
    [current_stage] is [Column(String(100))]; [None] when the column refuses
    its value. *)
Definition column_values (p : UpdateParams) : option UpdateParams :=
  match p_current_stage p with
  | None => Some p
  | Some stage =>
      match varchar 100 stage with
      | Some stored => Some (mkParams (Some stored) (p_stage_data p) (p_history p))
      | None => None
      end
  end.

(** [self.db.commit()] for the session holding the object loaded from row
    [id]: flush, then commit.  When the database refuses the UPDATE the
    flush raises and nothing is written. *)
Definition commit (db_now : Z) (id : Z) (s : Session) (db : Db) : exn + Db :=
  match column_values (collect_update_commands s) with
  | Some p =>
      inr (set_workflow_instances
             (alter (apply_update db_now p) id (workflow_instances db)) db)
  | None => inl DataError
  end.

(** ** app/schemas/workflow.py: request bodies *)

Module WorkflowCreate.
Record t := mk {
  name : string;
  description : option string;
  type : WorkflowType;
  stages : gmap string json;
  rules : option (gmap string json);
  is_active : bool
}.
End WorkflowCreate.

Module WorkflowInstanceCreate.
Record t := mk {
  workflow_id : Z;
  project_id : Z;
  current_stage : string;
  stage_data : option (gmap string json);
  history : option (list (gmap string json));
  is_completed : bool
}.
End WorkflowInstanceCreate.

Module WorkflowStageTransition.
Record t := mk {
  from_stage : string;
  to_stage : string;
  transition_data : option (gmap string json);
  notes : option string;
  triggered_by : option Z
}.
End WorkflowStageTransition.

(** A field of an update body is [None] when the request leaves it out
    ([dict(exclude_unset=True)] drops it), [Some None] when the request sets
    it to null and [Some (Some v)] when it sets it to [v]. *)
Module WorkflowInstanceUpdate.
Record t := mk {
  current_stage : option (option string);
  stage_data : option (option (gmap string json));
  history : option (option (list (gmap string json)));
  is_completed : option (option bool)
}.
End WorkflowInstanceUpdate.

(** [WorkflowInstanceResponse.from_orm(instance)].  The schema inherits
    [current_stage: str = Field(..., min_length=1, max_length=100)] from
    [WorkflowInstanceBase]; the other fields of a stored instance are of the
    declared types. *)
Module WorkflowInstanceResponse.
Definition from_orm (instance : option WorkflowInstance.t)
  : exn + option WorkflowInstance.t :=
  match instance with
  | Some row =>
      let n := String.length (WorkflowInstance.current_stage row) in
      if (1 <=? n)%nat && (n <=? 100)%nat then inr (Some row)
      else inl (ValidationError "current_stage")
  | None => inl (ValidationError "WorkflowInstanceResponse")
  end.
End WorkflowInstanceResponse.

Inductive RuleType := VALIDATION | AUTOMATION | NOTIFICATION.

Definition RuleType_value (t : RuleType) : string :=
  match t with
  | VALIDATION => "validation"
  | AUTOMATION => "automation"
  | NOTIFICATION => "notification"
  end.

Module BusinessRuleCreate.
Record t := mk {
  name : string;
  description : option string;
  rule_type : RuleType;
  conditions : gmap string json;
  actions : gmap string json;
  is_active : bool
}.
End BusinessRuleCreate.

(** ** app/repositories/workflow_repository.py *)

Module WorkflowRepository.

Definition get (id : Z) (db : Db) : option Workflow.t :=
  workflows db !! id.

Definition get_by_type (workflow_type : WorkflowType) (db : Db) : list (Z * Workflow.t) :=
  order_by_desc Workflow.created_at
    (query_filter
       (fun w => bool_decide (Workflow.type w = workflow_type) && Workflow.is_active w)
       (workflows db)).

Definition get_active_workflows (db : Db) : list (Z * Workflow.t) :=
  order_by_desc Workflow.created_at (query_filter Workflow.is_active (workflows db)).

(** [add], [commit], [refresh]: the row gets its key and both timestamps
    from the database. *)
Definition create_workflow (db_now : Z) (workflow_data : WorkflowCreate.t) (db : Db)
  : (Z * Workflow.t) * Db :=
  let id := next_id (workflows db) in
  let db_workflow :=
    Workflow.mk (WorkflowCreate.name workflow_data) (WorkflowCreate.description workflow_data)
      (WorkflowCreate.type workflow_data) (WorkflowCreate.stages workflow_data) (WorkflowCreate.rules workflow_data)
      (WorkflowCreate.is_active workflow_data) db_now db_now in
  ((id, db_workflow), set_workflows (<[id := db_workflow]> (workflows db)) db).

Record statistics := mkStatistics {
  total_workflows : nat;
  active_workflows : nat;
  workflows_by_type : gmap string nat;
  recent_workflows : list (Z * Workflow.t)
}.

Definition get_workflow_statistics (db : Db) : statistics :=
  let total_workflows := length (query_filter (fun _ => true) (workflows db)) in
  let active_workflows := length (query_filter Workflow.is_active (workflows db)) in
  let workflows_by_type :=
    foldl (fun acc workflow_type =>
             let count :=
               length (query_filter
                         (fun w => bool_decide (Workflow.type w = workflow_type))
                         (workflows db)) in
             <[WorkflowType_value workflow_type := count]> acc)
          ∅ WorkflowType_members in
  let recent_workflows :=
    take 5 (order_by_desc Workflow.created_at
              (query_filter Workflow.is_active (workflows db))) in
  mkStatistics total_workflows active_workflows workflows_by_type recent_workflows.

End WorkflowRepository.

Module ProjectRepository.
Definition get (id : Z) (db : Db) : option Project.t :=
  projects db !! id.
End ProjectRepository.

Module WorkflowInstanceRepository.

Definition get (id : Z) (db : Db) : option WorkflowInstance.t :=
  workflow_instances db !! id.

Definition get_by_project (project_id : Z) (db : Db) : list (Z * WorkflowInstance.t) :=
  order_by_desc WorkflowInstance.created_at
    (query_filter (fun i => bool_decide (WorkflowInstance.project_id i = project_id))
       (workflow_instances db)).

Definition get_by_workflow (workflow_id : Z) (db : Db) : list (Z * WorkflowInstance.t) :=
  order_by_desc WorkflowInstance.created_at
    (query_filter (fun i => bool_decide (WorkflowInstance.workflow_id i = workflow_id))
       (workflow_instances db)).

Definition get_by_stage (stage : string) (db : Db) : list (Z * WorkflowInstance.t) :=
  order_by_desc WorkflowInstance.created_at
    (query_filter (fun i => bool_decide (WorkflowInstance.current_stage i = stage))
       (workflow_instances db)).

Definition create_workflow_instance (db_now : Z) (instance_data : WorkflowInstanceCreate.t)
    (db : Db) : option (Z * WorkflowInstance.t) * Db :=
  let id := next_id (workflow_instances db) in
  let db_instance :=
    WorkflowInstance.mk (WorkflowInstanceCreate.workflow_id instance_data) (WorkflowInstanceCreate.project_id instance_data)
      (WorkflowInstanceCreate.current_stage instance_data) (WorkflowInstanceCreate.stage_data instance_data)
      (WorkflowInstanceCreate.history instance_data) (WorkflowInstanceCreate.is_completed instance_data) db_now db_now in
  let db' := set_workflow_instances (<[id := db_instance]> (workflow_instances db)) db in
  (pair id <$> get id db', db').

(** [value == committed] for a JSON column whose attribute was assigned an
    object of the request, a different object from the loaded one. *)
Definition dict_column_is_equal (value committed : option (gmap string json)) : bool :=
  match value, committed with
  | None, None => true
  | Some a, Some b => py_eq (JDict a) (JDict b)
  | _, _ => false
  end.

Definition list_column_is_equal (value committed : option (list (gmap string json)))
  : bool :=
  match value, committed with
  | None, None => true
  | Some a, Some b => py_eq (JList (JDict <$> a)) (JList (JDict <$> b))
  | _, _ => false
  end.

(** The columns the flush writes after [setattr] of the supplied fields:
    a field goes into the UPDATE when its new value is unequal to the loaded
    one. *)
Record InstanceUpdateParams := mkInstanceParams {
  u_current_stage : option (option string);
  u_stage_data : option (option (gmap string json));
  u_history : option (option (list (gmap string json)));
  u_is_completed : option (option bool)
}.

Definition collect_instance_update (instance : WorkflowInstance.t)
    (update_dict : WorkflowInstanceUpdate.t) : InstanceUpdateParams :=
  mkInstanceParams
    (match WorkflowInstanceUpdate.current_stage update_dict with
     | Some (Some v) =>
         if String.eqb v (WorkflowInstance.current_stage instance) then None
         else Some (Some v)
     | Some None => Some None
     | None => None
     end)
    (match WorkflowInstanceUpdate.stage_data update_dict with
     | Some v =>
         if dict_column_is_equal v (WorkflowInstance.stage_data instance) then None
         else Some v
     | None => None
     end)
    (match WorkflowInstanceUpdate.history update_dict with
     | Some v =>
         if list_column_is_equal v (WorkflowInstance.history instance) then None
         else Some v
     | None => None
     end)
    (match WorkflowInstanceUpdate.is_completed update_dict with
     | Some (Some v) =>
         if Bool.eqb v (WorkflowInstance.is_completed instance) then None
         else Some (Some v)
     | Some None => Some None
     | None => None
     end).

(** The UPDATE writes a [current_stage] of more than 100 characters, which
    the [String(100)] column refuses.  (The validator of
    [WorkflowInstanceUpdate] has stripped the value: it does not end in a
    space, so the database does not shorten it.) *)
Definition too_long (current_stage : option (option string)) : bool :=
  match current_stage with
  | Some (Some v) => (100 <? String.length v)%nat
  | _ => false
  end.

(** [update_workflow_instance(instance, instance_update)], [instance] being
    the object loaded from row [id].  The commit raises when the database
    refuses the UPDATE: [DataError] for a [current_stage] that does not fit
    the column, and [IntegrityError] when [current_stage] or [is_completed],
    both [nullable=False], is set to null. *)
Definition update_workflow_instance (db_now : Z) (id : Z) (instance : WorkflowInstance.t)
    (instance_update : WorkflowInstanceUpdate.t) (db : Db)
  : (failure + option WorkflowInstance.t) * Db :=
  match collect_instance_update instance instance_update with
  | mkInstanceParams None None None None => (inr (get id db), db)
  | mkInstanceParams cs sd hi done =>
      if too_long cs then (inl (Raised DataError), db)
      else
        match cs, done with
        | Some None, _ | _, Some None => (inl IntegrityError, db)
        | _, _ =>
            let row :=
              WorkflowInstance.mk
                (WorkflowInstance.workflow_id instance)
                (WorkflowInstance.project_id instance)
                (default (WorkflowInstance.current_stage instance) (mjoin cs))
                (default (WorkflowInstance.stage_data instance) sd)
                (default (WorkflowInstance.history instance) hi)
                (default (WorkflowInstance.is_completed instance) (mjoin done))
                (WorkflowInstance.created_at instance) db_now in
            let db' := set_workflow_instances (<[id := row]> (workflow_instances db)) db in
            (inr (get id db'), db')
        end
  end.

(** The record appended to the history. *)
Definition transition_record (from_stage new_stage timestamp : string)
    (triggered_by : option Z) (transition_data : option (gmap string json))
  : gmap string json :=
  <["from_stage" := JStr from_stage]>
    (<["to_stage" := JStr new_stage]>
      (<["timestamp" := JStr timestamp]>
        (<["triggered_by" := from_option JInt JNull triggered_by]>
          (<["data" := JDict (if dict_truthy transition_data
                              then default ∅ transition_data else ∅)]> ∅)))).

(** Lines 277-297: the statements between the lookup and the commit.
    [utcnow] is [datetime.utcnow().isoformat()]. *)
Definition transition_assignments (utcnow : string) (new_stage : string)
    (transition_data : option (gmap string json)) (triggered_by : option Z)
  : Stmt unit :=
  (current_stage <- get_current_stage ;;
   let record :=
     transition_record current_stage new_stage utcnow triggered_by transition_data in
   history <- history_or_new ;;
   list_append history record ;;
   set_history history ;;
   (if dict_truthy transition_data then
      current_data <- stage_data_or_new ;;
      dict_update current_data (default ∅ transition_data) ;;
      set_stage_data current_data
    else ret tt) ;;
   set_current_stage new_stage)%stmt.

Definition transition_stage (utcnow : string) (db_now : Z) (instance_id : Z)
    (new_stage : string) (transition_data : option (gmap string json))
    (triggered_by : option Z) (db : Db)
  : (exn + option WorkflowInstance.t) * Db :=
  match get instance_id db with
  | None => (inl (ValueError "Workflow instance not found"), db)
  | Some instance =>
      let '(_, session) :=
        transition_assignments utcnow new_stage transition_data triggered_by
          (load instance) in
      match commit db_now instance_id session db with
      | inl e => (inl e, db)
      | inr db' => (inr (get instance_id db'), db')
      end
  end.

Record instance_statistics := mkInstanceStatistics {
  total_instances : nat;
  completed_instances : nat;
  instances_by_stage : gmap string nat
}.

Definition get_workflow_instance_statistics (db : Db) : instance_statistics :=
  let total_instances := length (query_filter (fun _ => true) (workflow_instances db)) in
  let completed_instances :=
    length (query_filter WorkflowInstance.is_completed (workflow_instances db)) in
  let instances_by_stage :=
    foldl (fun acc stage =>
             let count :=
               length (query_filter
                         (fun i => bool_decide (WorkflowInstance.current_stage i
                                                = WorkflowStage_value stage))
                         (workflow_instances db)) in
             <[WorkflowStage_value stage := count]> acc)
          ∅ WorkflowStage_members in
  mkInstanceStatistics total_instances completed_instances instances_by_stage.

End WorkflowInstanceRepository.

Module BusinessRuleRepository.

Definition get (id : Z) (db : Db) : option BusinessRule.t :=
  business_rules db !! id.

Definition get_by_type (rule_type : string) (db : Db) : list (Z * BusinessRule.t) :=
  order_by_desc BusinessRule.created_at
    (query_filter
       (fun r => bool_decide (BusinessRule.rule_type r = rule_type)
                 && BusinessRule.is_active r)
       (business_rules db)).

(** The member of [RuleType] reaches the [String] column as its value. *)
Definition create_business_rule (db_now : Z) (rule_data : BusinessRuleCreate.t) (db : Db)
  : (Z * BusinessRule.t) * Db :=
  let id := next_id (business_rules db) in
  let db_rule :=
    BusinessRule.mk (BusinessRuleCreate.name rule_data)
      (BusinessRuleCreate.description rule_data)
      (RuleType_value (BusinessRuleCreate.rule_type rule_data))
      (BusinessRuleCreate.conditions rule_data) (BusinessRuleCreate.actions rule_data)
      (BusinessRuleCreate.is_active rule_data) db_now db_now in
  ((id, db_rule), set_business_rules (<[id := db_rule]> (business_rules db)) db).

(** [BaseRepository.delete], inherited: [True] when a row was deleted. *)
Definition delete (id : Z) (db : Db) : bool * Db :=
  match business_rules db !! id with
  | Some _ => (true, set_business_rules (base.delete id (business_rules db)) db)
  | None => (false, db)
  end.

Definition get_active_rules (db : Db) : list (Z * BusinessRule.t) :=
  order_by_desc BusinessRule.created_at
    (query_filter BusinessRule.is_active (business_rules db)).

(** The loop over [conditions.items()] returns [False] at the first key
    that is missing from the context or whose value differs, and [True]
    when no key does. *)
Definition _evaluate_conditions (conditions context : gmap string json) : bool :=
  forallb (fun '(key, expected_value) =>
             match context !! key with
             | None => false
             | Some v => negb (py_ne v expected_value)
             end)
          (map_to_list conditions).

Record triggered_rule := mkTriggered {
  rule_id : Z;
  rule_name : string;
  rule_type : string;
  actions : gmap string json
}.

Definition triggered (r : Z * BusinessRule.t) : triggered_rule :=
  mkTriggered r.1 (BusinessRule.name r.2) (BusinessRule.rule_type r.2)
    (BusinessRule.actions r.2).

Definition evaluate_rules (context : gmap string json) (db : Db) : list triggered_rule :=
  let active_rules := get_active_rules db in
  foldl (fun triggered_rules rule =>
           if _evaluate_conditions (BusinessRule.conditions rule.2) context
           then triggered_rules ++ [triggered rule]
           else triggered_rules)
        [] active_rules.

End BusinessRuleRepository.

(** ** app/api/workflows.py *)

(** [l[start:stop]] *)
Definition py_slice {A} (l : list A) (start stop : Z) : list A :=
  let n := Z.of_nat (length l) in
  let clamp i := if i <? 0 then Z.max 0 (i + n) else Z.min i n in
  take (Z.to_nat (clamp stop - clamp start)) (drop (Z.to_nat (clamp start)) l).

(** Truth value of a string: non-empty. *)
Definition str_truthy (s : string) : bool := negb (String.eqb s "").

(** Truth value of an optional integer query parameter: [None] and 0 are
    false. *)
Definition int_truthy (z : option Z) : bool :=
  match z with
  | None => false
  | Some n => negb (n =? 0)
  end.

Module Api.

Record WorkflowList := mkWorkflowList {
  items : list (Z * Workflow.t);
  total : Z;
  page : Z;
  size : Z;
  pages : Z
}.

(** Lines 49-57: the list the route goes on to paginate. *)
Definition select_workflows (workflow_type : option string) (db : Db)
  : exn + list (Z * Workflow.t) :=
  match workflow_type with
  | Some s =>
      if str_truthy s then
        match WorkflowType_of_value s with
        | Some workflow_type_enum =>
            inr (WorkflowRepository.get_by_type workflow_type_enum db)
        | None => inl (HTTPException HTTP_400_BAD_REQUEST "Invalid workflow type")
        end
      else inr (WorkflowRepository.get_active_workflows db)
  | None => inr (WorkflowRepository.get_active_workflows db)
  end.

Definition get_workflows (skip limit : Z) (workflow_type : option string) (db : Db)
  : exn + WorkflowList :=
  match select_workflows workflow_type db with
  | inl e => inl e
  | inr workflows =>
      let total := Z.of_nat (length workflows) in
      let paginated_workflows := py_slice workflows skip (skip + limit) in
      if limit =? 0 then inl ZeroDivisionError
      else inr (mkWorkflowList paginated_workflows total (skip / limit + 1) limit
                  ((total + limit - 1) / limit))
  end.

Record WorkflowStatistics := mkWorkflowStatistics {
  total_workflows : nat;
  active_workflows : nat;
  completed_workflows : nat;
  workflows_by_type : gmap string nat;
  workflows_by_stage : gmap string nat;
  recent_workflows : list (Z * Workflow.t)
}.

Definition get_workflow_statistics (db : Db) : WorkflowStatistics :=
  let stats := WorkflowRepository.get_workflow_statistics db in
  mkWorkflowStatistics
    (WorkflowRepository.total_workflows stats)
    (WorkflowRepository.active_workflows stats)
    0%nat
    (WorkflowRepository.workflows_by_type stats)
    ∅
    (WorkflowRepository.recent_workflows stats).

Definition create_workflow_instance (db_now : Z) (instance_data : WorkflowInstanceCreate.t)
    (db : Db) : (exn + option (Z * WorkflowInstance.t)) * Db :=
  match WorkflowRepository.get (WorkflowInstanceCreate.workflow_id instance_data) db with
  | None => (inl (HTTPException HTTP_404_NOT_FOUND "Workflow not found"), db)
  | Some _ =>
      match ProjectRepository.get (WorkflowInstanceCreate.project_id instance_data) db with
      | None => (inl (HTTPException HTTP_404_NOT_FOUND "Project not found"), db)
      | Some _ =>
          let '(instance, db') :=
            WorkflowInstanceRepository.create_workflow_instance db_now instance_data db in
          (inr instance, db')
      end
  end.

Definition transition_workflow_stage (utcnow : string) (db_now : Z) (instance_id : Z)
    (transition_data : WorkflowStageTransition.t) (current_user_id : Z) (db : Db)
  : (exn + option WorkflowInstance.t) * Db :=
  match WorkflowInstanceRepository.get instance_id db with
  | None => (inl (HTTPException HTTP_404_NOT_FOUND "Workflow instance not found"), db)
  | Some _ =>
      match
        WorkflowInstanceRepository.transition_stage utcnow db_now instance_id
          (WorkflowStageTransition.to_stage transition_data)
          (WorkflowStageTransition.transition_data transition_data)
          (Some current_user_id) db
      with
      | (inl e, db') => (inl e, db')
      | (inr updated_instance, db') =>
          (WorkflowInstanceResponse.from_orm updated_instance, db')
      end
  end.

Record WorkflowInstanceList := mkWorkflowInstanceList {
  instance_items : list (Z * WorkflowInstance.t);
  instance_total : Z;
  instance_page : Z;
  instance_size : Z;
  instance_pages : Z
}.

(** Lines 227-234.  Neither [WorkflowInstanceRepository] nor
    [BaseRepository] defines [get_all]. *)
Definition select_workflow_instances (project_id workflow_id : option Z)
    (stage : option string) (db : Db) : failure + list (Z * WorkflowInstance.t) :=
  if int_truthy project_id then
    inr (WorkflowInstanceRepository.get_by_project (default 0 project_id) db)
  else if int_truthy workflow_id then
    inr (WorkflowInstanceRepository.get_by_workflow (default 0 workflow_id) db)
  else if from_option str_truthy false stage then
    inr (WorkflowInstanceRepository.get_by_stage (default "" stage) db)
  else
    inl (AttributeError
           "'WorkflowInstanceRepository' object has no attribute 'get_all'").

Definition get_workflow_instances (skip limit : Z) (project_id workflow_id : option Z)
    (stage : option string) (db : Db) : failure + WorkflowInstanceList :=
  match select_workflow_instances project_id workflow_id stage db with
  | inl e => inl e
  | inr instances =>
      let total := Z.of_nat (length instances) in
      let paginated_instances := py_slice instances skip (skip + limit) in
      if limit =? 0 then inl (Raised ZeroDivisionError)
      else inr (mkWorkflowInstanceList paginated_instances total (skip / limit + 1)
                  limit ((total + limit - 1) / limit))
  end.

Definition update_workflow_instance (db_now : Z) (instance_id : Z)
    (instance_update : WorkflowInstanceUpdate.t) (db : Db)
  : (failure + option WorkflowInstance.t) * Db :=
  match WorkflowInstanceRepository.get instance_id db with
  | None =>
      (inl (Raised (HTTPException HTTP_404_NOT_FOUND "Workflow instance not found")), db)
  | Some instance =>
      match
        WorkflowInstanceRepository.update_workflow_instance db_now instance_id instance
          instance_update db
      with
      | (inl e, db') => (inl e, db')
      | (inr updated_instance, db') =>
          (match WorkflowInstanceResponse.from_orm updated_instance with
           | inl e => inl (Raised e)
           | inr response => inr response
           end, db')
      end
  end.

Record BusinessRuleList := mkBusinessRuleList {
  rule_items : list (Z * BusinessRule.t);
  rule_total : Z;
  rule_page : Z;
  rule_size : Z;
  rule_pages : Z
}.

Definition get_business_rules (skip limit : Z) (rule_type : option string) (db : Db)
  : exn + BusinessRuleList :=
  let rules :=
    if from_option str_truthy false rule_type
    then BusinessRuleRepository.get_by_type (default "" rule_type) db
    else BusinessRuleRepository.get_active_rules db in
  let total := Z.of_nat (length rules) in
  let paginated_rules := py_slice rules skip (skip + limit) in
  if limit =? 0 then inl ZeroDivisionError
  else inr (mkBusinessRuleList paginated_rules total (skip / limit + 1) limit
              ((total + limit - 1) / limit)).

Definition create_business_rule (db_now : Z) (rule_data : BusinessRuleCreate.t) (db : Db)
  : (Z * BusinessRule.t) * Db :=
  BusinessRuleRepository.create_business_rule db_now rule_data db.

Definition get_business_rule (rule_id : Z) (db : Db) : exn + BusinessRule.t :=
  match BusinessRuleRepository.get rule_id db with
  | None => inl (HTTPException HTTP_404_NOT_FOUND "Business rule not found")
  | Some rule => inr rule
  end.

Definition delete_business_rule (rule_id : Z) (db : Db) : (exn + unit) * Db :=
  match BusinessRuleRepository.get rule_id db with
  | None => (inl (HTTPException HTTP_404_NOT_FOUND "Business rule not found"), db)
  | Some _ => (inr tt, (BusinessRuleRepository.delete rule_id db).2)
  end.

Record evaluation := mkEvaluation {
  triggered_rules : list BusinessRuleRepository.triggered_rule;
  total_triggered : nat
}.

Definition evaluate_business_rules (context : gmap string json) (db : Db) : evaluation :=
  let triggered_rules := BusinessRuleRepository.evaluate_rules context db in
  mkEvaluation triggered_rules (length triggered_rules).

End Api.

(** ** Reference points for the properties *)

(** The row a transition leaves in the table, in closed form: what the flush
    writes depends on which JSON objects the statements replaced and which
    they changed in place. *)
Definition stored_after (db_now : Z) (utcnow new_stage : string)
    (transition_data : option (gmap string json)) (triggered_by : option Z)
    (row : WorkflowInstance.t) : WorkflowInstance.t :=
  let record :=
    WorkflowInstanceRepository.transition_record
      (WorkflowInstance.current_stage row) new_stage utcnow triggered_by transition_data in
  let same_list := list_truthy (WorkflowInstance.history row) in
  let same_dict :=
    negb (dict_truthy transition_data) || dict_truthy (WorkflowInstance.stage_data row) in
  if same_list && same_dict && String.eqb new_stage (WorkflowInstance.current_stage row)
  then row
  else
    WorkflowInstance.mk
      (WorkflowInstance.workflow_id row) (WorkflowInstance.project_id row)
      new_stage
      (if same_dict then WorkflowInstance.stage_data row else transition_data)
      (if same_list then WorkflowInstance.history row else Some [record])
      (WorkflowInstance.is_completed row)
      (WorkflowInstance.created_at row) db_now.

(** A row with another [current_stage]. *)
Definition with_current_stage (stage : string) (row : WorkflowInstance.t)
  : WorkflowInstance.t :=
  WorkflowInstance.mk
    (WorkflowInstance.workflow_id row) (WorkflowInstance.project_id row) stage
    (WorkflowInstance.stage_data row) (WorkflowInstance.history row)
    (WorkflowInstance.is_completed row)
    (WorkflowInstance.created_at row) (WorkflowInstance.updated_at row).

(** A stage name of 101 characters. *)
Definition long_stage : string := String.concat "" (replicate 101 "x").

(** The spec's words for rule matching: every key of the conditions is
    present in the context with exactly the same value. *)
Definition matches_strictly (conditions context : gmap string json) : Prop :=
  forall key expected, conditions !! key = Some expected -> context !! key = Some expected.

(** One call of [transition_stage] for the instance [id], and calls in a row,
    each on the database the one before left. *)
Record transition_call := mkCall {
  call_utcnow : string;
  call_db_now : Z;
  call_new_stage : string;
  call_transition_data : option (gmap string json);
  call_triggered_by : option Z
}.

Definition transition_calls (id : Z) (calls : list transition_call) (db : Db) : Db :=
  foldl (fun db c =>
           (WorkflowInstanceRepository.transition_stage (call_utcnow c) (call_db_now c)
              id (call_new_stage c) (call_transition_data c) (call_triggered_by c) db).2)
        db calls.

(** A small database used for the concrete runs below. *)
Definition sales_pipeline : Workflow.t :=
  Workflow.mk "Sales Pipeline" None SALES
    (<["lead" := JDict ∅]> (<["closed_won" := JDict ∅]> ∅)) None true 5 5.

Definition lead_instance : WorkflowInstance.t :=
  WorkflowInstance.mk 1 1 "lead" None None false 10 10.

Definition example_db : Db :=
  mkDb {[ 1 := sales_pipeline ]} {[ 7 := lead_instance ]} ∅
       {[ 1 := Project.mk "Website" 3 ]}.

(** * Properties *)

(** ** Queries *)

Section queries.
Context {A : Type} (created_at : A -> Z).

#[local] Instance later_first_total : Total (later_first created_at).
Proof. intros x y. unfold later_first. lia. Qed.

#[local] Instance later_first_trans : Transitive (later_first created_at).
Proof. intros x y z. unfold later_first. lia. Qed.

Lemma order_by_desc_perm (rows : list (Z * A)) :
  order_by_desc created_at rows ≡ₚ rows.
Proof. apply merge_sort_Permutation. Qed.

Lemma elem_of_order_by_desc (rows : list (Z * A)) x :
  x ∈ order_by_desc created_at rows <-> x ∈ rows.
Proof. by rewrite order_by_desc_perm. Qed.

Lemma order_by_desc_sorted (rows : list (Z * A)) :
  StronglySorted (later_first created_at) (order_by_desc created_at rows).
Proof. apply StronglySorted_merge_sort; apply _. Qed.

Lemma NoDup_order_by_desc_keys (rows : list (Z * A)) :
  NoDup rows.*1 -> NoDup (order_by_desc created_at rows).*1.
Proof. intros H. by rewrite order_by_desc_perm. Qed.
End queries.

Section tables.
Context {A : Type}.

Lemma elem_of_query_filter (cond : A -> bool) (table : gmap Z A) id row :
  (id, row) ∈ query_filter cond table <-> table !! id = Some row /\ cond row = true.
Proof.
  unfold query_filter. rewrite list_elem_of_filter, elem_of_map_to_list. cbn. tauto.
Qed.

Lemma NoDup_filter_keys (P : Z * A -> Prop) `{!forall x, Decision (P x)}
    (l : list (Z * A)) :
  NoDup l.*1 -> NoDup (filter P l).*1.
Proof.
  induction l as [|[k v] l IH]; [constructor|].
  rewrite fmap_cons, NoDup_cons. intros [Hk Hl].
  rewrite filter_cons. case_decide; [|by apply IH].
  rewrite fmap_cons. apply NoDup_cons. split; [|by apply IH].
  intros Hin. apply Hk. apply list_elem_of_fmap in Hin as [[k' v'] [-> Hin]].
  apply list_elem_of_filter in Hin as [_ Hin].
  apply list_elem_of_fmap. by exists (k', v').
Qed.

Lemma NoDup_query_filter_keys (cond : A -> bool) (table : gmap Z A) :
  NoDup (query_filter cond table).*1.
Proof. unfold query_filter. apply NoDup_filter_keys, NoDup_fst_map_to_list. Qed.

Lemma StronglySorted_filter_list (R : relation (Z * A)) (P : Z * A -> Prop)
    `{!forall x, Decision (P x)} (l : list (Z * A)) :
  StronglySorted R l -> StronglySorted R (filter P l).
Proof.
  induction 1 as [|x l Hl IH Hx]; [constructor|].
  rewrite filter_cons. case_decide; [|done].
  constructor; [done|]. apply Forall_forall. intros y Hy.
  apply list_elem_of_filter in Hy as [_ Hy].
  by eapply Forall_forall in Hx.
Qed.

Lemma StronglySorted_take_list (R : relation (Z * A)) n (l : list (Z * A)) :
  StronglySorted R l -> StronglySorted R (take n l).
Proof.
  intros H. revert n. induction H as [|x l Hl IH Hx]; intros [|n]; cbn;
    try constructor; [apply IH|].
  apply Forall_forall. intros y Hy.
  eapply Forall_forall in Hx; [done|]. eapply subseteq_take, Hy.
Qed.

(** The key given to a new row is not in use. *)
Lemma next_id_fresh (table : gmap Z A) : table !! next_id table = None.
Proof.
  destruct (table !! next_id table) as [row|] eqn:E; [|done]. exfalso.
  apply elem_of_map_to_list in E.
  assert (Hle : forall (l : list (Z * A)) k v, (k, v) ∈ l -> k <= foldr Z.max 0 l.*1).
  { induction l as [|[k' v'] l IH]; intros k v Hin; [by apply elem_of_nil in Hin|].
    cbn. apply elem_of_cons in Hin as [[= -> ->]|Hin]; [lia|].
    specialize (IH _ _ Hin). lia. }
  apply Hle in E. unfold next_id in E. lia.
Qed.
End tables.

(** ** Equality of JSON values *)

Lemma odd_part_spec p :
  0 <= (Float.odd_part p).2 /\
  Z.odd (Zpos (Float.odd_part p).1) = true /\
  Zpos p = Zpos (Float.odd_part p).1 * 2 ^ (Float.odd_part p).2.
Proof.
  induction p as [p _|p IH|]; cbn [Float.odd_part].
  - cbn. split; [lia|]. split; [done|lia].
  - destruct (Float.odd_part p) as [r k]. cbn [fst snd] in *.
    destruct IH as (Hk & Hodd & Hp). split; [lia|]. split; [done|].
    rewrite Z.pow_add_r by lia. change (Z.pos p~0) with (2 * Z.pos p). rewrite Hp. lia.
  - cbn. split; [lia|]. split; [done|lia].
Qed.

Lemma odd_times_pow_inj (r1 r2 a b : Z) :
  Z.odd r1 = true -> Z.odd r2 = true -> 0 <= a -> 0 <= b ->
  r1 * 2 ^ a = r2 * 2 ^ b -> r1 = r2 /\ a = b.
Proof.
  intros H1 H2 Ha Hb H.
  assert (Hab : a = b).
  { destruct (Z.lt_trichotomy a b) as [Hlt|[->|Hlt]]; [|done|]; exfalso.
    - replace b with (a + (b - a)) in H by lia.
      rewrite Z.pow_add_r in H by lia.
      assert (r1 = r2 * 2 ^ (b - a)).
      { apply (Z.mul_cancel_r _ _ (2 ^ a)); [|lia]. apply Z.pow_nonzero; lia. }
      subst r1. replace (b - a) with (Z.succ (b - a - 1)) in H1 by lia.
      rewrite Z.pow_succ_r in H1 by lia.
      rewrite Z.odd_mul, (Z.odd_mul 2) in H1. cbn in H1. by rewrite andb_false_r in H1.
    - replace a with (b + (a - b)) in H by lia.
      rewrite Z.pow_add_r in H by lia.
      assert (r2 = r1 * 2 ^ (a - b)).
      { apply (Z.mul_cancel_r _ _ (2 ^ b)); [|lia]. apply Z.pow_nonzero; lia. }
      subst r2. replace (a - b) with (Z.succ (a - b - 1)) in H2 by lia.
      rewrite Z.pow_succ_r in H2 by lia.
      rewrite Z.odd_mul, (Z.odd_mul 2) in H2. cbn in H2. by rewrite andb_false_r in H2. }
  split; [|done]. subst b.
  apply (Z.mul_cancel_r _ _ (2 ^ a)); [|done]. apply Z.pow_nonzero; lia.
Qed.

(* canonical decomposition: m = s * 2^k with s odd or m = 0 *)
Lemma lowest_terms_spec m e :
  let x := Float.lowest_terms m e in
  (m = 0 /\ x = Float.mk false 0 0) \/
  (m <> 0 /\ Z.odd (Float.significand x) = true /\ e <= Float.exponent x /\
   m = Float.significand x * 2 ^ (Float.exponent x - e) /\
   x = Float.mk (m <? 0) (Z.to_N (Z.abs (Float.significand x))) (Float.exponent x)).
Proof.
  destruct m as [|p|p]; cbn [Float.lowest_terms]; [by left| |]; right.
  - destruct (odd_part_spec p) as (Hk & Hodd & Hp).
    destruct (Float.odd_part p) as [r k]. cbn [fst snd] in *.
    unfold Float.significand. cbn.
    split; [done|]. split; [done|]. split; [lia|]. split; [|done].
    replace (e + k - e) with k by lia. done.
  - destruct (odd_part_spec p) as (Hk & Hodd & Hp).
    destruct (Float.odd_part p) as [r k]. cbn [fst snd] in *.
    unfold Float.significand. cbn.
    split; [done|]. split; [done|]. split; [lia|]. split; [|done].
    replace (e + k - e) with k by lia.
    change (Z.neg p) with (- Z.pos p). rewrite Hp. lia.
Qed.

Lemma value_eqb_lowest_terms m1 e1 m2 e2 :
  Float.value_eqb m1 e1 m2 e2 = true <->
  Float.lowest_terms m1 e1 = Float.lowest_terms m2 e2.
Proof.
  unfold Float.value_eqb. cbn zeta. rewrite Z.eqb_eq.
  set (e := Z.min e1 e2).
  assert (He1 : 0 <= e1 - e) by lia. assert (He2 : 0 <= e2 - e) by lia.
  assert (Hp1 : 0 < 2 ^ (e1 - e)) by (apply Z.pow_pos_nonneg; lia).
  assert (Hp2 : 0 < 2 ^ (e2 - e)) by (apply Z.pow_pos_nonneg; lia).
  destruct (lowest_terms_spec m1 e1) as [[-> ->]|(Hm1 & Ho1 & Hle1 & Hv1 & Hx1)];
  destruct (lowest_terms_spec m2 e2) as [[-> ->]|(Hm2 & Ho2 & Hle2 & Hv2 & Hx2)].
  - done.
  - split.
    + intros H. exfalso. symmetry in H. apply Z.mul_eq_0 in H. lia.
    + intros H. rewrite <- H in Ho2. done.
  - split.
    + intros H. exfalso. apply Z.mul_eq_0 in H. lia.
    + intros H. rewrite H in Ho1. done.
  - set (x1 := Float.lowest_terms m1 e1) in *. set (x2 := Float.lowest_terms m2 e2) in *.
    split.
    + intros H.
      rewrite Hv1, Hv2 in H.
      rewrite <- !Z.mul_assoc, <- !Z.pow_add_r in H by lia.
      apply odd_times_pow_inj in H as [Hs He]; [|done|done|lia|lia].
      rewrite Hx1, Hx2. f_equal.
      * rewrite Hv1, Hv2, Hs.
        assert (0 < 2 ^ (Float.exponent x1 - e1)) by (apply Z.pow_pos_nonneg; lia).
        assert (0 < 2 ^ (Float.exponent x2 - e2)) by (apply Z.pow_pos_nonneg; lia).
        destruct (Z.ltb_spec (Float.significand x2 * 2 ^ (Float.exponent x1 - e1)) 0),
                 (Z.ltb_spec (Float.significand x2 * 2 ^ (Float.exponent x2 - e2)) 0);
          try done; nia.
      * by rewrite Hs.
      * lia.
    + intros H.
      assert (Hs : Float.significand x1 = Float.significand x2) by (by rewrite H).
      assert (He : Float.exponent x1 = Float.exponent x2) by (by rewrite H).
      rewrite Hv1, Hv2, Hs, He.
      rewrite <- !Z.mul_assoc, <- !Z.pow_add_r by lia.
      do 2 f_equal. lia.
Qed.

Lemma value_eqb_sym m1 e1 m2 e2 :
  Float.value_eqb m1 e1 m2 e2 = Float.value_eqb m2 e2 m1 e1.
Proof. unfold Float.value_eqb. cbn zeta. by rewrite Z.min_comm, Z.eqb_sym. Qed.

Lemma value_eqb_int x y : Float.value_eqb x 0 y 0 = (x =? y).
Proof. unfold Float.value_eqb. cbn. by rewrite !Z.mul_1_r. Qed.

Lemma json_size_dict_lookup (d : gmap string json) k v :
  d !! k = Some v -> (json_size v < json_size (JDict d))%nat.
Proof.
  intros H. cbn [json_size].
  rewrite <- (insert_delete_id d k v H).
  rewrite map_fold_insert_L.
  - lia.
  - intros. lia.
  - apply lookup_delete_eq.
Qed.

Lemma json_size_list_elem (l : list json) v :
  v ∈ l -> (json_size v < json_size (JList l))%nat.
Proof.
  intros H. cbn [json_size]. induction H; cbn; lia.
Qed.

Lemma json_ind' (P : json -> Prop) :
  P JNull -> (forall b, P (JBool b)) -> (forall z, P (JInt z)) ->
  (forall x, P (JFloat x)) -> (forall s, P (JStr s)) ->
  (forall l, Forall P l -> P (JList l)) ->
  (forall d, map_Forall (fun _ => P) d -> P (JDict d)) ->
  forall j, P j.
Proof.
  intros Hn Hb Hi Hf Hs Hl Hd j.
  remember (json_size j) as n eqn:Hsize. revert j Hsize.
  induction n as [n IH] using lt_wf_ind. intros j ->.
  destruct j as [| | | | |l|d]; auto.
  - apply Hl, Forall_forall. intros v Hv.
    apply (IH (json_size v)); [by apply json_size_list_elem|done].
  - apply Hd. intros k v Hk.
    apply (IH (json_size v)); [by eapply json_size_dict_lookup|done].
Qed.

Lemma py_eq_list (xs ys : list json) :
  py_eq (JList xs) (JList ys) = true <-> Forall2 (fun x y => py_eq x y = true) xs ys.
Proof.
  cbn [py_eq]. revert ys. induction xs as [|x xs IH]; intros [|y ys].
  - split; [constructor|done].
  - split; [done|inversion 1].
  - split; [done|inversion 1].
  - rewrite andb_true_iff, IH, Forall2_cons. done.
Qed.

Lemma py_eq_dict (m1 m2 : gmap string json) :
  py_eq (JDict m1) (JDict m2) = true <->
  size m1 = size m2 /\
  forall k v, m1 !! k = Some v -> exists w, m2 !! k = Some w /\ py_eq v w = true.
Proof.
  cbn [py_eq]. rewrite andb_true_iff, bool_decide_eq_true.
  apply and_iff_compat_l.
  induction m1 as [|k v m1 Hk Hfold IH] using map_first_key_ind.
  - rewrite map_fold_empty. split; [|done]. intros _ k v H. by rewrite lookup_empty in H.
  - rewrite map_fold_insert_first_key by done.
    rewrite andb_true_iff, IH. split.
    + intros [Hall Hv] k' v' Hk'.
      destruct (decide (k = k')) as [<-|Hne].
      * rewrite lookup_insert_eq in Hk'. injection Hk' as <-.
        destruct (m2 !! k) as [w|]; [by exists w|done].
      * rewrite lookup_insert_ne in Hk' by done. by apply Hall.
    + intros Hall. split.
      * intros k' v' Hk'. apply Hall. rewrite lookup_insert_ne; [done|].
        intros <-. congruence.
      * destruct (Hall k v) as (w & -> & Hw); [apply lookup_insert_eq|done].
Qed.

Lemma JFloat_inj_iff x y : JFloat x = JFloat y <-> x = y.
Proof. split; congruence. Qed.

Lemma py_eq_numbers_by_value (a b : json) :
  py_eq a b = true <-> numbers_by_value a = numbers_by_value b.
Proof.
  revert b. induction a as [|x|x|x|x|xs IH|m1 IH] using json_ind'; intros b.
  - destruct b; cbn; split; congruence.
  - destruct b as [|y|y|y| | |]; cbn [py_eq numbers_by_value]; try (split; congruence);
      rewrite JFloat_inj_iff, <- value_eqb_lowest_terms.
    + rewrite value_eqb_int. by destruct x, y.
    + by rewrite value_eqb_int.
    + unfold Float.eq_int. by rewrite value_eqb_sym.
  - destruct b as [|y|y|y| | |]; cbn [py_eq numbers_by_value]; try (split; congruence);
      rewrite JFloat_inj_iff, <- value_eqb_lowest_terms.
    + by rewrite value_eqb_int.
    + by rewrite value_eqb_int.
    + unfold Float.eq_int. by rewrite value_eqb_sym.
  - destruct b as [|y|y|y| | |]; cbn [py_eq numbers_by_value]; try (split; congruence);
      by rewrite JFloat_inj_iff, <- value_eqb_lowest_terms.
  - destruct b as [| | | |y| |]; cbn; try (split; congruence).
    rewrite String.eqb_eq. split; congruence.
  - destruct b as [| | | | |ys|]; try (cbn; split; congruence).
    rewrite py_eq_list. cbn [numbers_by_value].
    split.
    + intros H. f_equal. induction H as [|x y xs ys Hxy H IH']; [done|].
      apply Forall_cons in IH as [Hx IHxs].
      rewrite !fmap_cons. f_equal; [by apply Hx|by apply IH'].
    + intros [= H]. revert ys H. induction xs as [|x xs IH']; intros [|y ys] H;
        try discriminate; [constructor|].
      apply Forall_cons in IH as [Hx IHxs]. rewrite !fmap_cons in H.
      injection H as Hxy H. constructor; [by apply Hx|by apply IH'].
  - destruct b as [| | | | | |m2]; try (cbn; split; congruence).
    rewrite py_eq_dict. cbn [numbers_by_value]. split.
    + intros [Hsize Hall]. f_equal. apply map_eq. intros k.
      rewrite !lookup_fmap.
      destruct (m1 !! k) as [v|] eqn:Hk.
      * destruct (Hall _ _ Hk) as (w & -> & Hw). cbn. f_equal.
        by apply (IH k v Hk).
      * destruct (m2 !! k) as [w|] eqn:Hk2; [|done]. exfalso.
        assert (Hsub : dom m1 ⊆ dom m2).
        { intros k' Hk'. apply elem_of_dom in Hk' as [v' Hv'].
          destruct (Hall _ _ Hv') as (w' & Hw' & _). apply elem_of_dom. eauto. }
        assert (Heq : dom m1 ≡ dom m2).
        { apply set_subseteq_size_equiv; [done|]. rewrite !size_dom. lia. }
        assert (Hin : k ∈ dom m1) by (rewrite Heq; apply elem_of_dom; eauto).
        apply elem_of_dom in Hin as [? ?]. congruence.
    + intros [= H]. split.
      * by rewrite <- (map_size_fmap numbers_by_value m1), H, map_size_fmap.
      * intros k v Hk.
        assert (Hl : (numbers_by_value <$> m1) !! k = (numbers_by_value <$> m2) !! k)
          by by rewrite H.
        rewrite !lookup_fmap, Hk in Hl. cbn in Hl.
        destruct (m2 !! k) as [w|]; [|done]. exists w. split; [done|].
        apply (IH k v Hk). by injection Hl.
Qed.

(** ** Business rules *)

Section rules.
Import BusinessRuleRepository.

Lemma evaluate_conditions_true (conditions context : gmap string json) :
  _evaluate_conditions conditions context = true <->
  forall key expected, conditions !! key = Some expected ->
    exists v, context !! key = Some v /\ py_eq v expected = true.
Proof.
  unfold _evaluate_conditions. rewrite forallb_forall. split.
  - intros H key expected Hk.
    specialize (H (key, expected)). cbn in H.
    destruct (context !! key) as [v|].
    + exists v. split; [done|]. unfold py_ne in H.
      rewrite negb_involutive in H. apply H.
      apply list_elem_of_In. by apply elem_of_map_to_list.
    + discriminate H. apply list_elem_of_In. by apply elem_of_map_to_list.
  - intros H [key expected] Hin.
    apply list_elem_of_In, elem_of_map_to_list in Hin.
    destruct (H _ _ Hin) as (v & -> & Hv).
    unfold py_ne. by rewrite Hv.
Qed.

Lemma evaluate_conditions_false (conditions context : gmap string json) key expected :
  conditions !! key = Some expected ->
  match context !! key with
  | None => True
  | Some v => py_ne v expected = true
  end ->
  _evaluate_conditions conditions context = false.
Proof.
  intros Hk Hv. apply not_true_is_false. rewrite evaluate_conditions_true.
  intros H. destruct (H _ _ Hk) as (v & Hc & Heq).
  rewrite Hc in Hv. unfold py_ne in Hv. rewrite Heq in Hv. discriminate.
Qed.

Lemma evaluate_rules_filter (context : gmap string json) (db : Db) :
  evaluate_rules context db =
  triggered <$>
    filter (fun r => _evaluate_conditions (BusinessRule.conditions r.2) context = true)
           (get_active_rules db).
Proof.
  unfold evaluate_rules. cbn zeta.
  assert (H : forall (rs : list (Z * BusinessRule.t)) acc,
    foldl (fun triggered_rules rule =>
             if _evaluate_conditions (BusinessRule.conditions rule.2) context
             then triggered_rules ++ [triggered rule]
             else triggered_rules) acc rs =
    acc ++ (triggered <$>
              filter (fun r => _evaluate_conditions (BusinessRule.conditions r.2) context
                               = true) rs)).
  { induction rs as [|r rs IH]; intros acc; cbn [foldl].
    - by rewrite filter_nil, fmap_nil, app_nil_r.
    - rewrite IH, filter_cons.
      destruct (_evaluate_conditions (BusinessRule.conditions r.2) context) eqn:E.
      + rewrite decide_True by done. by rewrite fmap_cons, <- app_assoc.
      + rewrite decide_False by done. done. }
  apply (H _ []).
Qed.

Lemma elem_of_get_active_rules (db : Db) id rule :
  (id, rule) ∈ get_active_rules db <->
  business_rules db !! id = Some rule /\ BusinessRule.is_active rule = true.
Proof.
  unfold get_active_rules. by rewrite elem_of_order_by_desc, elem_of_query_filter.
Qed.
End rules.

(** ** Stage transitions *)

Section transitions.
Import WorkflowInstanceRepository.

Lemma alter_lookup_insert {A} (f : A -> A) (id : Z) (m : gmap Z A) x :
  m !! id = Some x -> alter f id m = <[id := f x]> m.
Proof.
  intros H. apply map_eq. intros j. destruct (decide (id = j)) as [->|Hne].
  - by rewrite lookup_alter_eq, lookup_insert_eq, H.
  - by rewrite lookup_alter_ne, lookup_insert_ne.
Qed.

Lemma py_eq_dict_size (m1 m2 : gmap string json) :
  size m1 <> size m2 -> py_eq (JDict m1) (JDict m2) = false.
Proof. intros H. cbn. by rewrite bool_decide_eq_false_2. Qed.

Lemma py_eq_dict_nonempty_empty (m : gmap string json) :
  m <> ∅ -> py_eq (JDict (m ∪ ∅)) (JDict ∅) = false.
Proof.
  intros H. apply py_eq_dict_size. rewrite (right_id_L ∅ (∪)), map_size_empty.
  by apply map_size_non_empty_iff.
Qed.

Lemma py_eq_list_cons_nil x l : py_eq (JList (x :: l)) (JList []) = false.
Proof. done. Qed.

Ltac run_session :=
  repeat (progress (
    unfold transition_assignments, bind, ret, get_current_stage, history_or_new,
      stage_data_or_new, list_append, dict_update, set_history, set_stage_data,
      set_current_stage, load, collect_update_commands, apply_update,
      nothing_to_write, Py.list_true, Py.dict_true, Py.list_is_equal,
      Py.dict_is_equal, Py.alloc_list, Py.alloc_dict, Py.append, Py.update,
      Py.get_list, Py.get_dict, Py.empty, dict_truthy, list_truthy;
    cbn -[transition_record py_eq String.eqb];
    repeat case_bool_decide; repeat case_decide; subst; try congruence; try lia;
    rewrite ?py_eq_dict_nonempty_empty by done;
    rewrite ?py_eq_list_cons_nil)).

(** What the flush at the end of the statements writes. *)
Lemma flush_stored utcnow db_now new_stage td user row :
  apply_update db_now
    (collect_update_commands
       (transition_assignments utcnow new_stage td user (load row)).2) row
  = stored_after db_now utcnow new_stage td user row.
Proof.
  destruct row as [wf pid cs sd hi done ca ua].
  unfold stored_after.
  destruct hi as [[|x hi]|]; destruct sd as [sd|]; destruct td as [td|].
  all: run_session.
  all: rewrite ?(String.eqb_sym new_stage cs).
  all: rewrite ?(right_id_L ∅ (∪)).
  all: destruct (String.eqb cs new_stage) eqn:E;
    [apply String.eqb_eq in E; subst|]; done.
Qed.

(** The statements themselves do put the record at the end of the list the
    attribute holds, whichever object that is. *)
Lemma assignments_append utcnow new_stage td user row :
  let s := (transition_assignments utcnow new_stage td user (load row)).2 in
  flip Py.get_list s.1 <$> o_history s.2 =
  Some (default [] (WorkflowInstance.history row) ++
        [transition_record (WorkflowInstance.current_stage row) new_stage utcnow user td]).
Proof.
  destruct row as [wf pid cs sd hi done ca ua].
  destruct hi as [[|x hi]|]; destruct sd as [sd|]; destruct td as [td|].
  all: run_session; done.
Qed.

Lemma stored_after_current_stage db_now utcnow new_stage td user row :
  WorkflowInstance.current_stage (stored_after db_now utcnow new_stage td user row)
  = new_stage.
Proof.
  unfold stored_after. cbn zeta.
  destruct (list_truthy _ && _ && String.eqb _ _) eqn:E; [|done].
  apply andb_true_iff in E as [_ E]. by apply String.eqb_eq in E.
Qed.

Lemma stored_after_history db_now utcnow new_stage td user row :
  WorkflowInstance.history (stored_after db_now utcnow new_stage td user row) =
  if list_truthy (WorkflowInstance.history row) then WorkflowInstance.history row
  else Some [transition_record (WorkflowInstance.current_stage row) new_stage
               utcnow user td].
Proof.
  unfold stored_after. cbn zeta.
  destruct (list_truthy (WorkflowInstance.history row)); cbn; [|done].
  by destruct (_ && _).
Qed.

Lemma stored_after_stage_data db_now utcnow new_stage td user row :
  WorkflowInstance.stage_data (stored_after db_now utcnow new_stage td user row) =
  if negb (dict_truthy td) || dict_truthy (WorkflowInstance.stage_data row)
  then WorkflowInstance.stage_data row else td.
Proof.
  unfold stored_after. cbn zeta.
  destruct (negb (dict_truthy td) || dict_truthy (WorkflowInstance.stage_data row));
    cbn; [|by rewrite andb_false_r].
  by destruct (_ && _).
Qed.

Lemma stored_after_frame db_now utcnow new_stage td user row :
  let row' := stored_after db_now utcnow new_stage td user row in
  WorkflowInstance.workflow_id row' = WorkflowInstance.workflow_id row /\
  WorkflowInstance.project_id row' = WorkflowInstance.project_id row /\
  WorkflowInstance.is_completed row' = WorkflowInstance.is_completed row /\
  WorkflowInstance.created_at row' = WorkflowInstance.created_at row.
Proof. unfold stored_after. cbn zeta. by destruct (_ && _). Qed.
Lemma flush_current_stage utcnow new_stage td user row :
  p_current_stage
    (collect_update_commands
       (transition_assignments utcnow new_stage td user (load row)).2)
  = if String.eqb new_stage (WorkflowInstance.current_stage row) then None
    else Some new_stage.
Proof.
  destruct row as [wf pid cs sd hi done ca ua].
  destruct hi as [[|x hi]|]; destruct sd as [sd|]; destruct td as [td|].
  all: run_session; done.
Qed.

Lemma varchar_fits n s : (String.length s <= n)%nat -> varchar n s = Some s.
Proof. intros H. unfold varchar. by rewrite (proj2 (Nat.leb_le _ _) H). Qed.

Lemma length_substring_prefix n s :
  (n <= String.length s)%nat -> String.length (String.substring 0 n s) = n.
Proof.
  revert s. induction n as [|n IH]; intros s H.
  - by destruct s.
  - destruct s as [|c s]; cbn in *; [lia|]. rewrite IH; [done|lia].
Qed.

(** What the column stores is never longer than the column, and is empty
    only for the empty string. *)
Lemma varchar_stored n s stored :
  varchar n s = Some stored ->
  (String.length stored <= n)%nat /\ ((0 < n)%nat -> s <> "" -> stored <> "").
Proof.
  unfold varchar. destruct (Nat.leb_spec (String.length s) n) as [Hle|Hgt].
  - intros [= <-]. by split.
  - destruct (forallb _ _); [|done]. intros [= <-].
    assert (Hlen : String.length (String.substring 0 n s) = n)
      by (apply length_substring_prefix; lia).
    split; [lia|]. intros Hn _ Hs. rewrite Hs in Hlen. cbn in Hlen. lia.
Qed.

Lemma apply_update_stored_stage db_now stage stored sd hi row :
  apply_update db_now (mkParams (Some stored) sd hi) row
  = with_current_stage stored (apply_update db_now (mkParams (Some stage) sd hi) row).
Proof. done. Qed.

Lemma with_current_stage_id row :
  with_current_stage (WorkflowInstance.current_stage row) row = row.
Proof. by destruct row. Qed.

(** Every path of [transition_stage] for an existing instance. *)
Lemma transition_stage_outcome utcnow db_now id new_stage td user db row :
  get id db = Some row ->
  transition_stage utcnow db_now id new_stage td user db =
    let row' := stored_after db_now utcnow new_stage td user row in
    if String.eqb new_stage (WorkflowInstance.current_stage row)
    then (inr (Some row'),
          set_workflow_instances (<[id := row']> (workflow_instances db)) db)
    else
      match varchar 100 new_stage with
      | Some stored =>
          (inr (Some (with_current_stage stored row')),
           set_workflow_instances
             (<[id := with_current_stage stored row']> (workflow_instances db)) db)
      | None => (inl DataError, db)
      end.
Proof.
  intros Hget. unfold transition_stage. rewrite Hget.
  pose proof (flush_stored utcnow db_now new_stage td user row) as Hflush.
  pose proof (flush_current_stage utcnow new_stage td user row) as Hstage.
  destruct (transition_assignments utcnow new_stage td user (load row)) as [u s].
  cbn [snd] in Hflush, Hstage. unfold commit, column_values, get in *.
  destruct (collect_update_commands s) as [p_cs p_sd p_hi].
  cbn [p_current_stage p_stage_data p_history] in *.
  destruct (String.eqb new_stage (WorkflowInstance.current_stage row)); subst p_cs.
  - rewrite (alter_lookup_insert _ _ _ _ Hget), Hflush. cbn.
    by rewrite lookup_insert_eq.
  - destruct (varchar 100 new_stage) as [stored|]; [|done].
    rewrite (alter_lookup_insert _ _ _ _ Hget).
    rewrite (apply_update_stored_stage _ new_stage), Hflush. cbn.
    by rewrite lookup_insert_eq.
Qed.

Lemma transition_stage_stored utcnow db_now id new_stage td user db row :
  get id db = Some row ->
  (String.length new_stage <= 100)%nat ->
  transition_stage utcnow db_now id new_stage td user db =
    (inr (Some (stored_after db_now utcnow new_stage td user row)),
     set_workflow_instances
       (<[id := stored_after db_now utcnow new_stage td user row]>
          (workflow_instances db)) db).
Proof.
  intros Hget Hfits. rewrite (transition_stage_outcome _ _ _ _ _ _ _ _ Hget). cbn zeta.
  destruct (String.eqb new_stage (WorkflowInstance.current_stage row)); [done|].
  rewrite (varchar_fits _ _ Hfits).
  pose proof (with_current_stage_id (stored_after db_now utcnow new_stage td user row))
    as Hid.
  rewrite stored_after_current_stage in Hid. by rewrite Hid.
Qed.

(** Whatever the path, the row is still under its id, with the frame fields
    and, where the flush has nothing to write for them, the JSON columns of
    the row [stored_after] describes. *)
Lemma transition_stage_row utcnow db_now id new_stage td user db row :
  get id db = Some row ->
  (transition_stage utcnow db_now id new_stage td user db = (inl DataError, db) /\
   String.eqb new_stage (WorkflowInstance.current_stage row) = false /\
   varchar 100 new_stage = None) \/
  (exists stage,
     transition_stage utcnow db_now id new_stage td user db =
       (inr (Some (with_current_stage stage
                     (stored_after db_now utcnow new_stage td user row))),
        set_workflow_instances
          (<[id := with_current_stage stage
                     (stored_after db_now utcnow new_stage td user row)]>
             (workflow_instances db)) db) /\
     (String.eqb new_stage (WorkflowInstance.current_stage row) = true /\
      stage = new_stage \/
      String.eqb new_stage (WorkflowInstance.current_stage row) = false /\
      varchar 100 new_stage = Some stage)).
Proof.
  intros Hget.
  rewrite (transition_stage_outcome _ _ _ _ _ _ _ _ Hget). cbn zeta.
  destruct (String.eqb new_stage (WorkflowInstance.current_stage row)) eqn:E.
  - right. exists new_stage. split; [|by left].
    pose proof (with_current_stage_id (stored_after db_now utcnow new_stage td user row))
      as Hid.
    rewrite stored_after_current_stage in Hid. by rewrite Hid.
  - destruct (varchar 100 new_stage) as [st|] eqn:Ev; [|by left].
    right. exists st. split; [done|]. by right.
Qed.

(** The database after the call, on every path: the row under [id] is
    replaced by one with the same frame fields (by itself, when the commit
    raises). *)
Lemma transition_stage_db utcnow db_now id new_stage td user db row :
  get id db = Some row ->
  exists row',
    (transition_stage utcnow db_now id new_stage td user db).2 =
      set_workflow_instances (<[id := row']> (workflow_instances db)) db /\
    WorkflowInstance.workflow_id row' = WorkflowInstance.workflow_id row /\
    WorkflowInstance.project_id row' = WorkflowInstance.project_id row /\
    WorkflowInstance.is_completed row' = WorkflowInstance.is_completed row /\
    WorkflowInstance.created_at row' = WorkflowInstance.created_at row /\
    ((String.length new_stage <= 100)%nat ->
     WorkflowInstance.current_stage row' = new_stage).
Proof.
  intros Hget.
  destruct (stored_after_frame db_now utcnow new_stage td user row) as (H1 & H2 & H3 & H4).
  destruct (transition_stage_row utcnow db_now id new_stage td user db row Hget)
    as [(Hres & Hne & Hrefused)|(stage & Hres & Hstage)]; rewrite Hres; cbn [snd].
  - exists row. split.
    { unfold get in Hget. rewrite (insert_id _ _ _ Hget). by destruct db. }
    repeat (split; [done|]).
    intros Hfits. by rewrite (varchar_fits _ _ Hfits) in Hrefused.
  - eexists. split; [reflexivity|]. repeat (split; [done|]). cbn.
    intros Hfits. destruct Hstage as [[_ ->]|[_ Hv]]; [done|].
    rewrite (varchar_fits _ _ Hfits) in Hv. by injection Hv.
Qed.

Lemma transition_stage_missing utcnow db_now id new_stage td user db :
  get id db = None ->
  transition_stage utcnow db_now id new_stage td user db =
    (inl (ValueError "Workflow instance not found"), db).
Proof. intros H. unfold transition_stage. by rewrite H. Qed.

End transitions.

(** ** The properties, one by one *)

(** C1.  Rule matching is an AND of equalities under Python's [==]: the
    predicate is true exactly when every key of the conditions is present in
    the context with a value that [==] the expected one, and two values are
    [==] exactly when they are the same once every number (boolean, integer
    or float) is read by its value, [true] as 1 and [1.0] as 1.
    Hence conditions met with exactly the expected values match, empty
    conditions match every context, and a missing key or a value that [!=]
    the expected one makes the rule not match; the expected value [1]
    matches [1.0], and [1.5] does not match [1]. *)
Theorem evaluate_conditions_and_of_equalities :
  (forall conditions context : gmap string json,
     BusinessRuleRepository._evaluate_conditions conditions context = true <->
     forall key expected, conditions !! key = Some expected ->
       exists v, context !! key = Some v /\ py_eq v expected = true) /\
  (forall a b : json, py_eq a b = true <-> numbers_by_value a = numbers_by_value b) /\
  (forall conditions context : gmap string json,
     matches_strictly conditions context ->
     BusinessRuleRepository._evaluate_conditions conditions context = true) /\
  (forall context : gmap string json,
     BusinessRuleRepository._evaluate_conditions ∅ context = true) /\
  (forall (conditions context : gmap string json) key,
     is_Some (conditions !! key) -> context !! key = None ->
     BusinessRuleRepository._evaluate_conditions conditions context = false) /\
  (forall (conditions context : gmap string json) key expected v,
     conditions !! key = Some expected -> context !! key = Some v ->
     py_ne v expected = true ->
     BusinessRuleRepository._evaluate_conditions conditions context = false) /\
  BusinessRuleRepository._evaluate_conditions
    {[ "amount" := JInt 1 ]} {[ "amount" := JFloat (Float.mk false 1 0) ]} = true /\
  BusinessRuleRepository._evaluate_conditions
    {[ "amount" := JFloat (Float.mk false 3 (-1)) ]} {[ "amount" := JInt 1 ]} = false.
Proof.
  split; [apply evaluate_conditions_true|].
  split; [apply py_eq_numbers_by_value|]. split; [|split; [|split; [|split]]].
  - intros conditions context H. apply evaluate_conditions_true.
    intros key expected Hk. exists expected. split; [by apply H|].
    by apply py_eq_numbers_by_value.
  - intros context. apply evaluate_conditions_true. intros key expected H.
    by rewrite lookup_empty in H.
  - intros conditions context key [expected Hk] Hc.
    apply (evaluate_conditions_false _ _ _ _ Hk). by rewrite Hc.
  - intros conditions context key expected v Hk Hc Hne.
    apply (evaluate_conditions_false _ _ _ _ Hk). by rewrite Hc.
  - by vm_compute.
Qed.

(** C1, as stated, fails: with conditions [{"flag": 1}] and context
    [{"flag": true}] the rule matches, although the context value [true] is
    not the value [1]. *)
Lemma evaluate_conditions_not_strict :
  BusinessRuleRepository._evaluate_conditions
    {[ "flag" := JInt 1 ]} {[ "flag" := JBool true ]} = true /\
  ~ matches_strictly {[ "flag" := JInt 1 ]} {[ "flag" := JBool true ]}.
Proof.
  split; [by vm_compute|].
  intros H. specialize (H "flag" (JInt 1)).
  rewrite !lookup_singleton_eq in H. by specialize (H eq_refl).
Qed.

(** C3.  [evaluate_rules] returns one entry per rule that is active and whose
    conditions match the context, and nothing else, latest created first; a
    rule that is not active has no entry. *)
Theorem evaluate_rules_active_matching (context : gmap string json) (db : Db) :
  let out := BusinessRuleRepository.evaluate_rules context db in
  (forall e, e ∈ out <->
     exists id rule,
       business_rules db !! id = Some rule /\
       BusinessRule.is_active rule = true /\
       BusinessRuleRepository._evaluate_conditions (BusinessRule.conditions rule) context
         = true /\
       e = BusinessRuleRepository.mkTriggered id (BusinessRule.name rule)
             (BusinessRule.rule_type rule) (BusinessRule.actions rule)) /\
  NoDup (BusinessRuleRepository.rule_id <$> out) /\
  (exists rows,
     out = BusinessRuleRepository.triggered <$> rows /\
     StronglySorted (later_first BusinessRule.created_at) rows /\
     forall id rule, (id, rule) ∈ rows -> business_rules db !! id = Some rule) /\
  (forall id rule,
     business_rules db !! id = Some rule -> BusinessRule.is_active rule = false ->
     id ∉ BusinessRuleRepository.rule_id <$> out).
Proof.
  intros out. subst out. rewrite evaluate_rules_filter.
  set (rows := filter _ (BusinessRuleRepository.get_active_rules db)).
  assert (Hrows : forall id rule, (id, rule) ∈ rows <->
            business_rules db !! id = Some rule /\
            BusinessRule.is_active rule = true /\
            BusinessRuleRepository._evaluate_conditions
              (BusinessRule.conditions rule) context = true).
  { intros id rule. unfold rows.
    rewrite list_elem_of_filter, elem_of_get_active_rules. cbn. tauto. }
  assert (Hids : BusinessRuleRepository.rule_id <$>
                   (BusinessRuleRepository.triggered <$> rows) = rows.*1).
  { rewrite <- list_fmap_compose. by apply list_fmap_ext. }
  assert (Hnodup : NoDup rows.*1).
  { unfold rows, BusinessRuleRepository.get_active_rules.
    apply NoDup_filter_keys, NoDup_order_by_desc_keys, NoDup_query_filter_keys. }
  split; [|split; [|split]].
  - intros e. rewrite list_elem_of_fmap. split.
    + intros [[id rule] [-> Hin]]. apply Hrows in Hin as (H1 & H2 & H3).
      by exists id, rule.
    + intros (id & rule & H1 & H2 & H3 & ->). exists (id, rule).
      split; [reflexivity|]. apply Hrows. auto.
  - by rewrite Hids.
  - exists rows. split; [done|]. split.
    + apply StronglySorted_filter_list, order_by_desc_sorted.
    + intros id rule Hin. by apply Hrows in Hin as [? _].
  - intros id rule Hget Hoff. rewrite Hids.
    intros Hin. apply list_elem_of_fmap in Hin as [[id' rule'] [Hid Hin]].
    cbn in Hid. subst id'. apply Hrows in Hin as (Hget' & Hon & _).
    congruence.
Qed.

(** An instance whose history already holds a record keeps that history
    through a transition: the record is appended to the very list object the
    attribute was loaded with, the assignment puts the same object back, and
    the flush finds nothing to write for the column. *)
Lemma transition_stage_keeps_history utcnow db_now id new_stage td user db row :
  WorkflowInstanceRepository.get id db = Some row ->
  list_truthy (WorkflowInstance.history row) = true ->
  WorkflowInstance.history <$>
    WorkflowInstanceRepository.get id
      (WorkflowInstanceRepository.transition_stage utcnow db_now id new_stage td user db).2
  = Some (WorkflowInstance.history row).
Proof.
  intros Hget Hh.
  destruct (transition_stage_row utcnow db_now id new_stage td user db row Hget)
    as [(-> & _)|(stage & -> & _)]; cbn [snd].
  - by rewrite Hget.
  - unfold WorkflowInstanceRepository.get. cbn.
    rewrite lookup_insert_eq. cbn. by rewrite stored_after_history, Hh.
Qed.

(** Likewise a non-empty [stage_data] is kept as it is, whatever the
    transition data. *)
Lemma transition_stage_keeps_stage_data utcnow db_now id new_stage td user db row :
  WorkflowInstanceRepository.get id db = Some row ->
  dict_truthy (WorkflowInstance.stage_data row) = true ->
  WorkflowInstance.stage_data <$>
    WorkflowInstanceRepository.get id
      (WorkflowInstanceRepository.transition_stage utcnow db_now id new_stage td user db).2
  = Some (WorkflowInstance.stage_data row).
Proof.
  intros Hget Hd.
  destruct (transition_stage_row utcnow db_now id new_stage td user db row Hget)
    as [(-> & _)|(stage & -> & _)]; cbn [snd].
  - by rewrite Hget.
  - unfold WorkflowInstanceRepository.get. cbn.
    rewrite lookup_insert_eq. cbn. by rewrite stored_after_stage_data, Hd, orb_true_r.
Qed.

(** The first transition of an instance without history and stage data, to a
    stage that fits the column, records both. *)
Lemma transition_stage_first utcnow db_now id new_stage td user db row :
  WorkflowInstanceRepository.get id db = Some row ->
  (String.length new_stage <= 100)%nat ->
  list_truthy (WorkflowInstance.history row) = false ->
  dict_truthy (WorkflowInstance.stage_data row) = false ->
  dict_truthy (Some td) = true ->
  exists row',
    WorkflowInstanceRepository.get id
      (WorkflowInstanceRepository.transition_stage utcnow db_now id new_stage
         (Some td) user db).2 = Some row' /\
    WorkflowInstance.history row' =
      Some [WorkflowInstanceRepository.transition_record
              (WorkflowInstance.current_stage row) new_stage utcnow user (Some td)] /\
    WorkflowInstance.stage_data row' = Some td.
Proof.
  intros Hget Hfits Hh Hd Htd.
  rewrite (transition_stage_stored _ _ _ _ _ _ _ _ Hget Hfits).
  eexists. cbn [snd]. unfold WorkflowInstanceRepository.get. cbn.
  rewrite lookup_insert_eq. split; [done|].
  by rewrite stored_after_history, stored_after_stage_data, Hh, Hd, Htd.
Qed.

(** C2.  Two transitions in a row of the instance of [example_db]: the first
    stores its record, the second moves the stage to ["proposal"] but leaves
    the stored history at the one record of the first. *)
Theorem transition_stage_second_record_not_stored :
  let first :=
    WorkflowInstanceRepository.transition_stage "2024-05-01T09:00:00" 20 7
      "qualification" None (Some 3) example_db in
  let second :=
    WorkflowInstanceRepository.transition_stage "2024-05-02T09:00:00" 30 7
      "proposal" None (Some 3) first.2 in
  first.1 =
    inr (Some (WorkflowInstance.mk 1 1 "qualification" None
                 (Some [WorkflowInstanceRepository.transition_record "lead"
                          "qualification" "2024-05-01T09:00:00" (Some 3) None])
                 false 10 20)) /\
  second.1 =
    inr (Some (WorkflowInstance.mk 1 1 "proposal" None
                 (Some [WorkflowInstanceRepository.transition_record "lead"
                          "qualification" "2024-05-01T09:00:00" (Some 3) None])
                 false 10 30)) /\
  WorkflowInstanceRepository.get 7 second.2 =
    Some (WorkflowInstance.mk 1 1 "proposal" None
            (Some [WorkflowInstanceRepository.transition_record "lead"
                     "qualification" "2024-05-01T09:00:00" (Some 3) None])
            false 10 30).
Proof. by vm_compute. Qed.

(** C4.  The spec's own example: with [stage_data = {"b": 2}] stored, a
    transition with [transition_data = {"a": 1}] leaves [{"b": 2}] stored;
    the key ["a"] is not there. *)
Theorem transition_stage_merge_not_stored :
  let db :=
    set_workflow_instances
      {[ 7 := WorkflowInstance.mk 1 1 "lead" (Some {[ "b" := JInt 2 ]}) None false 10 10 ]}
      example_db in
  let after :=
    WorkflowInstanceRepository.transition_stage "2024-05-01T09:00:00" 20 7
      "qualification" (Some {[ "a" := JInt 1 ]}) (Some 3) db in
  (WorkflowInstance.stage_data <$> WorkflowInstanceRepository.get 7 after.2)
    = Some (Some {[ "b" := JInt 2 ]}) /\
  (WorkflowInstance.current_stage <$> WorkflowInstanceRepository.get 7 after.2)
    = Some "qualification" /\
  (WorkflowInstance.stage_data <$> WorkflowInstanceRepository.get 7 after.2)
    <> Some (Some (<[ "a" := JInt 1 ]> {[ "b" := JInt 2 ]})).
Proof. by vm_compute. Qed.

(** The route for an existing instance and a stage of 1 to 100 characters:
    the commit goes through and the response schema accepts the row. *)
Lemma transition_workflow_stage_stored utcnow db_now id request user db row :
  WorkflowInstanceRepository.get id db = Some row ->
  (1 <= String.length (WorkflowStageTransition.to_stage request) <= 100)%nat ->
  Api.transition_workflow_stage utcnow db_now id request user db =
    (inr (Some (stored_after db_now utcnow (WorkflowStageTransition.to_stage request)
                  (WorkflowStageTransition.transition_data request) (Some user) row)),
     set_workflow_instances
       (<[id := stored_after db_now utcnow (WorkflowStageTransition.to_stage request)
                  (WorkflowStageTransition.transition_data request) (Some user) row]>
          (workflow_instances db)) db).
Proof.
  intros Hget [Hmin Hmax]. unfold Api.transition_workflow_stage. rewrite Hget.
  rewrite (transition_stage_stored _ _ _ _ _ _ _ _ Hget Hmax).
  unfold WorkflowInstanceResponse.from_orm.
  rewrite stored_after_current_stage.
  by rewrite (proj2 (Nat.leb_le _ _) Hmin), (proj2 (Nat.leb_le _ _) Hmax).
Qed.

(** C5.  A transition of an existing instance to a stage of 1 to 100
    characters goes through and leaves [current_stage] at that stage; the
    outcome is the same whatever [from_stage], [notes] and [triggered_by]
    the request carries and whatever the workflows table holds (the
    declared stages of the parent workflow included). *)
Theorem transition_unconditional utcnow db_now id request user db row :
  WorkflowInstanceRepository.get id db = Some row ->
  (1 <= String.length (WorkflowStageTransition.to_stage request) <= 100)%nat ->
  exists row',
    (Api.transition_workflow_stage utcnow db_now id request user db).1
      = inr (Some row') /\
    WorkflowInstanceRepository.get id
      (Api.transition_workflow_stage utcnow db_now id request user db).2 = Some row' /\
    WorkflowInstance.current_stage row' = WorkflowStageTransition.to_stage request /\
    forall from_stage notes triggered_by table,
      (Api.transition_workflow_stage utcnow db_now id
         (WorkflowStageTransition.mk from_stage
            (WorkflowStageTransition.to_stage request)
            (WorkflowStageTransition.transition_data request) notes triggered_by)
         user (set_workflows table db)).1 = inr (Some row').
Proof.
  intros Hget Hlen.
  rewrite (transition_workflow_stage_stored _ _ _ _ _ _ _ Hget Hlen).
  eexists. split; [reflexivity|]. split; [|split].
  - cbn. unfold WorkflowInstanceRepository.get. cbn. apply lookup_insert_eq.
  - apply stored_after_current_stage.
  - intros from_stage notes triggered_by table.
    assert (Hget' : WorkflowInstanceRepository.get id (set_workflows table db) = Some row)
      by done.
    by rewrite (transition_workflow_stage_stored utcnow db_now id
                  (WorkflowStageTransition.mk from_stage
                     (WorkflowStageTransition.to_stage request)
                     (WorkflowStageTransition.transition_data request) notes
                     triggered_by) user _ _ Hget' Hlen).
Qed.

Lemma transition_unconditional_witness :
  exists row',
    (Api.transition_workflow_stage "2024-05-01T09:00:00" 20 7
       (WorkflowStageTransition.mk "negotiation" "archived" None None None) 3
       example_db).1 = inr (Some row') /\
    WorkflowInstanceRepository.get 7
      (Api.transition_workflow_stage "2024-05-01T09:00:00" 20 7
         (WorkflowStageTransition.mk "negotiation" "archived" None None None) 3
         example_db).2 = Some row' /\
    WorkflowInstance.current_stage row' = "archived" /\
    forall from_stage notes triggered_by table,
      (Api.transition_workflow_stage "2024-05-01T09:00:00" 20 7
         (WorkflowStageTransition.mk from_stage "archived" None notes triggered_by)
         3 (set_workflows table example_db)).1 = inr (Some row').
Proof.
  apply (transition_unconditional "2024-05-01T09:00:00" 20 7
           (WorkflowStageTransition.mk "negotiation" "archived" None None None) 3
           example_db lead_instance).
  - reflexivity.
  - cbn. lia.
Defined.

(** C5, as stated, fails: the instance of [example_db] exists and the target
    stage of 101 characters is not empty, yet the transition does not
    succeed: [current_stage] is [String(100)], the commit raises
    [DataError], and the instance stays in its stage. *)
Lemma transition_long_stage_refused :
  WorkflowInstanceRepository.get 7 example_db = Some lead_instance /\
  long_stage <> "" /\
  String.length long_stage = 101%nat /\
  Api.transition_workflow_stage "2024-05-01T09:00:00" 20 7
    (WorkflowStageTransition.mk "lead" long_stage None None None) 3 example_db
  = (inl DataError, example_db).
Proof. by vm_compute. Qed.

(** C10.  A transition, whether it goes through or not, keeps the instance
    under its id with [workflow_id], [project_id], [is_completed] and
    [created_at] as they were; no other instance and no other table
    changes.  A call that returns returns the stored row, and a call whose
    stage fits the column does return. *)
Theorem transition_stage_frame utcnow db_now id new_stage td user db row :
  WorkflowInstanceRepository.get id db = Some row ->
  let db' :=
    (WorkflowInstanceRepository.transition_stage utcnow db_now id new_stage td user db).2 in
  exists row',
    ((String.length new_stage <= 100)%nat ->
     (WorkflowInstanceRepository.transition_stage utcnow db_now id new_stage td user db).1
       = inr (Some row')) /\
    (forall returned,
       (WorkflowInstanceRepository.transition_stage utcnow db_now id new_stage td user db).1
         = inr returned -> returned = Some row') /\
    WorkflowInstanceRepository.get id db' = Some row' /\
    WorkflowInstance.workflow_id row' = WorkflowInstance.workflow_id row /\
    WorkflowInstance.project_id row' = WorkflowInstance.project_id row /\
    WorkflowInstance.is_completed row' = WorkflowInstance.is_completed row /\
    WorkflowInstance.created_at row' = WorkflowInstance.created_at row /\
    (forall other, other <> id ->
       WorkflowInstanceRepository.get other db' = WorkflowInstanceRepository.get other db) /\
    workflows db' = workflows db /\
    business_rules db' = business_rules db /\
    projects db' = projects db.
Proof.
  intros Hget db'. subst db'.
  destruct (stored_after_frame db_now utcnow new_stage td user row) as (H1 & H2 & H3 & H4).
  destruct (transition_stage_row
              utcnow db_now id new_stage td user db row Hget)
    as [(Hres & Hne & Hrefused)|(stage & Hres & _)]; rewrite Hres; cbn [fst snd].
  - exists row. split.
    { intros Hfits. by rewrite (varchar_fits _ _ Hfits) in Hrefused. }
    split; [by intros returned [=]|]. by repeat (split; [done|]).
  - eexists. split; [reflexivity|]. split; [by intros returned [= <-]|].
    unfold WorkflowInstanceRepository.get. cbn.
    rewrite lookup_insert_eq. repeat (split; [done|]). split; [|done].
    intros other Hne. by rewrite lookup_insert_ne.
Qed.

Lemma transition_stage_frame_witness :
  let db' :=
    (WorkflowInstanceRepository.transition_stage "2024-05-01T09:00:00" 20 7
       "closed_won" (Some {[ "amount" := JInt 5000 ]}) (Some 3) example_db).2 in
  exists row',
    ((String.length "closed_won" <= 100)%nat ->
     (WorkflowInstanceRepository.transition_stage "2024-05-01T09:00:00" 20 7
        "closed_won" (Some {[ "amount" := JInt 5000 ]}) (Some 3) example_db).1
       = inr (Some row')) /\
    (forall returned,
       (WorkflowInstanceRepository.transition_stage "2024-05-01T09:00:00" 20 7
          "closed_won" (Some {[ "amount" := JInt 5000 ]}) (Some 3) example_db).1
         = inr returned -> returned = Some row') /\
    WorkflowInstanceRepository.get 7 db' = Some row' /\
    WorkflowInstance.workflow_id row' = 1 /\
    WorkflowInstance.project_id row' = 1 /\
    WorkflowInstance.is_completed row' = false /\
    WorkflowInstance.created_at row' = 10 /\
    (forall other, other <> 7 ->
       WorkflowInstanceRepository.get other db'
       = WorkflowInstanceRepository.get other example_db) /\
    workflows db' = workflows example_db /\
    business_rules db' = business_rules example_db /\
    projects db' = projects example_db.
Proof.
  apply (transition_stage_frame "2024-05-01T09:00:00" 20 7 "closed_won"
           (Some {[ "amount" := JInt 5000 ]}) (Some 3) example_db lead_instance).
  reflexivity.
Defined.

(** ** Instance creation *)

(** C6.  Creating an instance checks the workflow and then the project
    before anything is written: an unresolved [workflow_id] gives 404
    "Workflow not found", an unresolved [project_id] (the workflow resolving)
    gives 404 "Project not found", in every raising case the database is the
    one before the call, and with both resolved the instance is stored under
    a new id with the fields of the request. *)
Theorem create_workflow_instance_validates db_now
    (instance_data : WorkflowInstanceCreate.t) (db : Db) :
  (WorkflowRepository.get (WorkflowInstanceCreate.workflow_id instance_data) db = None ->
   Api.create_workflow_instance db_now instance_data db =
     (inl (HTTPException 404 "Workflow not found"), db)) /\
  (is_Some (WorkflowRepository.get (WorkflowInstanceCreate.workflow_id instance_data) db) ->
   ProjectRepository.get (WorkflowInstanceCreate.project_id instance_data) db = None ->
   Api.create_workflow_instance db_now instance_data db =
     (inl (HTTPException 404 "Project not found"), db)) /\
  (forall e db',
     Api.create_workflow_instance db_now instance_data db = (inl e, db') -> db' = db) /\
  (is_Some (WorkflowRepository.get (WorkflowInstanceCreate.workflow_id instance_data) db) ->
   is_Some (ProjectRepository.get (WorkflowInstanceCreate.project_id instance_data) db) ->
   exists id,
     WorkflowInstanceRepository.get id db = None /\
     let row :=
       WorkflowInstance.mk
         (WorkflowInstanceCreate.workflow_id instance_data)
         (WorkflowInstanceCreate.project_id instance_data)
         (WorkflowInstanceCreate.current_stage instance_data)
         (WorkflowInstanceCreate.stage_data instance_data)
         (WorkflowInstanceCreate.history instance_data)
         (WorkflowInstanceCreate.is_completed instance_data) db_now db_now in
     Api.create_workflow_instance db_now instance_data db =
       (inr (Some (id, row)),
        set_workflow_instances (<[id := row]> (workflow_instances db)) db)).
Proof.
  unfold Api.create_workflow_instance. repeat split.
  - by intros ->.
  - intros [w ->] Hp. by rewrite Hp.
  - intros e db'.
    destruct (WorkflowRepository.get _ db); [|by intros [= _ ->]].
    destruct (ProjectRepository.get _ db); [|by intros [= _ ->]].
    unfold WorkflowInstanceRepository.create_workflow_instance. cbn.
    discriminate.
  - intros [w ->] [p ->].
    exists (next_id (workflow_instances db)). split; [apply next_id_fresh|].
    unfold WorkflowInstanceRepository.create_workflow_instance,
      WorkflowInstanceRepository.get. cbn.
    by rewrite lookup_insert_eq.
Qed.

(** ** Workflow listings and statistics *)

Lemma WorkflowType_of_value_Some (s : string) (t : WorkflowType) :
  WorkflowType_of_value s = Some t <-> WorkflowType_value t = s.
Proof.
  unfold WorkflowType_of_value, WorkflowType_members. cbn [find WorkflowType_value].
  split.
  - repeat (match goal with
            | |- context [String.eqb ?a s] =>
                destruct (String.eqb_spec a s); [intros [= <-]; by subst|]
            end).
    discriminate.
  - intros <-. by destruct t.
Qed.

Lemma WorkflowType_of_value_None (s : string) :
  WorkflowType_of_value s = None <->
  s ∉ ["sales"; "support"; "development"; "marketing"; "operations"].
Proof.
  split.
  - intros Hn Hin.
    assert (exists t, WorkflowType_value t = s) as [t Ht].
    { repeat (apply elem_of_cons in Hin as [->|Hin];
              [by first [exists SALES|exists SUPPORT|exists DEVELOPMENT
                        |exists MARKETING|exists OPERATIONS]|]).
      by apply elem_of_nil in Hin. }
    apply WorkflowType_of_value_Some in Ht. congruence.
  - intros Hout. destruct (WorkflowType_of_value s) as [t|] eqn:E; [|done].
    apply WorkflowType_of_value_Some in E. subst s.
    exfalso. apply Hout. destruct t; cbn; set_solver.
Qed.

Lemma length_query_filter {A} (cond : A -> bool) (table : gmap Z A) :
  length (query_filter cond table) = size (filter (fun kv => cond kv.2 = true) table).
Proof.
  rewrite <- length_map_to_list. apply Permutation_length.
  unfold query_filter. apply NoDup_Permutation.
  - apply NoDup_filter, NoDup_map_to_list.
  - apply NoDup_map_to_list.
  - intros [k v]. rewrite list_elem_of_filter, !elem_of_map_to_list.
    rewrite map_lookup_filter_Some. cbn. tauto.
Qed.

Lemma elem_of_get_by_type (workflow_type : WorkflowType) (db : Db) id w :
  (id, w) ∈ WorkflowRepository.get_by_type workflow_type db <->
  workflows db !! id = Some w /\ Workflow.type w = workflow_type /\
  Workflow.is_active w = true.
Proof.
  unfold WorkflowRepository.get_by_type.
  rewrite elem_of_order_by_desc, elem_of_query_filter, andb_true_iff,
    bool_decide_eq_true.
  tauto.
Qed.

Lemma elem_of_get_active_workflows (db : Db) id w :
  (id, w) ∈ WorkflowRepository.get_active_workflows db <->
  workflows db !! id = Some w /\ Workflow.is_active w = true.
Proof.
  unfold WorkflowRepository.get_active_workflows.
  by rewrite elem_of_order_by_desc, elem_of_query_filter.
Qed.

(** C7.  The listing by type holds each workflow of that type that is active
    once, and nothing else, latest created first; a workflow that is not
    active is not in it.  The route answers a non-empty type string outside
    the enumeration with 400 "Invalid workflow type", whatever the page
    asked for, and hands a type of the enumeration to that listing. *)
Theorem get_by_type_active_only (workflow_type : WorkflowType) (db : Db) :
  let listing := WorkflowRepository.get_by_type workflow_type db in
  (forall id w, (id, w) ∈ listing <->
     workflows db !! id = Some w /\ Workflow.type w = workflow_type /\
     Workflow.is_active w = true) /\
  NoDup listing.*1 /\
  StronglySorted (later_first Workflow.created_at) listing /\
  (forall id w, workflows db !! id = Some w -> Workflow.is_active w = false ->
     id ∉ listing.*1) /\
  (forall s skip limit,
     s <> "" ->
     s ∉ ["sales"; "support"; "development"; "marketing"; "operations"] ->
     Api.get_workflows skip limit (Some s) db =
       inl (HTTPException 400 "Invalid workflow type")) /\
  Api.select_workflows (Some (WorkflowType_value workflow_type)) db = inr listing.
Proof.
  intros listing. subst listing.
  split; [|split; [|split; [|split; [|split]]]].
  - intros id w. apply elem_of_get_by_type.
  - unfold WorkflowRepository.get_by_type.
    apply NoDup_order_by_desc_keys, NoDup_query_filter_keys.
  - apply order_by_desc_sorted.
  - intros id w Hget Hoff Hin.
    apply list_elem_of_fmap in Hin as [[id' w'] [Hid Hin]]. cbn in Hid. subst id'.
    apply elem_of_get_by_type in Hin as (Hget' & _ & Hon). congruence.
  - intros s skip limit Hs Hout.
    apply WorkflowType_of_value_None in Hout.
    unfold Api.get_workflows, Api.select_workflows, str_truthy.
    destruct (String.eqb_spec s ""); [done|]. cbn [negb]. by rewrite Hout.
  - unfold Api.select_workflows.
    assert (Hv : WorkflowType_of_value (WorkflowType_value workflow_type)
                 = Some workflow_type) by by apply WorkflowType_of_value_Some.
    rewrite Hv. by destruct workflow_type.
Qed.

(** C7, as stated, fails for the empty type string: it is outside the
    enumeration, and the route returns the listing of the active workflows. *)
Lemma get_workflows_empty_type_lists :
  ("" ∉ ["sales"; "support"; "development"; "marketing"; "operations"]) /\
  Api.get_workflows 0 100 (Some "") example_db =
    inr (Api.mkWorkflowList [(1, sales_pipeline)] 1 1 100 1).
Proof.
  split; [|by vm_compute].
  intros H. repeat (apply elem_of_cons in H as [H|H]; [discriminate H|]).
  by apply elem_of_nil in H.
Qed.

Lemma workflows_by_type_lookup (db : Db) (t : WorkflowType) :
  WorkflowRepository.workflows_by_type (WorkflowRepository.get_workflow_statistics db)
    !! WorkflowType_value t
  = Some (size (filter (fun kv : Z * Workflow.t => Workflow.type kv.2 = t) (workflows db))).
Proof.
  unfold WorkflowRepository.get_workflow_statistics.
  cbn [WorkflowRepository.workflows_by_type WorkflowType_members foldl].
  rewrite !length_query_filter.
  assert (Hsize : forall t' : WorkflowType,
    size (filter (fun kv : Z * Workflow.t => bool_decide (Workflow.type kv.2 = t') = true)
            (workflows db)) =
    size (filter (fun kv : Z * Workflow.t => Workflow.type kv.2 = t') (workflows db))).
  { intros t'. f_equal. apply map_filter_ext. intros k w _.
    by rewrite bool_decide_eq_true. }
  rewrite !Hsize.
  destruct t; cbn [WorkflowType_value];
    repeat first [rewrite lookup_insert_eq; reflexivity
                 |rewrite lookup_insert_ne by discriminate].
Qed.

Lemma workflows_by_type_keys (db : Db) (s : string) :
  is_Some (WorkflowRepository.workflows_by_type
             (WorkflowRepository.get_workflow_statistics db) !! s)
  <-> exists t, s = WorkflowType_value t.
Proof.
  split.
  - unfold WorkflowRepository.get_workflow_statistics.
    cbn [WorkflowRepository.workflows_by_type WorkflowType_members foldl].
    rewrite !lookup_insert_is_Some, lookup_empty.
    intros H.
    repeat (destruct H as [<-|[_ H]]; [by eexists|]).
    by destruct H.
  - intros [t ->]. by rewrite workflows_by_type_lookup.
Qed.

(** C8.  The statistics overview: the number of workflows, the number of
    active ones, one count per value of the type enumeration (and no other
    key), the five latest created active workflows (all of them when there
    are fewer), and the constants [completed_workflows = 0] and
    [workflows_by_stage = {}]. *)
Theorem workflow_statistics_overview (db : Db) :
  let stats := Api.get_workflow_statistics db in
  let recent := Api.recent_workflows stats in
  Api.total_workflows stats = size (workflows db) /\
  Api.active_workflows stats =
    size (filter (fun kv : Z * Workflow.t => Workflow.is_active kv.2 = true)
            (workflows db)) /\
  (forall t,
     Api.workflows_by_type stats !! WorkflowType_value t =
     Some (size (filter (fun kv : Z * Workflow.t => Workflow.type kv.2 = t)
                   (workflows db)))) /\
  (forall s, is_Some (Api.workflows_by_type stats !! s) <->
             exists t, s = WorkflowType_value t) /\
  recent = take 5 (WorkflowRepository.get_active_workflows db) /\
  length recent = Nat.min 5 (Api.active_workflows stats) /\
  (forall id w, (id, w) ∈ recent ->
     workflows db !! id = Some w /\ Workflow.is_active w = true) /\
  StronglySorted (later_first Workflow.created_at) recent /\
  (forall x id w,
     x ∈ recent -> workflows db !! id = Some w -> Workflow.is_active w = true ->
     (id, w) ∉ recent -> Workflow.created_at x.2 >= Workflow.created_at w) /\
  Api.completed_workflows stats = 0%nat /\
  Api.workflows_by_stage stats = ∅.
Proof.
  intros stats recent. subst stats recent.
  unfold Api.get_workflow_statistics.
  cbn [Api.total_workflows Api.active_workflows Api.workflows_by_type
       Api.recent_workflows Api.completed_workflows Api.workflows_by_stage].
  split; [|split; [|split; [|split; [|split; [|split; [|split; [|split; [|split]]]]]]]].
  - cbn. rewrite length_query_filter. by rewrite map_filter_id.
  - cbn. apply length_query_filter.
  - apply workflows_by_type_lookup.
  - apply workflows_by_type_keys.
  - done.
  - cbn. rewrite length_take. f_equal.
    unfold order_by_desc. by rewrite merge_sort_Permutation.
  - intros id w Hin. apply elem_of_get_active_workflows.
    eapply subseteq_take, Hin.
  - apply StronglySorted_take_list, order_by_desc_sorted.
  - intros x id w Hx Hget Hon Hout. cbn in Hx, Hout.
    set (l := order_by_desc Workflow.created_at
                (query_filter Workflow.is_active (workflows db))) in *.
    assert (Hl : StronglySorted (later_first Workflow.created_at) (take 5 l ++ drop 5 l)).
    { rewrite take_drop. apply order_by_desc_sorted. }
    assert (Hin : (id, w) ∈ drop 5 l).
    { assert (Hall : (id, w) ∈ take 5 l ++ drop 5 l).
      { rewrite take_drop. by apply elem_of_get_active_workflows. }
      apply elem_of_app in Hall as [Hall|Hall]; [by destruct Hout|done]. }
    apply (StronglySorted_app_1_elem_of _ _ _ _ _ Hl Hx Hin).
  - done.
Qed.

(** ** Workflow definitions *)

(** C9.  A created workflow is read back under its new id with the fields it
    was created from and both timestamps at the creation time; the rows that
    were there before read as before; an id without a row reads as [None].
    A read is a function of the database alone and returns no new database,
    so reading again gives the same result. *)
Theorem get_after_create_workflow db_now (workflow_data : WorkflowCreate.t) (db : Db) :
  let created := WorkflowRepository.create_workflow db_now workflow_data db in
  let id := created.1.1 in
  let row :=
    Workflow.mk (WorkflowCreate.name workflow_data)
      (WorkflowCreate.description workflow_data) (WorkflowCreate.type workflow_data)
      (WorkflowCreate.stages workflow_data) (WorkflowCreate.rules workflow_data)
      (WorkflowCreate.is_active workflow_data) db_now db_now in
  WorkflowRepository.get id db = None /\
  created.1.2 = row /\
  WorkflowRepository.get id created.2 = Some row /\
  (forall other, other <> id ->
     WorkflowRepository.get other created.2 = WorkflowRepository.get other db) /\
  (forall unknown, unknown ∉ dom (workflows created.2) ->
     WorkflowRepository.get unknown created.2 = None) /\
  dom (workflows created.2) = {[ id ]} ∪ dom (workflows db) /\
  workflow_instances created.2 = workflow_instances db /\
  business_rules created.2 = business_rules db /\
  projects created.2 = projects db.
Proof.
  intros created id row. subst created id row.
  unfold WorkflowRepository.create_workflow, WorkflowRepository.get. cbn.
  split; [apply next_id_fresh|]. split; [done|].
  split; [apply lookup_insert_eq|].
  split; [intros other Hne; by rewrite lookup_insert_ne|].
  split; [intros unknown Hout; by apply not_elem_of_dom in Hout|].
  split; [apply dom_insert_L|done].
Qed.

(** * Further properties of the repositories and routes *)

(** ** Pagination *)

Lemma py_slice_page {A} (l : list A) (skip limit : Z) :
  0 <= skip -> 0 <= limit ->
  py_slice l skip (skip + limit) = take (Z.to_nat limit) (drop (Z.to_nat skip) l).
Proof.
  intros Hs Hl. unfold py_slice.
  destruct (Z.ltb_spec (skip + limit) 0); [lia|].
  destruct (Z.ltb_spec skip 0); [lia|].
  destruct (Z.le_gt_cases (Z.of_nat (length l)) skip) as [Hge|Hlt].
  - rewrite !drop_ge by lia. by rewrite !take_nil.
  - replace (Z.to_nat (Z.min skip (Z.of_nat (length l)))) with (Z.to_nat skip) by lia.
    destruct (Z.le_gt_cases (skip + limit) (Z.of_nat (length l))).
    + f_equal. lia.
    + rewrite !take_ge; [done| |]; rewrite length_drop; lia.
Qed.

Lemma concat_pages {A} (l : list A) (size : nat) (k : nat) :
  concat ((fun i => take size (drop (i * size) l)) <$> seq 0 k) = take (k * size) l.
Proof.
  induction k as [|k IH]; [by rewrite take_0|].
  rewrite seq_S, fmap_app, concat_app, IH. cbn [fmap list_fmap concat].
  rewrite app_nil_r, take_take_drop. f_equal. lia.
Qed.

(** X1.  The listing of the active workflows holds each active workflow
    once and nothing else, latest created first; a request without a type,
    or with the empty type, gets this listing. *)
Theorem get_active_workflows_listing (db : Db) :
  let listing := WorkflowRepository.get_active_workflows db in
  (forall id w, (id, w) ∈ listing <->
     workflows db !! id = Some w /\ Workflow.is_active w = true) /\
  NoDup listing.*1 /\
  StronglySorted (later_first Workflow.created_at) listing /\
  Api.select_workflows None db = inr listing /\
  Api.select_workflows (Some "") db = inr listing.
Proof.
  intros listing. subst listing.
  split; [intros id w; apply elem_of_get_active_workflows|].
  split; [apply NoDup_order_by_desc_keys, NoDup_query_filter_keys|].
  split; [apply order_by_desc_sorted|done].
Qed.

Lemma get_workflows_some_page skip limit workflow_type db listing :
  Api.select_workflows workflow_type db = inr listing -> limit <> 0 ->
  Api.get_workflows skip limit workflow_type db =
    inr (Api.mkWorkflowList (py_slice listing skip (skip + limit))
           (Z.of_nat (length listing)) (skip / limit + 1) limit
           ((Z.of_nat (length listing) + limit - 1) / limit)).
Proof.
  intros Hsel Hl. unfold Api.get_workflows. rewrite Hsel.
  by destruct (Z.eqb_spec limit 0).
Qed.

(** X2.  A page of the workflow listing, for [skip >= 0] and [limit > 0]:
    the items are the [limit] entries after the first [skip] of the
    listing, [total] is the length of the whole listing whatever the page,
    and [pages] is the least number of pages of [limit] entries that hold
    [total] entries. *)
Theorem get_workflows_page skip limit workflow_type db listing :
  Api.select_workflows workflow_type db = inr listing ->
  0 <= skip -> 0 < limit ->
  exists page,
    Api.get_workflows skip limit workflow_type db = inr page /\
    Api.items page = take (Z.to_nat limit) (drop (Z.to_nat skip) listing) /\
    Api.total page = Z.of_nat (length listing) /\
    Api.size page = limit /\
    (Api.page page - 1) * limit <= skip < Api.page page * limit /\
    (Api.pages page - 1) * limit < Api.total page <= Api.pages page * limit.
Proof.
  intros Hsel Hs Hl.
  rewrite (get_workflows_some_page _ _ _ _ _ Hsel) by lia.
  eexists. split; [reflexivity|]. cbn.
  split; [apply py_slice_page; lia|]. split; [done|]. split; [done|].
  split.
  - pose proof (Z.div_mod skip limit). pose proof (Z.mod_pos_bound skip limit). nia.
  - pose proof (Z.div_mod (Z.of_nat (length listing) + limit - 1) limit).
    pose proof (Z.mod_pos_bound (Z.of_nat (length listing) + limit - 1) limit). nia.
Qed.

Lemma get_workflows_page_witness :
  exists page,
    Api.get_workflows 0 100 (Some "sales") example_db = inr page /\
    Api.items page =
      take (Z.to_nat 100)
        (drop (Z.to_nat 0) (WorkflowRepository.get_by_type SALES example_db)) /\
    Api.total page =
      Z.of_nat (length (WorkflowRepository.get_by_type SALES example_db)) /\
    Api.size page = 100 /\
    (Api.page page - 1) * 100 <= 0 < Api.page page * 100 /\
    (Api.pages page - 1) * 100 < Api.total page <= Api.pages page * 100.
Proof.
  apply (get_workflows_page 0 100 (Some "sales") example_db
           (WorkflowRepository.get_by_type SALES example_db)).
  - reflexivity.
  - lia.
  - lia.
Defined.

(** X3.  For [limit > 0] the pages at [skip = 0, limit, 2 * limit, ...], as
    many as [pages] says, put one after the other give the whole listing:
    no entry is lost or repeated between pages. *)
Theorem get_workflows_pages_cover limit workflow_type db listing :
  Api.select_workflows workflow_type db = inr listing ->
  0 < limit ->
  concat
    ((fun i : nat =>
        match Api.get_workflows (Z.of_nat i * limit) limit workflow_type db with
        | inr page => Api.items page
        | inl _ => []
        end) <$>
     seq 0 (Z.to_nat ((Z.of_nat (length listing) + limit - 1) / limit)))
  = listing.
Proof.
  intros Hsel Hl.
  set (k := Z.to_nat ((Z.of_nat (length listing) + limit - 1) / limit)).
  rewrite (list_fmap_ext _
             (fun i => take (Z.to_nat limit) (drop (i * Z.to_nat limit) listing))).
  - rewrite concat_pages. apply take_ge.
    pose proof (Z.div_mod (Z.of_nat (length listing) + limit - 1) limit).
    pose proof (Z.mod_pos_bound (Z.of_nat (length listing) + limit - 1) limit).
    subst k. nia.
  - intros _ i _. cbn beta.
    rewrite (get_workflows_some_page _ _ _ _ _ Hsel) by lia.
    cbn [Api.items]. rewrite py_slice_page by nia. do 2 f_equal. nia.
Qed.

Lemma get_workflows_pages_cover_witness :
  concat
    ((fun i : nat =>
        match Api.get_workflows (Z.of_nat i * 1) 1 None example_db with
        | inr page => Api.items page
        | inl _ => []
        end) <$>
     seq 0 (Z.to_nat ((Z.of_nat (length (WorkflowRepository.get_active_workflows
                                           example_db)) + 1 - 1) / 1)))
  = WorkflowRepository.get_active_workflows example_db.
Proof.
  apply (get_workflows_pages_cover 1 None example_db
           (WorkflowRepository.get_active_workflows example_db)).
  - reflexivity.
  - lia.
Defined.

(** X4.  With [limit = 0] no listing route returns a page: the page
    arithmetic divides by [limit], so the workflows and rules routes raise
    [ZeroDivisionError] (the workflows route after its 400 for an unknown
    type), and so does the instances route when a filter is given. *)
Theorem limit_zero_never_pages skip (db : Db) :
  (forall workflow_type page,
     Api.get_workflows skip 0 workflow_type db <> inr page) /\
  (forall workflow_type listing,
     Api.select_workflows workflow_type db = inr listing ->
     Api.get_workflows skip 0 workflow_type db = inl ZeroDivisionError) /\
  (forall rule_type, Api.get_business_rules skip 0 rule_type db = inl ZeroDivisionError) /\
  (forall project_id workflow_id stage page,
     Api.get_workflow_instances skip 0 project_id workflow_id stage db <> inr page) /\
  (forall project_id workflow_id stage listing,
     Api.select_workflow_instances project_id workflow_id stage db = inr listing ->
     Api.get_workflow_instances skip 0 project_id workflow_id stage db
       = inl (Raised ZeroDivisionError)).
Proof.
  split; [|split; [|split; [|split]]].
  - intros t page. unfold Api.get_workflows.
    by destruct (Api.select_workflows t db).
  - intros t listing H. unfold Api.get_workflows. by rewrite H.
  - done.
  - intros p w s page. unfold Api.get_workflow_instances.
    by destruct (Api.select_workflow_instances p w s db).
  - intros p w s listing H. unfold Api.get_workflow_instances. by rewrite H.
Qed.

(** ** Instance listings *)

Lemma elem_of_get_by_project (project_id : Z) (db : Db) id i :
  (id, i) ∈ WorkflowInstanceRepository.get_by_project project_id db <->
  workflow_instances db !! id = Some i /\ WorkflowInstance.project_id i = project_id.
Proof.
  unfold WorkflowInstanceRepository.get_by_project.
  by rewrite elem_of_order_by_desc, elem_of_query_filter, bool_decide_eq_true.
Qed.

Lemma elem_of_get_by_workflow (workflow_id : Z) (db : Db) id i :
  (id, i) ∈ WorkflowInstanceRepository.get_by_workflow workflow_id db <->
  workflow_instances db !! id = Some i /\ WorkflowInstance.workflow_id i = workflow_id.
Proof.
  unfold WorkflowInstanceRepository.get_by_workflow.
  by rewrite elem_of_order_by_desc, elem_of_query_filter, bool_decide_eq_true.
Qed.

Lemma elem_of_get_by_stage (stage : string) (db : Db) id i :
  (id, i) ∈ WorkflowInstanceRepository.get_by_stage stage db <->
  workflow_instances db !! id = Some i /\ WorkflowInstance.current_stage i = stage.
Proof.
  unfold WorkflowInstanceRepository.get_by_stage.
  by rewrite elem_of_order_by_desc, elem_of_query_filter, bool_decide_eq_true.
Qed.

(** X5.  The filters of the instance listing are alternatives, not a
    conjunction: a non-zero [project_id] selects every instance of that
    project whatever [workflow_id] and [stage] say; only without it does a
    non-zero [workflow_id] select, and only without both a non-empty
    [stage]. *)
Theorem select_workflow_instances_first_filter (db : Db) :
  (forall project_id workflow_id stage, project_id <> 0 ->
     exists listing,
       Api.select_workflow_instances (Some project_id) workflow_id stage db
         = inr listing /\
       forall id i, (id, i) ∈ listing <->
         workflow_instances db !! id = Some i /\
         WorkflowInstance.project_id i = project_id) /\
  (forall project_id workflow_id stage,
     int_truthy project_id = false -> workflow_id <> 0 ->
     exists listing,
       Api.select_workflow_instances project_id (Some workflow_id) stage db
         = inr listing /\
       forall id i, (id, i) ∈ listing <->
         workflow_instances db !! id = Some i /\
         WorkflowInstance.workflow_id i = workflow_id) /\
  (forall project_id workflow_id stage,
     int_truthy project_id = false -> int_truthy workflow_id = false -> stage <> "" ->
     exists listing,
       Api.select_workflow_instances project_id workflow_id (Some stage) db
         = inr listing /\
       forall id i, (id, i) ∈ listing <->
         workflow_instances db !! id = Some i /\
         WorkflowInstance.current_stage i = stage).
Proof.
  unfold Api.select_workflow_instances. split; [|split].
  - intros p w s Hp. cbn. destruct (Z.eqb_spec p 0); [done|]. cbn.
    eexists. split; [done|]. intros id i. apply elem_of_get_by_project.
  - intros p w s -> Hw. cbn. destruct (Z.eqb_spec w 0); [done|]. cbn.
    eexists. split; [done|]. intros id i. apply elem_of_get_by_workflow.
  - intros p w s -> -> Hs. cbn. unfold str_truthy.
    destruct (String.eqb_spec s ""); [done|]. cbn.
    eexists. split; [done|]. intros id i. apply elem_of_get_by_stage.
Qed.

(** X6.  The instance listing without a filter (each of [project_id] and
    [workflow_id] absent or 0, [stage] absent or empty) calls [get_all],
    which the repository does not have: the route raises [AttributeError]
    for every page asked for and never returns a listing. *)
Theorem get_workflow_instances_unfiltered skip limit project_id workflow_id stage db :
  int_truthy project_id = false ->
  int_truthy workflow_id = false ->
  from_option str_truthy false stage = false ->
  Api.get_workflow_instances skip limit project_id workflow_id stage db =
    inl (AttributeError "'WorkflowInstanceRepository' object has no attribute 'get_all'").
Proof.
  intros Hp Hw Hs.
  unfold Api.get_workflow_instances, Api.select_workflow_instances.
  by rewrite Hp, Hw, Hs.
Qed.

Lemma get_workflow_instances_unfiltered_witness :
  Api.get_workflow_instances 0 100 (Some 0) None (Some "") example_db =
    inl (AttributeError "'WorkflowInstanceRepository' object has no attribute 'get_all'").
Proof.
  apply (get_workflow_instances_unfiltered 0 100 (Some 0) None (Some "") example_db);
    reflexivity.
Defined.

(** X7.  After a transition to a stage of at most 100 characters the
    instance is listed under the new stage and, when the stage changed, no
    longer under the old one; after any transition the listings of the other
    instances by stage, and the ids listed by project and by workflow, are
    what they were. *)
Theorem get_by_stage_after_transition utcnow db_now id new_stage td user db row :
  WorkflowInstanceRepository.get id db = Some row ->
  let db' :=
    (WorkflowInstanceRepository.transition_stage utcnow db_now id new_stage td user db).2 in
  ((String.length new_stage <= 100)%nat ->
   id ∈ (WorkflowInstanceRepository.get_by_stage new_stage db').*1 /\
   (WorkflowInstance.current_stage row <> new_stage ->
    id ∉ (WorkflowInstanceRepository.get_by_stage
            (WorkflowInstance.current_stage row) db').*1)) /\
  (forall stage other i, other <> id ->
     (other, i) ∈ WorkflowInstanceRepository.get_by_stage stage db' <->
     (other, i) ∈ WorkflowInstanceRepository.get_by_stage stage db) /\
  (forall project_id,
     (WorkflowInstanceRepository.get_by_project project_id db').*1 ≡ₚ
     (WorkflowInstanceRepository.get_by_project project_id db).*1) /\
  (forall workflow_id,
     (WorkflowInstanceRepository.get_by_workflow workflow_id db').*1 ≡ₚ
     (WorkflowInstanceRepository.get_by_workflow workflow_id db).*1).
Proof.
  intros Hget db'. subst db'.
  destruct (transition_stage_db utcnow db_now id new_stage td user db row Hget)
    as (row' & -> & Hwf & Hpid & _ & _ & Hstage).
  set (db' := set_workflow_instances _ db).
  assert (Hrow' : workflow_instances db' !! id = Some row') by apply lookup_insert_eq.
  assert (Hother : forall other, other <> id ->
            workflow_instances db' !! other = workflow_instances db !! other).
  { intros other Hne. cbn. by rewrite lookup_insert_ne. }
  assert (Hkeys : forall (f : WorkflowInstance.t -> Z) (k : Z),
            f row' = f row ->
            forall x, x ∈ (order_by_desc WorkflowInstance.created_at
                             (query_filter (fun i => bool_decide (f i = k))
                                (workflow_instances db'))).*1 <->
                      x ∈ (order_by_desc WorkflowInstance.created_at
                             (query_filter (fun i => bool_decide (f i = k))
                                (workflow_instances db))).*1).
  { intros f k Hf x. rewrite !list_elem_of_fmap.
    split; intros [[x' i] [-> Hin]]; cbn;
      apply elem_of_order_by_desc, elem_of_query_filter in Hin as [Hl Hc];
      rewrite bool_decide_eq_true in Hc.
    - destruct (decide (x' = id)) as [->|Hne].
      + rewrite Hrow' in Hl. injection Hl as <-.
        exists (id, row). split; [done|].
        apply elem_of_order_by_desc, elem_of_query_filter.
        rewrite bool_decide_eq_true. split; [done|congruence].
      + exists (x', i). split; [done|].
        apply elem_of_order_by_desc, elem_of_query_filter.
        rewrite bool_decide_eq_true. by rewrite <- Hother.
    - destruct (decide (x' = id)) as [->|Hne].
      + assert (i = row) as -> by (unfold WorkflowInstanceRepository.get in Hget; congruence).
        exists (id, row'). split; [done|].
        apply elem_of_order_by_desc, elem_of_query_filter.
        rewrite bool_decide_eq_true. split; [done|congruence].
      + exists (x', i). split; [done|].
        apply elem_of_order_by_desc, elem_of_query_filter.
        rewrite bool_decide_eq_true. by rewrite Hother. }
  split; [|split; [|split]].
  - intros Hfits. specialize (Hstage Hfits). split.
    + apply list_elem_of_fmap. exists (id, row'). split; [done|].
      by apply elem_of_get_by_stage.
    + intros Hne Hin. apply list_elem_of_fmap in Hin as [[id' i] [Hid Hin]].
      cbn in Hid. subst id'. apply elem_of_get_by_stage in Hin as [Hl Hs].
      rewrite Hrow' in Hl. injection Hl as <-. congruence.
  - intros stage other i Hne. rewrite !elem_of_get_by_stage. by rewrite Hother.
  - intros p. apply NoDup_Permutation.
    + apply NoDup_order_by_desc_keys, NoDup_query_filter_keys.
    + apply NoDup_order_by_desc_keys, NoDup_query_filter_keys.
    + apply (Hkeys WorkflowInstance.project_id p Hpid).
  - intros w. apply NoDup_Permutation.
    + apply NoDup_order_by_desc_keys, NoDup_query_filter_keys.
    + apply NoDup_order_by_desc_keys, NoDup_query_filter_keys.
    + apply (Hkeys WorkflowInstance.workflow_id w Hwf).
Qed.

Lemma get_by_stage_after_transition_witness :
  let db' :=
    (WorkflowInstanceRepository.transition_stage "2024-05-01T09:00:00" 20 7
       "qualification" None (Some 3) example_db).2 in
  ((String.length "qualification" <= 100)%nat ->
   7 ∈ (WorkflowInstanceRepository.get_by_stage "qualification" db').*1 /\
   (WorkflowInstance.current_stage lead_instance <> "qualification" ->
    7 ∉ (WorkflowInstanceRepository.get_by_stage
           (WorkflowInstance.current_stage lead_instance) db').*1)) /\
  (forall stage other i, other <> 7 ->
     (other, i) ∈ WorkflowInstanceRepository.get_by_stage stage db' <->
     (other, i) ∈ WorkflowInstanceRepository.get_by_stage stage example_db) /\
  (forall project_id,
     (WorkflowInstanceRepository.get_by_project project_id db').*1 ≡ₚ
     (WorkflowInstanceRepository.get_by_project project_id example_db).*1) /\
  (forall workflow_id,
     (WorkflowInstanceRepository.get_by_workflow workflow_id db').*1 ≡ₚ
     (WorkflowInstanceRepository.get_by_workflow workflow_id example_db).*1).
Proof.
  apply (get_by_stage_after_transition "2024-05-01T09:00:00" 20 7 "qualification"
           None (Some 3) example_db lead_instance).
  reflexivity.
Defined.

(** ** Instance creation and statistics *)

Lemma bucket_sum {A} (key : A -> string) (vs : list string) (l : list A) :
  NoDup vs ->
  foldr (fun v acc => (length (filter (fun r => key r = v) l) + acc)%nat) 0%nat vs
  = length (filter (fun r => key r ∈ vs) l).
Proof.
  induction 1 as [|v vs Hv Hvs IH]; cbn [foldr].
  - induction l as [|x l IHl]; [done|].
    rewrite filter_cons. rewrite decide_False; [done|]. apply not_elem_of_nil.
  - rewrite IH. clear IH.
    induction l as [|x l IHl]; [done|].
    rewrite !filter_cons.
    destruct (decide (key x = v)) as [Heq|Hne].
    + rewrite (decide_False (P := key x ∈ vs)) by congruence.
      rewrite (decide_True (P := key x ∈ v :: vs)) by (rewrite Heq; apply list_elem_of_here).
      cbn [length]. lia.
    + destruct (decide (key x ∈ vs)) as [Hin|Hout].
      * rewrite (decide_True (P := key x ∈ v :: vs)) by by apply list_elem_of_further.
        cbn [length]. lia.
      * rewrite (decide_False (P := key x ∈ v :: vs)); [done|].
        intros [?|?]%elem_of_cons; done.
Qed.

Lemma map_fold_buckets (c : string -> nat) (ks : list string) (m : gmap string nat) :
  NoDup ks -> (forall k, k ∈ ks -> m !! k = None) ->
  map_fold (fun _ n acc => (n + acc)%nat) 0%nat
    (foldl (fun acc k => <[k := c k]> acc) m ks)
  = (foldr (fun k acc => (c k + acc)%nat) 0%nat ks
     + map_fold (fun _ n acc => (n + acc)%nat) 0%nat m)%nat.
Proof.
  intros Hnd. revert m. induction Hnd as [|k ks Hk Hks IH]; intros m Hm; [done|].
  cbn [foldl foldr]. rewrite IH.
  - rewrite map_fold_insert_L; [lia| |].
    + intros. lia.
    + apply Hm, list_elem_of_here.
  - intros k' Hk'. rewrite lookup_insert_ne by (intros ->; done).
    by apply Hm, list_elem_of_further.
Qed.

Lemma length_filter_map_to_list {A} (P : Z * A -> Prop) `{!forall x, Decision (P x)}
    (table : gmap Z A) :
  length (filter P (map_to_list table)) = size (filter P table).
Proof.
  rewrite <- length_map_to_list. apply Permutation_length, NoDup_Permutation.
  - apply NoDup_filter, NoDup_map_to_list.
  - apply NoDup_map_to_list.
  - intros [k v]. rewrite list_elem_of_filter, !elem_of_map_to_list.
    rewrite map_lookup_filter_Some. tauto.
Qed.

Lemma NoDup_stage_values : NoDup (WorkflowStage_value <$> WorkflowStage_members).
Proof. apply (bool_decide_unpack _). by vm_compute. Qed.

Lemma instances_by_stage_lookup (db : Db) (stage : WorkflowStage) :
  WorkflowInstanceRepository.instances_by_stage
    (WorkflowInstanceRepository.get_workflow_instance_statistics db)
    !! WorkflowStage_value stage
  = Some (size (filter (fun kv : Z * WorkflowInstance.t =>
                          WorkflowInstance.current_stage kv.2 = WorkflowStage_value stage)
                  (workflow_instances db))).
Proof.
  unfold WorkflowInstanceRepository.get_workflow_instance_statistics.
  cbn [WorkflowInstanceRepository.instances_by_stage WorkflowStage_members foldl].
  rewrite !length_query_filter.
  assert (Hsize : forall s : string,
    size (filter (fun kv : Z * WorkflowInstance.t =>
                    bool_decide (WorkflowInstance.current_stage kv.2 = s) = true)
            (workflow_instances db)) =
    size (filter (fun kv : Z * WorkflowInstance.t =>
                    WorkflowInstance.current_stage kv.2 = s) (workflow_instances db))).
  { intros s. f_equal. apply map_filter_ext. intros k w _.
    by rewrite bool_decide_eq_true. }
  rewrite !Hsize.
  destruct stage; cbn [WorkflowStage_value];
    repeat first [rewrite lookup_insert_eq; reflexivity
                 |rewrite lookup_insert_ne by discriminate].
Qed.

Lemma total_instances_size (db : Db) :
  WorkflowInstanceRepository.total_instances
    (WorkflowInstanceRepository.get_workflow_instance_statistics db)
  = size (workflow_instances db).
Proof. cbn. rewrite length_query_filter. by rewrite map_filter_id. Qed.

Lemma completed_instances_size (db : Db) :
  WorkflowInstanceRepository.completed_instances
    (WorkflowInstanceRepository.get_workflow_instance_statistics db)
  = size (filter (fun kv : Z * WorkflowInstance.t =>
                    WorkflowInstance.is_completed kv.2 = true)
            (workflow_instances db)).
Proof. cbn. apply length_query_filter. Qed.

(** X8.  The instance statistics: the number of instances, the number of
    completed ones, and one bucket for each of the ten values of
    [WorkflowStage] and for no other stage name.  The buckets add up to the
    number of instances whose stage is one of the ten values, so an instance
    in any other stage is in the total and in no bucket. *)
Theorem workflow_instance_statistics (db : Db) :
  let stats := WorkflowInstanceRepository.get_workflow_instance_statistics db in
  let buckets := WorkflowInstanceRepository.instances_by_stage stats in
  WorkflowInstanceRepository.total_instances stats = size (workflow_instances db) /\
  WorkflowInstanceRepository.completed_instances stats =
    size (filter (fun kv : Z * WorkflowInstance.t =>
                    WorkflowInstance.is_completed kv.2 = true)
            (workflow_instances db)) /\
  (forall stage,
     buckets !! WorkflowStage_value stage =
     Some (size (filter (fun kv : Z * WorkflowInstance.t =>
                           WorkflowInstance.current_stage kv.2 = WorkflowStage_value stage)
                   (workflow_instances db)))) /\
  (forall s, is_Some (buckets !! s) <-> exists stage, s = WorkflowStage_value stage) /\
  map_fold (fun _ n acc => (n + acc)%nat) 0%nat buckets =
    size (filter (fun kv : Z * WorkflowInstance.t =>
                    WorkflowInstance.current_stage kv.2
                    ∈ WorkflowStage_value <$> WorkflowStage_members)
            (workflow_instances db)) /\
  (map_fold (fun _ n acc => (n + acc)%nat) 0%nat buckets
   <= WorkflowInstanceRepository.total_instances stats)%nat.
Proof.
  intros stats buckets.
  assert (Htotal : WorkflowInstanceRepository.total_instances stats
                   = size (workflow_instances db)).
  { apply total_instances_size. }
  assert (Hsum : map_fold (fun _ n acc => (n + acc)%nat) 0%nat buckets =
    size (filter (fun kv : Z * WorkflowInstance.t =>
                    WorkflowInstance.current_stage kv.2
                    ∈ WorkflowStage_value <$> WorkflowStage_members)
            (workflow_instances db))).
  { subst buckets stats.
    unfold WorkflowInstanceRepository.get_workflow_instance_statistics.
    cbn [WorkflowInstanceRepository.instances_by_stage].
    set (c := fun s : string =>
           length (query_filter
                     (fun i => bool_decide (WorkflowInstance.current_stage i = s))
                     (workflow_instances db))).
    rewrite <- (foldl_fmap (fun acc k => <[k := c k]> acc) ∅ WorkflowStage_members
                  WorkflowStage_value).
    rewrite map_fold_buckets.
    - rewrite map_fold_empty, Nat.add_0_r.
      rewrite <- length_filter_map_to_list.
      rewrite <- (bucket_sum (fun r : Z * WorkflowInstance.t =>
                               WorkflowInstance.current_stage r.2)).
      + apply foldr_ext; [|done|done]. intros s n. f_equal. unfold c, query_filter.
        f_equal. apply list_filter_iff. intros r. cbn. by rewrite bool_decide_eq_true.
      + apply NoDup_stage_values.
    - apply NoDup_stage_values.
    - intros k _. apply lookup_empty. }
  split; [done|]. split; [|split; [|split; [|split]]].
  - apply completed_instances_size.
  - apply instances_by_stage_lookup.
  - intros s. split.
    + subst buckets stats.
      unfold WorkflowInstanceRepository.get_workflow_instance_statistics.
      cbn [WorkflowInstanceRepository.instances_by_stage WorkflowStage_members foldl].
      rewrite !lookup_insert_is_Some, lookup_empty. intros H.
      repeat (destruct H as [<-|[_ H]]; [by eexists|]).
      by destruct H.
    + intros [stage ->]. subst buckets stats. by rewrite instances_by_stage_lookup.
  - done.
  - rewrite Hsum, Htotal. apply map_size_filter.
Qed.

(** X9.  An instance created through the route is listed at once under its
    project, its workflow and its stage, and every instance listed before is
    still listed. *)
Theorem create_workflow_instance_listed db_now
    (instance_data : WorkflowInstanceCreate.t) (db : Db) :
  is_Some (WorkflowRepository.get (WorkflowInstanceCreate.workflow_id instance_data) db) ->
  is_Some (ProjectRepository.get (WorkflowInstanceCreate.project_id instance_data) db) ->
  let db' := (Api.create_workflow_instance db_now instance_data db).2 in
  exists id row,
    (Api.create_workflow_instance db_now instance_data db).1 = inr (Some (id, row)) /\
    (id, row) ∈ WorkflowInstanceRepository.get_by_project
                  (WorkflowInstanceCreate.project_id instance_data) db' /\
    (id, row) ∈ WorkflowInstanceRepository.get_by_workflow
                  (WorkflowInstanceCreate.workflow_id instance_data) db' /\
    (id, row) ∈ WorkflowInstanceRepository.get_by_stage
                  (WorkflowInstanceCreate.current_stage instance_data) db' /\
    (forall project_id x,
       x ∈ WorkflowInstanceRepository.get_by_project project_id db ->
       x ∈ WorkflowInstanceRepository.get_by_project project_id db') /\
    (forall workflow_id x,
       x ∈ WorkflowInstanceRepository.get_by_workflow workflow_id db ->
       x ∈ WorkflowInstanceRepository.get_by_workflow workflow_id db') /\
    (forall stage x,
       x ∈ WorkflowInstanceRepository.get_by_stage stage db ->
       x ∈ WorkflowInstanceRepository.get_by_stage stage db').
Proof.
  intros Hw Hp db'. subst db'.
  destruct Hw as [w Hw]. destruct Hp as [p Hp].
  set (id := next_id (workflow_instances db)).
  assert (Hfresh : WorkflowInstanceRepository.get id db = None) by apply next_id_fresh.
  unfold Api.create_workflow_instance. rewrite Hw, Hp.
  unfold WorkflowInstanceRepository.create_workflow_instance. fold id.
  cbn [fst snd]. unfold WorkflowInstanceRepository.get at 1.
  cbn [workflow_instances set_workflow_instances]. rewrite lookup_insert_eq.
  cbn [fmap option_fmap option_map]. eexists id, _. split; [reflexivity|].
  assert (Hkeep : forall other i,
            workflow_instances db !! other = Some i ->
            (<[id := WorkflowInstance.mk
                   (WorkflowInstanceCreate.workflow_id instance_data)
                   (WorkflowInstanceCreate.project_id instance_data)
                   (WorkflowInstanceCreate.current_stage instance_data)
                   (WorkflowInstanceCreate.stage_data instance_data)
                   (WorkflowInstanceCreate.history instance_data)
                   (WorkflowInstanceCreate.is_completed instance_data) db_now db_now]>
               (workflow_instances db)) !! other = Some i).
  { intros other i Hl. rewrite lookup_insert_ne; [done|].
    intros <-. unfold WorkflowInstanceRepository.get in Hfresh. congruence. }
  split; [|split; [|split; [|split; [|split]]]].
  - apply elem_of_get_by_project. cbn. by rewrite lookup_insert_eq.
  - apply elem_of_get_by_workflow. cbn. by rewrite lookup_insert_eq.
  - apply elem_of_get_by_stage. cbn. by rewrite lookup_insert_eq.
  - intros pid [other i] [Hl Hc]%elem_of_get_by_project.
    apply elem_of_get_by_project. split; [by apply Hkeep|done].
  - intros wid [other i] [Hl Hc]%elem_of_get_by_workflow.
    apply elem_of_get_by_workflow. split; [by apply Hkeep|done].
  - intros s [other i] [Hl Hc]%elem_of_get_by_stage.
    apply elem_of_get_by_stage. split; [by apply Hkeep|done].
Qed.

Lemma create_workflow_instance_listed_witness :
  let instance_data := WorkflowInstanceCreate.mk 1 1 "lead" None None false in
  let db' := (Api.create_workflow_instance 20 instance_data example_db).2 in
  exists id row,
    (Api.create_workflow_instance 20 instance_data example_db).1
      = inr (Some (id, row)) /\
    (id, row) ∈ WorkflowInstanceRepository.get_by_project
                  (WorkflowInstanceCreate.project_id instance_data) db' /\
    (id, row) ∈ WorkflowInstanceRepository.get_by_workflow
                  (WorkflowInstanceCreate.workflow_id instance_data) db' /\
    (id, row) ∈ WorkflowInstanceRepository.get_by_stage
                  (WorkflowInstanceCreate.current_stage instance_data) db' /\
    (forall project_id x,
       x ∈ WorkflowInstanceRepository.get_by_project project_id example_db ->
       x ∈ WorkflowInstanceRepository.get_by_project project_id db') /\
    (forall workflow_id x,
       x ∈ WorkflowInstanceRepository.get_by_workflow workflow_id example_db ->
       x ∈ WorkflowInstanceRepository.get_by_workflow workflow_id db') /\
    (forall stage x,
       x ∈ WorkflowInstanceRepository.get_by_stage stage example_db ->
       x ∈ WorkflowInstanceRepository.get_by_stage stage db').
Proof.
  apply (create_workflow_instance_listed 20
           (WorkflowInstanceCreate.mk 1 1 "lead" None None false) example_db).
  - by eexists.
  - by eexists.
Defined.

(** X10.  A transition changes neither the number of instances nor the
    number of completed instances the statistics report, whatever the target
    stage is called. *)
Theorem transition_keeps_instance_counts utcnow db_now id new_stage td user db row :
  WorkflowInstanceRepository.get id db = Some row ->
  let before := WorkflowInstanceRepository.get_workflow_instance_statistics db in
  let after :=
    WorkflowInstanceRepository.get_workflow_instance_statistics
      (WorkflowInstanceRepository.transition_stage utcnow db_now id new_stage td user db).2 in
  WorkflowInstanceRepository.total_instances after
    = WorkflowInstanceRepository.total_instances before /\
  WorkflowInstanceRepository.completed_instances after
    = WorkflowInstanceRepository.completed_instances before.
Proof.
  intros Hget before after. subst before after.
  destruct (transition_stage_db utcnow db_now id new_stage td user db row Hget)
    as (row' & -> & _ & _ & Hdone & _).
  unfold WorkflowInstanceRepository.get in Hget.
  rewrite !total_instances_size, !completed_instances_size.
  cbn [workflow_instances set_workflow_instances].
  assert (Hdom : forall (P : Z * WorkflowInstance.t -> Prop)
                        `{!forall x, Decision (P x)},
            (P (id, row') <-> P (id, row)) ->
            size (filter P (<[id := row']> (workflow_instances db)))
            = size (filter P (workflow_instances db))).
  { intros P HP Hid. rewrite <- !size_dom. f_equal. apply set_eq. intros k.
    rewrite !elem_of_dom. unfold is_Some.
    setoid_rewrite map_lookup_filter_Some.
    destruct (decide (k = id)) as [->|Hne].
    - rewrite lookup_insert_eq. split.
      + intros (x & [= <-] & Hx). exists row. split; [done|]. by apply Hid.
      + intros (x & Hx & HPx). exists row'. split; [done|].
        apply Hid. congruence.
    - by rewrite lookup_insert_ne. }
  split.
  - rewrite <- (map_filter_id (fun _ => True) (<[id := row']> (workflow_instances db)))
      by done.
    rewrite <- (map_filter_id (fun _ => True) (workflow_instances db)) at 2 by done.
    by apply Hdom.
  - apply Hdom. cbn. by rewrite Hdone.
Qed.

Lemma transition_keeps_instance_counts_witness :
  let before := WorkflowInstanceRepository.get_workflow_instance_statistics example_db in
  let after :=
    WorkflowInstanceRepository.get_workflow_instance_statistics
      (WorkflowInstanceRepository.transition_stage "2024-05-01T09:00:00" 20 7
         "closed_won" None (Some 3) example_db).2 in
  WorkflowInstanceRepository.total_instances after
    = WorkflowInstanceRepository.total_instances before /\
  WorkflowInstanceRepository.completed_instances after
    = WorkflowInstanceRepository.completed_instances before.
Proof.
  apply (transition_keeps_instance_counts "2024-05-01T09:00:00" 20 7 "closed_won"
           None (Some 3) example_db lead_instance).
  reflexivity.
Defined.

(** ** Direct updates of an instance *)

(** When the update route returns, the repository method has returned the
    same row, and the database is the one it left. *)
Lemma update_route_returns db_now id update db row row' :
  WorkflowInstanceRepository.get id db = Some row ->
  (Api.update_workflow_instance db_now id update db).1 = inr (Some row') ->
  WorkflowInstanceRepository.update_workflow_instance db_now id row update db =
    (inr (Some row'), (Api.update_workflow_instance db_now id update db).2).
Proof.
  intros Hget. unfold Api.update_workflow_instance. rewrite Hget.
  destruct (WorkflowInstanceRepository.update_workflow_instance db_now id row update db)
    as [[e|[r|]] db']; cbn; try done.
  unfold WorkflowInstanceResponse.from_orm. destruct (_ && _); cbn; congruence.
Qed.

(** X11.  A successful [update_workflow_instance] is a patch: a field the
    request leaves out keeps its value, [current_stage] and [is_completed]
    take the supplied value, [stage_data] and [history] take the supplied
    value unless it is [==] to the stored one (then the stored one stays);
    [workflow_id], [project_id] and [created_at] never change, no transition
    record is added, other instances are untouched, and a request that sets
    no field leaves the database as it was. *)
Theorem update_workflow_instance_patch db_now id update db row row' :
  WorkflowInstanceRepository.get id db = Some row ->
  (Api.update_workflow_instance db_now id update db).1 = inr (Some row') ->
  let db' := (Api.update_workflow_instance db_now id update db).2 in
  WorkflowInstanceRepository.get id db' = Some row' /\
  WorkflowInstance.workflow_id row' = WorkflowInstance.workflow_id row /\
  WorkflowInstance.project_id row' = WorkflowInstance.project_id row /\
  WorkflowInstance.created_at row' = WorkflowInstance.created_at row /\
  match WorkflowInstanceUpdate.current_stage update with
  | Some (Some v) => WorkflowInstance.current_stage row' = v
  | _ => WorkflowInstance.current_stage row' = WorkflowInstance.current_stage row
  end /\
  match WorkflowInstanceUpdate.is_completed update with
  | Some (Some v) => WorkflowInstance.is_completed row' = v
  | _ => WorkflowInstance.is_completed row' = WorkflowInstance.is_completed row
  end /\
  match WorkflowInstanceUpdate.stage_data update with
  | Some v =>
      WorkflowInstance.stage_data row' = v \/
      (WorkflowInstance.stage_data row' = WorkflowInstance.stage_data row /\
       WorkflowInstanceRepository.dict_column_is_equal v
         (WorkflowInstance.stage_data row) = true)
  | None => WorkflowInstance.stage_data row' = WorkflowInstance.stage_data row
  end /\
  match WorkflowInstanceUpdate.history update with
  | Some v =>
      WorkflowInstance.history row' = v \/
      (WorkflowInstance.history row' = WorkflowInstance.history row /\
       WorkflowInstanceRepository.list_column_is_equal v
         (WorkflowInstance.history row) = true)
  | None => WorkflowInstance.history row' = WorkflowInstance.history row
  end /\
  (forall other, other <> id ->
     WorkflowInstanceRepository.get other db' = WorkflowInstanceRepository.get other db) /\
  (update = WorkflowInstanceUpdate.mk None None None None -> db' = db).
Proof.
  intros Hget Hres db'. subst db'.
  pose proof (update_route_returns _ _ _ _ _ _ Hget Hres) as Hrepo.
  destruct (Api.update_workflow_instance db_now id update db) as [res db'].
  cbn [fst snd] in *. clear Hres. revert Hrepo.
  unfold WorkflowInstanceRepository.update_workflow_instance,
    WorkflowInstanceRepository.collect_instance_update.
  destruct update as [cs sd hi dn]. destruct row as [wf pid cs0 sd0 hi0 dn0 ca ua].
  cbn [WorkflowInstanceUpdate.current_stage WorkflowInstanceUpdate.stage_data
       WorkflowInstanceUpdate.history WorkflowInstanceUpdate.is_completed
       WorkflowInstance.current_stage WorkflowInstance.stage_data
       WorkflowInstance.history WorkflowInstance.is_completed
       WorkflowInstance.workflow_id WorkflowInstance.project_id
       WorkflowInstance.created_at].
  unfold WorkflowInstanceRepository.get in *.
  destruct cs as [[v1|]|];
    [destruct (String.eqb_spec v1 cs0)| |];
    (destruct dn as [[v4|]|];
       [destruct (Bool.eqb_spec v4 dn0)| |]);
    (destruct sd as [v2|];
       [destruct (WorkflowInstanceRepository.dict_column_is_equal v2 sd0) eqn:E2|]);
    (destruct hi as [v3|];
       [destruct (WorkflowInstanceRepository.list_column_is_equal v3 hi0) eqn:E3|]);
    cbn -[WorkflowInstanceRepository.too_long];
    try (destruct (WorkflowInstanceRepository.too_long _); [discriminate|]);
    cbn; rewrite ?Hget, ?lookup_insert_eq; try discriminate;
    intros [= <- <-]; cbn; subst;
    repeat split; auto;
    try apply lookup_insert_eq;
    try (intros other Hne; by rewrite ?lookup_insert_ne);
    by intros [= ].
Qed.

Lemma update_workflow_instance_patch_witness :
  let update :=
    WorkflowInstanceUpdate.mk None None (Some (Some [])) (Some (Some true)) in
  let row' := WorkflowInstance.mk 1 1 "lead" None (Some []) true 10 20 in
  let db' := (Api.update_workflow_instance 20 7 update example_db).2 in
  WorkflowInstanceRepository.get 7 db' = Some row' /\
  WorkflowInstance.workflow_id row' = WorkflowInstance.workflow_id lead_instance /\
  WorkflowInstance.project_id row' = WorkflowInstance.project_id lead_instance /\
  WorkflowInstance.created_at row' = WorkflowInstance.created_at lead_instance /\
  match WorkflowInstanceUpdate.current_stage update with
  | Some (Some v) => WorkflowInstance.current_stage row' = v
  | _ => WorkflowInstance.current_stage row'
         = WorkflowInstance.current_stage lead_instance
  end /\
  match WorkflowInstanceUpdate.is_completed update with
  | Some (Some v) => WorkflowInstance.is_completed row' = v
  | _ => WorkflowInstance.is_completed row'
         = WorkflowInstance.is_completed lead_instance
  end /\
  match WorkflowInstanceUpdate.stage_data update with
  | Some v =>
      WorkflowInstance.stage_data row' = v \/
      (WorkflowInstance.stage_data row' = WorkflowInstance.stage_data lead_instance /\
       WorkflowInstanceRepository.dict_column_is_equal v
         (WorkflowInstance.stage_data lead_instance) = true)
  | None => WorkflowInstance.stage_data row'
            = WorkflowInstance.stage_data lead_instance
  end /\
  match WorkflowInstanceUpdate.history update with
  | Some v =>
      WorkflowInstance.history row' = v \/
      (WorkflowInstance.history row' = WorkflowInstance.history lead_instance /\
       WorkflowInstanceRepository.list_column_is_equal v
         (WorkflowInstance.history lead_instance) = true)
  | None => WorkflowInstance.history row' = WorkflowInstance.history lead_instance
  end /\
  (forall other, other <> 7 ->
     WorkflowInstanceRepository.get other db'
     = WorkflowInstanceRepository.get other example_db) /\
  (update = WorkflowInstanceUpdate.mk None None None None -> db' = example_db).
Proof.
  apply (update_workflow_instance_patch 20 7
           (WorkflowInstanceUpdate.mk None None (Some (Some [])) (Some (Some true)))
           example_db lead_instance
           (WorkflowInstance.mk 1 1 "lead" None (Some []) true 10 20)).
  - reflexivity.
  - by vm_compute.
Defined.

(** The three ways [update_workflow_instance] ends for an existing
    instance. *)
Lemma update_workflow_instance_cases db_now id update db row :
  WorkflowInstanceRepository.get id db = Some row ->
  (WorkflowInstanceRepository.update_workflow_instance db_now id row update db
     = (inl (Raised DataError), db) /\
   exists v, WorkflowInstanceUpdate.current_stage update = Some (Some v) /\
             v <> WorkflowInstance.current_stage row /\
             (100 < String.length v)%nat) \/
  (WorkflowInstanceRepository.update_workflow_instance db_now id row update db
     = (inl IntegrityError, db) /\
   (WorkflowInstanceUpdate.current_stage update = Some None \/
    WorkflowInstanceUpdate.is_completed update = Some None) /\
   (forall v, WorkflowInstanceUpdate.current_stage update = Some (Some v) ->
              v <> WorkflowInstance.current_stage row ->
              (String.length v <= 100)%nat)) \/
  (exists row' db',
     WorkflowInstanceRepository.update_workflow_instance db_now id row update db
       = (inr (Some row'), db') /\
     WorkflowInstanceRepository.get id db' = Some row' /\
     WorkflowInstance.current_stage row' =
       match WorkflowInstanceUpdate.current_stage update with
       | Some (Some v) => v
       | _ => WorkflowInstance.current_stage row
       end /\
     WorkflowInstanceUpdate.current_stage update <> Some None /\
     WorkflowInstanceUpdate.is_completed update <> Some None /\
     (forall v, WorkflowInstanceUpdate.current_stage update = Some (Some v) ->
                v <> WorkflowInstance.current_stage row ->
                (String.length v <= 100)%nat)).
Proof.
  intros Hget.
  unfold WorkflowInstanceRepository.update_workflow_instance,
    WorkflowInstanceRepository.collect_instance_update.
  destruct update as [cs sd hi dn]. destruct row as [wf pid cs0 sd0 hi0 dn0 ca ua].
  cbn [WorkflowInstanceUpdate.current_stage WorkflowInstanceUpdate.stage_data
       WorkflowInstanceUpdate.history WorkflowInstanceUpdate.is_completed
       WorkflowInstance.current_stage WorkflowInstance.stage_data
       WorkflowInstance.history WorkflowInstance.is_completed].
  unfold WorkflowInstanceRepository.get in *.
  destruct cs as [[v1|]|];
    [destruct (String.eqb_spec v1 cs0) as [Hcs|Hcs]| |];
    (destruct dn as [[v4|]|];
       [destruct (Bool.eqb_spec v4 dn0) as [Hdn|Hdn]| |]);
    (destruct sd as [v2|];
       [destruct (WorkflowInstanceRepository.dict_column_is_equal v2 sd0) eqn:E2|]);
    (destruct hi as [v3|];
       [destruct (WorkflowInstanceRepository.list_column_is_equal v3 hi0) eqn:E3|]);
    cbn -[Nat.ltb String.length];
    try (match goal with
         | |- context [(100 <? ?n)%nat] => destruct (Nat.ltb_spec 100 n)
         end);
    rewrite ?Hget, ?lookup_insert_eq.
  all: first
    [ left; split; [reflexivity|]; eexists; split; [reflexivity|split; [done|lia]]
    | right; left; split; [reflexivity|]; split; [by (left + right)|];
      intros v [= <-]; intros; (done || lia)
    | right; right; eexists _, _; split; [reflexivity|];
      cbn; rewrite ?Hget, ?lookup_insert_eq;
      repeat split; try done; intros v [= <-]; intros; (done || lia) ].
Qed.

(** X12.  When [update_workflow_instance] raises: 404 for an unknown id;
    [DataError] when the request sets a [current_stage] of more than 100
    characters that differs from the stored one; otherwise [IntegrityError]
    when it sets [current_stage] or [is_completed] to null, these columns
    being [nullable=False].  In each of these cases the database is as
    before.  With a stored stage and a supplied stage of 1 to 100
    characters and no null, the route returns the stored row.  The only
    other exception is the [ValidationError] of the response schema for the
    [current_stage] of the row just committed. *)
Theorem update_workflow_instance_errors db_now id
    (update : WorkflowInstanceUpdate.t) (db : Db) :
  (WorkflowInstanceRepository.get id db = None ->
   Api.update_workflow_instance db_now id update db =
     (inl (Raised (HTTPException 404 "Workflow instance not found")), db)) /\
  (forall row v,
     WorkflowInstanceRepository.get id db = Some row ->
     WorkflowInstanceUpdate.current_stage update = Some (Some v) ->
     v <> WorkflowInstance.current_stage row ->
     (100 < String.length v)%nat ->
     Api.update_workflow_instance db_now id update db = (inl (Raised DataError), db)) /\
  (is_Some (WorkflowInstanceRepository.get id db) ->
   (forall v, WorkflowInstanceUpdate.current_stage update = Some (Some v) ->
              (String.length v <= 100)%nat) ->
   WorkflowInstanceUpdate.current_stage update = Some None \/
   WorkflowInstanceUpdate.is_completed update = Some None ->
   Api.update_workflow_instance db_now id update db = (inl IntegrityError, db)) /\
  (forall row,
     WorkflowInstanceRepository.get id db = Some row ->
     (1 <= String.length (WorkflowInstance.current_stage row) <= 100)%nat ->
     (forall v, WorkflowInstanceUpdate.current_stage update = Some (Some v) ->
                (1 <= String.length v <= 100)%nat) ->
     WorkflowInstanceUpdate.current_stage update <> Some None ->
     WorkflowInstanceUpdate.is_completed update <> Some None ->
     exists row',
       (Api.update_workflow_instance db_now id update db).1 = inr (Some row') /\
       WorkflowInstanceRepository.get id
         (Api.update_workflow_instance db_now id update db).2 = Some row') /\
  (forall e db',
     Api.update_workflow_instance db_now id update db = (inl e, db') ->
     e = Raised (ValidationError "current_stage") \/ db' = db).
Proof.
  unfold Api.update_workflow_instance.
  destruct (WorkflowInstanceRepository.get id db) as [row|] eqn:Hget.
  2: { split; [done|]. split; [by intros ? ? [=]|]. split; [by intros [? [=]]|].
       split; [by intros ? [=]|]. intros e db' [= _ <-]. by right. }
  split; [done|].
  destruct (update_workflow_instance_cases db_now id update db row Hget)
    as [(-> & v & Hv & Hne & Hlong)
       |[(-> & Hnull & Hshort)
        |(row' & db' & -> & Hget' & Hstage & Hn1 & Hn2 & Hshort)]].
  - split; [done|]. split.
    { intros _ Hall _. specialize (Hall v Hv). lia. }
    split.
    { intros ? [= <-] _ Hall _ _. specialize (Hall v Hv). lia. }
    intros e db' [= _ <-]. by right.
  - split.
    { intros ? v [= <-] Hv Hne Hlong. specialize (Hshort v Hv Hne). lia. }
    split; [done|]. split.
    { intros ? _ _ _ H1 H2. by destruct Hnull. }
    intros e db' [= _ <-]. by right.
  - split.
    { intros ? v [= <-] Hv Hne Hlong. specialize (Hshort v Hv Hne). lia. }
    split.
    { intros _ _ [H|H]; [by destruct Hn1|by destruct Hn2]. }
    unfold WorkflowInstanceResponse.from_orm. split.
    + intros ? [= <-] Hrow Hall _ _.
      assert (Hlen : (1 <= String.length (WorkflowInstance.current_stage row') <= 100)%nat).
      { rewrite Hstage.
        destruct (WorkflowInstanceUpdate.current_stage update) as [[v|]|]; auto. }
      destruct Hlen as [Hmin Hmax].
      rewrite (proj2 (Nat.leb_le _ _) Hmin), (proj2 (Nat.leb_le _ _) Hmax).
      by exists row'.
    + intros e db''. destruct (_ && _); cbn; [by intros [=]|].
      intros [= <- _]. by left.
Qed.

(** ** Business rules: evaluation, creation, deletion *)

Lemma elem_of_evaluate_rules (context : gmap string json) (db : Db) e :
  e ∈ BusinessRuleRepository.evaluate_rules context db <->
  exists id rule,
    business_rules db !! id = Some rule /\
    BusinessRule.is_active rule = true /\
    BusinessRuleRepository._evaluate_conditions (BusinessRule.conditions rule) context
      = true /\
    e = BusinessRuleRepository.triggered (id, rule).
Proof.
  rewrite evaluate_rules_filter, list_elem_of_fmap. split.
  - intros [[id rule] [-> Hin]].
    apply list_elem_of_filter in Hin as [Hm Hin].
    apply elem_of_get_active_rules in Hin as [Hl Ha]. by exists id, rule.
  - intros (id & rule & Hl & Ha & Hm & ->). exists (id, rule). split; [done|].
    apply list_elem_of_filter. split; [done|]. by apply elem_of_get_active_rules.
Qed.

Lemma sublist_filter_impl {A} (P Q : A -> Prop) `{!forall x, Decision (P x)}
    `{!forall x, Decision (Q x)} (l : list A) :
  (forall x, P x -> Q x) -> filter P l `sublist_of` filter Q l.
Proof.
  intros HPQ. induction l as [|x l IH]; [done|].
  rewrite !filter_cons. destruct (decide (P x)) as [HP|HP].
  - rewrite decide_True by auto. by constructor.
  - destruct (decide (Q x)); [by constructor|done].
Qed.

(** X13.  Adding keys to the context never takes a rule out of the result:
    the rules triggered by a context are, in the same order, among those
    triggered by any context that extends it. *)
Theorem evaluate_rules_context_monotone (context context' : gmap string json) (db : Db) :
  context ⊆ context' ->
  BusinessRuleRepository.evaluate_rules context db
    `sublist_of` BusinessRuleRepository.evaluate_rules context' db.
Proof.
  intros Hsub. rewrite !evaluate_rules_filter.
  apply fmap_sublist, sublist_filter_impl. intros r Hr.
  pose proof (proj1 (evaluate_conditions_true _ _) Hr) as Hr'.
  apply evaluate_conditions_true. intros key expected Hk.
  destruct (Hr' _ _ Hk) as (v & Hv & Heq).
  exists v. split; [|done]. by eapply lookup_weaken.
Qed.

Lemma evaluate_rules_context_monotone_witness :
  BusinessRuleRepository.evaluate_rules {[ "status" := JStr "open" ]} example_db
    `sublist_of`
  BusinessRuleRepository.evaluate_rules
    (<[ "extra" := JStr "x" ]> {[ "status" := JStr "open" ]}) example_db.
Proof.
  apply (evaluate_rules_context_monotone {[ "status" := JStr "open" ]}
           (<[ "extra" := JStr "x" ]> {[ "status" := JStr "open" ]}) example_db).
  apply insert_subseteq. reflexivity.
Defined.

(** X14.  [==] on JSON values is an equivalence relation, and [!=] is its
    negation: which of the two values comes from the rule and which from the
    context makes no difference to a match. *)
Theorem py_eq_equivalence :
  (forall a, py_eq a a = true) /\
  (forall a b, py_eq a b = py_eq b a) /\
  (forall a b c, py_eq a b = true -> py_eq b c = true -> py_eq a c = true) /\
  (forall a b, py_ne a b = true <-> py_eq a b = false).
Proof.
  split; [|split; [|split]].
  - intros a. by apply py_eq_numbers_by_value.
  - intros a b. destruct (py_eq a b) eqn:E1, (py_eq b a) eqn:E2; try done.
    + apply py_eq_numbers_by_value in E1. symmetry in E1.
      apply py_eq_numbers_by_value in E1. congruence.
    + apply py_eq_numbers_by_value in E2. symmetry in E2.
      apply py_eq_numbers_by_value in E2. congruence.
  - intros a b c Hab Hbc. apply py_eq_numbers_by_value.
    apply py_eq_numbers_by_value in Hab, Hbc. congruence.
  - intros a b. unfold py_ne. by destruct (py_eq a b).
Qed.

(** X15.  A rule created through the route is stored under a new id and
    read back by [get_business_rule]; from then on it is in the result of an
    evaluation exactly when it was created active and its conditions match
    the context, and the evaluation results differ from the ones before by
    this entry only. *)
Theorem create_business_rule_evaluated db_now (rule_data : BusinessRuleCreate.t)
    (context : gmap string json) (db : Db) :
  let created := Api.create_business_rule db_now rule_data db in
  let id := created.1.1 in
  let entry := BusinessRuleRepository.triggered created.1 in
  BusinessRuleRepository.get id db = None /\
  Api.get_business_rule id created.2 = inr created.1.2 /\
  BusinessRule.conditions created.1.2 = BusinessRuleCreate.conditions rule_data /\
  BusinessRule.actions created.1.2 = BusinessRuleCreate.actions rule_data /\
  BusinessRule.rule_type created.1.2
    = RuleType_value (BusinessRuleCreate.rule_type rule_data) /\
  (entry ∈ BusinessRuleRepository.evaluate_rules context created.2 <->
   BusinessRuleCreate.is_active rule_data = true /\
   BusinessRuleRepository._evaluate_conditions
     (BusinessRuleCreate.conditions rule_data) context = true) /\
  (forall e, e ∈ BusinessRuleRepository.evaluate_rules context created.2 <->
     e ∈ BusinessRuleRepository.evaluate_rules context db \/
     (e = entry /\ entry ∈ BusinessRuleRepository.evaluate_rules context created.2)).
Proof.
  intros created id entry. subst created id entry.
  unfold Api.create_business_rule, BusinessRuleRepository.create_business_rule,
    Api.get_business_rule, BusinessRuleRepository.get.
  cbn [fst snd business_rules set_business_rules].
  set (id := next_id (business_rules db)).
  set (rule := BusinessRule.mk _ _ _ _ _ _ _ _).
  assert (Hfresh : business_rules db !! id = None) by apply next_id_fresh.
  assert (Hnew : forall e,
            e ∈ BusinessRuleRepository.evaluate_rules context
                  (set_business_rules (<[id := rule]> (business_rules db)) db) <->
            e ∈ BusinessRuleRepository.evaluate_rules context db \/
            (e = BusinessRuleRepository.triggered (id, rule) /\
             BusinessRule.is_active rule = true /\
             BusinessRuleRepository._evaluate_conditions
               (BusinessRule.conditions rule) context = true)).
  { intros e. rewrite !elem_of_evaluate_rules. cbn [business_rules set_business_rules].
    split.
    - intros (id' & rule' & Hl & Ha & Hm & ->).
      destruct (decide (id' = id)) as [->|Hne].
      + rewrite lookup_insert_eq in Hl. injection Hl as <-. by right.
      + rewrite lookup_insert_ne in Hl by done. left. by exists id', rule'.
    - intros [(id' & rule' & Hl & Ha & Hm & ->)|(-> & Ha & Hm)].
      + exists id', rule'. rewrite lookup_insert_ne by congruence. done.
      + exists id, rule. by rewrite lookup_insert_eq. }
  assert (Hentry : BusinessRuleRepository.triggered (id, rule)
                     ∈ BusinessRuleRepository.evaluate_rules context
                         (set_business_rules (<[id := rule]> (business_rules db)) db) <->
                   BusinessRule.is_active rule = true /\
                   BusinessRuleRepository._evaluate_conditions
                     (BusinessRule.conditions rule) context = true).
  { rewrite Hnew. split; [|by right].
    intros [Hold|(_ & H)]; [|done].
    apply elem_of_evaluate_rules in Hold as (id' & rule' & Hl & _ & _ & Heq).
    assert (id' = id) as -> by by injection Heq. congruence. }
  split; [done|]. split; [by rewrite lookup_insert_eq|].
  split; [done|]. split; [done|]. split; [done|]. split; [done|].
  intros e. rewrite Hnew, Hentry. tauto.
Qed.

(** X16.  Deleting a rule: 404 for an unknown id, with the database as
    before; otherwise the rule is gone ([get_business_rule] and a second
    delete answer 404), the other rules are as before, and an evaluation
    returns what it returned before without the entry of the deleted rule. *)
Theorem delete_business_rule_effect rule_id (db : Db) :
  (BusinessRuleRepository.get rule_id db = None ->
   Api.delete_business_rule rule_id db =
     (inl (HTTPException 404 "Business rule not found"), db)) /\
  (is_Some (BusinessRuleRepository.get rule_id db) ->
   let db' := (Api.delete_business_rule rule_id db).2 in
   (Api.delete_business_rule rule_id db).1 = inr tt /\
   Api.get_business_rule rule_id db' =
     inl (HTTPException 404 "Business rule not found") /\
   Api.delete_business_rule rule_id db' =
     (inl (HTTPException 404 "Business rule not found"), db') /\
   (forall other, other <> rule_id ->
      BusinessRuleRepository.get other db' = BusinessRuleRepository.get other db) /\
   (forall context e,
      e ∈ BusinessRuleRepository.evaluate_rules context db' <->
      e ∈ BusinessRuleRepository.evaluate_rules context db /\
      BusinessRuleRepository.rule_id e <> rule_id) /\
   workflows db' = workflows db /\
   workflow_instances db' = workflow_instances db /\
   projects db' = projects db).
Proof.
  unfold Api.delete_business_rule, Api.get_business_rule,
    BusinessRuleRepository.delete, BusinessRuleRepository.get.
  split; [by intros ->|]. intros [rule Hrule]. rewrite Hrule.
  cbn [fst snd business_rules set_business_rules]. rewrite lookup_delete_eq.
  split; [done|]. split; [done|]. split; [done|].
  split; [intros other Hne; by rewrite lookup_delete_ne|]. split; [|done].
  intros context e. rewrite !elem_of_evaluate_rules.
  cbn [business_rules set_business_rules]. split.
  - intros (id & r & Hl & Ha & Hm & ->).
    apply lookup_delete_Some in Hl as [Hne Hl]. split; [by exists id, r|].
    cbn. congruence.
  - intros [(id & r & Hl & Ha & Hm & ->) Hne]. exists id, r.
    rewrite lookup_delete_ne by (cbn in Hne; congruence). done.
Qed.

Lemma elem_of_py_slice {A} (l : list A) (start stop : Z) x :
  x ∈ py_slice l start stop -> x ∈ l.
Proof.
  unfold py_slice. intros H. eapply subseteq_drop, subseteq_take, H.
Qed.

Lemma elem_of_rules_get_by_type (rule_type : string) (db : Db) id rule :
  (id, rule) ∈ BusinessRuleRepository.get_by_type rule_type db <->
  business_rules db !! id = Some rule /\ BusinessRule.rule_type rule = rule_type /\
  BusinessRule.is_active rule = true.
Proof.
  unfold BusinessRuleRepository.get_by_type.
  rewrite elem_of_order_by_desc, elem_of_query_filter, andb_true_iff,
    bool_decide_eq_true.
  tauto.
Qed.

(** X17.  The rules route with a non-empty [rule_type] and [limit <> 0]
    returns a page: its items are active rules of that type, [total] counts
    all active rules of that type, and a type that no active rule has, being
    any string, gives the empty page with [total = 0], not an error. *)
Theorem get_business_rules_by_type skip limit rule_type (db : Db) :
  rule_type <> "" -> limit <> 0 ->
  exists page,
    Api.get_business_rules skip limit (Some rule_type) db = inr page /\
    Api.rule_total page =
      Z.of_nat (size (filter (fun kv : Z * BusinessRule.t =>
                                BusinessRule.rule_type kv.2 = rule_type /\
                                BusinessRule.is_active kv.2 = true)
                        (business_rules db))) /\
    (forall id rule, (id, rule) ∈ Api.rule_items page ->
       business_rules db !! id = Some rule /\
       BusinessRule.rule_type rule = rule_type /\
       BusinessRule.is_active rule = true) /\
    ((forall id rule, business_rules db !! id = Some rule ->
        BusinessRule.is_active rule = true ->
        BusinessRule.rule_type rule <> rule_type) ->
     Api.rule_items page = [] /\ Api.rule_total page = 0).
Proof.
  intros Hs Hl. unfold Api.get_business_rules, str_truthy. cbn [from_option default].
  destruct (String.eqb_spec rule_type ""); [done|]. cbn [negb].
  destruct (Z.eqb_spec limit 0); [done|].
  eexists. split; [reflexivity|]. cbn [Api.rule_total Api.rule_items].
  unfold Datatypes.id.
  assert (Hlen : length (BusinessRuleRepository.get_by_type rule_type db) =
                 size (filter (fun kv : Z * BusinessRule.t =>
                                 BusinessRule.rule_type kv.2 = rule_type /\
                                 BusinessRule.is_active kv.2 = true)
                         (business_rules db))).
  { unfold BusinessRuleRepository.get_by_type, order_by_desc.
    rewrite merge_sort_Permutation, length_query_filter. f_equal.
    apply map_filter_ext. intros k r _. cbn.
    by rewrite andb_true_iff, bool_decide_eq_true. }
  split; [by rewrite Hlen|]. split.
  - intros id rule Hin. by apply elem_of_py_slice, elem_of_rules_get_by_type in Hin.
  - intros Hnone.
    assert (Hnil : BusinessRuleRepository.get_by_type rule_type db = []).
    { destruct (BusinessRuleRepository.get_by_type rule_type db) as [|[id r] l] eqn:E;
        [done|].
      assert (Hin : (id, r) ∈ BusinessRuleRepository.get_by_type rule_type db)
        by (rewrite E; apply list_elem_of_here).
      apply elem_of_rules_get_by_type in Hin as (Hl' & Ht & Ha).
      by destruct (Hnone _ _ Hl' Ha). }
    rewrite Hnil. split; [|done].
    unfold py_slice. by rewrite drop_nil, take_nil.
Qed.

Lemma get_business_rules_by_type_witness :
  exists page,
    Api.get_business_rules 0 100 (Some "escalation") example_db = inr page /\
    Api.rule_total page =
      Z.of_nat (size (filter (fun kv : Z * BusinessRule.t =>
                                BusinessRule.rule_type kv.2 = "escalation" /\
                                BusinessRule.is_active kv.2 = true)
                        (business_rules example_db))) /\
    (forall id rule, (id, rule) ∈ Api.rule_items page ->
       business_rules example_db !! id = Some rule /\
       BusinessRule.rule_type rule = "escalation" /\
       BusinessRule.is_active rule = true) /\
    ((forall id rule, business_rules example_db !! id = Some rule ->
        BusinessRule.is_active rule = true ->
        BusinessRule.rule_type rule <> "escalation") ->
     Api.rule_items page = [] /\ Api.rule_total page = 0).
Proof.
  apply (get_business_rules_by_type 0 100 "escalation" example_db); discriminate.
Defined.

(** X18.  The evaluation route reports as [total_triggered] the length of
    [triggered_rules], which is at most the number of active rules; for the
    empty context the triggered rules are exactly the active rules with
    empty conditions. *)
Theorem evaluate_business_rules_total (context : gmap string json) (db : Db) :
  let result := Api.evaluate_business_rules context db in
  Api.triggered_rules result = BusinessRuleRepository.evaluate_rules context db /\
  Api.total_triggered result = length (Api.triggered_rules result) /\
  (Api.total_triggered result <=
   size (filter (fun kv : Z * BusinessRule.t => BusinessRule.is_active kv.2 = true)
           (business_rules db)))%nat /\
  (forall e, e ∈ Api.triggered_rules (Api.evaluate_business_rules ∅ db) <->
     exists id rule,
       business_rules db !! id = Some rule /\
       BusinessRule.is_active rule = true /\
       BusinessRule.conditions rule = ∅ /\
       e = BusinessRuleRepository.triggered (id, rule)).
Proof.
  intros result. subst result. unfold Api.evaluate_business_rules.
  cbn [Api.triggered_rules Api.total_triggered].
  split; [done|]. split; [done|]. split.
  - rewrite evaluate_rules_filter, length_fmap.
    etrans; [apply length_filter|].
    unfold BusinessRuleRepository.get_active_rules, order_by_desc.
    by rewrite merge_sort_Permutation, length_query_filter.
  - intros e. rewrite elem_of_evaluate_rules.
    assert (Hempty : forall conditions : gmap string json,
              BusinessRuleRepository._evaluate_conditions conditions ∅ = true <->
              conditions = ∅).
    { intros conditions. rewrite evaluate_conditions_true. split.
      - intros H. apply map_empty. intros k.
        destruct (conditions !! k) as [v|] eqn:E; [|done].
        destruct (H _ _ E) as (w & Hw & _). by rewrite lookup_empty in Hw.
      - intros -> k v Hk. by rewrite lookup_empty in Hk. }
    split; intros (id & rule & Hl & Ha & Hm & ->); exists id, rule;
      by rewrite Hempty in *.
Qed.

(** ** Workflows: creation and statistics together *)

Lemma size_filter_insert_fresh {A} (P : Z * A -> Prop) `{!forall x, Decision (P x)}
    (table : gmap Z A) id row :
  table !! id = None ->
  size (filter P (<[id := row]> table)) =
  (size (filter P table) + if decide (P (id, row)) then 1 else 0)%nat.
Proof.
  intros Hfresh. destruct (decide (P (id, row))).
  - rewrite map_filter_insert_True by done.
    rewrite map_size_insert_None; [lia|].
    apply map_lookup_filter_None. by left.
  - rewrite map_filter_insert_not' by naive_solver. lia.
Qed.

(** X19.  Creating a workflow raises the statistics by exactly that
    workflow: the total by one, the active count by one when it is created
    active, the count of its type by one, and no other type count. *)
Theorem create_workflow_counted db_now (workflow_data : WorkflowCreate.t) (db : Db) :
  let before := Api.get_workflow_statistics db in
  let after :=
    Api.get_workflow_statistics
      (WorkflowRepository.create_workflow db_now workflow_data db).2 in
  Api.total_workflows after = S (Api.total_workflows before) /\
  Api.active_workflows after =
    (Api.active_workflows before
     + if WorkflowCreate.is_active workflow_data then 1 else 0)%nat /\
  (forall t n,
     Api.workflows_by_type before !! WorkflowType_value t = Some n ->
     Api.workflows_by_type after !! WorkflowType_value t =
     Some (n + if decide (WorkflowCreate.type workflow_data = t) then 1 else 0)%nat).
Proof.
  intros before after. subst before after.
  assert (Hfresh : workflows db !! next_id (workflows db) = None) by apply next_id_fresh.
  unfold Api.get_workflow_statistics.
  cbn [Api.total_workflows Api.active_workflows Api.workflows_by_type].
  split; [|split].
  - cbn. rewrite !length_query_filter, !map_filter_id by done.
    by apply map_size_insert_None.
  - cbn. rewrite !length_query_filter.
    rewrite size_filter_insert_fresh by done. cbn.
    destruct (WorkflowCreate.is_active workflow_data); by repeat case_decide.
  - intros t n. rewrite !workflows_by_type_lookup. intros [= <-]. f_equal.
    cbn [workflows set_workflows WorkflowRepository.create_workflow snd].
    rewrite size_filter_insert_fresh by done. cbn. by repeat case_decide.
Qed.

(** ** Transitions: errors, the statements, the stored row *)

(** X20.  The transition route raises only for an unknown instance, an
    empty target stage or one of more than 100 characters.  For an unknown
    id it answers 404 and the database is as before, without reaching the
    [ValueError] of the repository method, which a direct call for an
    unknown id raises, also with the database as before.  For an existing
    instance an empty target stage is committed and the response schema
    ([min_length=1]) then raises [ValidationError]; a target stage other
    than the current one that the [String(100)] column refuses raises
    [DataError] at the commit and the database is as before. *)
Theorem transition_errors utcnow db_now id
    (request : WorkflowStageTransition.t) user (db : Db) :
  ((exists e, (Api.transition_workflow_stage utcnow db_now id request user db).1 = inl e)
   -> WorkflowInstanceRepository.get id db = None \/
      WorkflowStageTransition.to_stage request = "" \/
      (100 < String.length (WorkflowStageTransition.to_stage request))%nat) /\
  (WorkflowInstanceRepository.get id db = None ->
   Api.transition_workflow_stage utcnow db_now id request user db =
     (inl (HTTPException 404 "Workflow instance not found"), db)) /\
  (is_Some (WorkflowInstanceRepository.get id db) ->
   WorkflowStageTransition.to_stage request = "" ->
   (Api.transition_workflow_stage utcnow db_now id request user db).1
     = inl (ValidationError "current_stage") /\
   WorkflowInstance.current_stage <$>
     WorkflowInstanceRepository.get id
       (Api.transition_workflow_stage utcnow db_now id request user db).2 = Some "") /\
  (forall row,
     WorkflowInstanceRepository.get id db = Some row ->
     WorkflowStageTransition.to_stage request <> WorkflowInstance.current_stage row ->
     varchar 100 (WorkflowStageTransition.to_stage request) = None ->
     Api.transition_workflow_stage utcnow db_now id request user db
       = (inl DataError, db)) /\
  (forall new_stage td by_,
     WorkflowInstanceRepository.get id db = None ->
     WorkflowInstanceRepository.transition_stage utcnow db_now id new_stage td by_ db =
       (inl (ValueError "Workflow instance not found"), db)).
Proof.
  destruct (WorkflowInstanceRepository.get id db) as [row|] eqn:Hget.
  2: { unfold Api.transition_workflow_stage. rewrite Hget.
       split; [by left|]. split; [done|]. split; [by intros [? [=]]|].
       split; [by intros ? [=]|].
       intros new_stage td by_ _. by apply transition_stage_missing. }
  split; [|split; [done|split; [|split; [|done]]]].
  - intros [e He]. right.
    destruct (WorkflowStageTransition.to_stage request) as [|c rest] eqn:Hto;
      [by left|right].
    destruct (Nat.ltb_spec 100 (String.length (String c rest))) as [|Hle]; [done|].
    rewrite (transition_workflow_stage_stored _ _ _ _ _ _ _ Hget) in He; [done|].
    rewrite Hto. cbn in *. lia.
  - intros _ Hto. unfold Api.transition_workflow_stage. rewrite Hget.
    rewrite (transition_stage_stored _ _ _ _ _ _ _ _ Hget) by (rewrite Hto; cbn; lia).
    unfold WorkflowInstanceResponse.from_orm.
    rewrite stored_after_current_stage, Hto. cbn.
    unfold WorkflowInstanceRepository.get. cbn. rewrite lookup_insert_eq. cbn.
    by rewrite stored_after_current_stage.
  - intros ? [= <-] Hne Hrefused. unfold Api.transition_workflow_stage. rewrite Hget.
    destruct (transition_stage_row utcnow db_now id
                (WorkflowStageTransition.to_stage request)
                (WorkflowStageTransition.transition_data request) (Some user) db row Hget)
      as [(-> & _)|(stage & _ & [[Heq _]|[_ Hv]])]; [done| |congruence].
    by apply String.eqb_eq in Heq.
Qed.

Ltac run_statements :=
  repeat (progress (
    unfold WorkflowInstanceRepository.transition_assignments, bind, ret,
      get_current_stage, history_or_new, stage_data_or_new, list_append, dict_update,
      set_history, set_stage_data, set_current_stage, load, Py.list_true, Py.dict_true,
      Py.alloc_list, Py.alloc_dict, Py.append, Py.update, Py.get_list, Py.get_dict,
      Py.empty, dict_truthy, list_truthy;
    cbn -[WorkflowInstanceRepository.transition_record];
    repeat case_bool_decide; subst; try congruence)).

(** X21.  The statements of [transition_stage], before the commit: the
    [history] attribute holds the former history (nothing, when it was null)
    followed by one record whose [from_stage] is the stage the instance was
    in, whose [to_stage] is the new stage and whose [data] is the transition
    data, or [{}] when there is none; the [stage_data] attribute holds the
    former data overwritten key by key with non-empty transition data; and
    [current_stage] is the new stage. *)
Theorem transition_assignments_in_memory utcnow new_stage td user row :
  let s :=
    (WorkflowInstanceRepository.transition_assignments utcnow new_stage td user
       (load row)).2 in
  let record :=
    WorkflowInstanceRepository.transition_record
      (WorkflowInstance.current_stage row) new_stage utcnow user td in
  flip Py.get_list s.1 <$> o_history s.2 =
    Some (default [] (WorkflowInstance.history row) ++ [record]) /\
  record !! "from_stage" = Some (JStr (WorkflowInstance.current_stage row)) /\
  record !! "to_stage" = Some (JStr new_stage) /\
  record !! "data" = Some (JDict (default ∅ td)) /\
  record !! "triggered_by" = Some (from_option JInt JNull user) /\
  record !! "timestamp" = Some (JStr utcnow) /\
  o_current_stage s.2 = new_stage /\
  (dict_truthy td = true ->
   flip Py.get_dict s.1 <$> o_stage_data s.2 =
     Some (default ∅ td ∪ default ∅ (WorkflowInstance.stage_data row))) /\
  (dict_truthy td = false ->
   flip Py.get_dict s.1 <$> o_stage_data s.2 = WorkflowInstance.stage_data row).
Proof.
  intros s record. subst s record.
  split; [apply assignments_append|].
  split; [done|]. split; [done|].
  split.
  { unfold WorkflowInstanceRepository.transition_record.
    rewrite !lookup_insert_ne by done. rewrite lookup_insert_eq.
    destruct td as [m|]; [|done]. cbn. by case_bool_decide; subst. }
  split; [done|]. split; [done|].
  destruct row as [wf pid cs sd hi dn ca ua].
  destruct hi as [[|x hi]|]; destruct sd as [sd|]; destruct td as [m|];
    run_statements;
    rewrite ?(right_id_L ∅ (∪)); repeat split; try done;
    intros; try done; try congruence.
Qed.

(** X22.  What a transition of an existing instance to a stage of at most
    100 characters stores and returns:
    [current_stage] is the new stage; the history is the stored one when
    that is non-empty and otherwise the one new record; [stage_data] is the
    stored one when that is non-empty or there is no transition data and
    otherwise the transition data; [updated_at] is the time of the call
    unless none of the three changes, in which case the row is as before. *)
Theorem transition_stage_stored_row utcnow db_now id new_stage td user db row :
  WorkflowInstanceRepository.get id db = Some row ->
  (String.length new_stage <= 100)%nat ->
  exists row',
    WorkflowInstanceRepository.transition_stage utcnow db_now id new_stage td user db =
      (inr (Some row'),
       set_workflow_instances (<[id := row']> (workflow_instances db)) db) /\
    WorkflowInstance.current_stage row' = new_stage /\
    WorkflowInstance.history row' =
      (if list_truthy (WorkflowInstance.history row) then WorkflowInstance.history row
       else Some [WorkflowInstanceRepository.transition_record
                    (WorkflowInstance.current_stage row) new_stage utcnow user td]) /\
    WorkflowInstance.stage_data row' =
      (if negb (dict_truthy td) || dict_truthy (WorkflowInstance.stage_data row)
       then WorkflowInstance.stage_data row else td) /\
    (if list_truthy (WorkflowInstance.history row)
        && (negb (dict_truthy td) || dict_truthy (WorkflowInstance.stage_data row))
        && String.eqb new_stage (WorkflowInstance.current_stage row)
     then row' = row
     else WorkflowInstance.updated_at row' = db_now).
Proof.
  intros Hget Hfits. exists (stored_after db_now utcnow new_stage td user row).
  split; [by apply transition_stage_stored|].
  split; [apply stored_after_current_stage|].
  split; [apply stored_after_history|].
  split; [apply stored_after_stage_data|].
  unfold stored_after. cbn zeta. by destruct (_ && _ && _).
Qed.

Lemma transition_stage_stored_row_witness :
  exists row',
    WorkflowInstanceRepository.transition_stage "2024-05-01T09:00:00" 20 7 "closed_won"
      (Some {[ "amount" := JInt 5000 ]}) (Some 3) example_db =
      (inr (Some row'),
       set_workflow_instances (<[7 := row']> (workflow_instances example_db))
         example_db) /\
    WorkflowInstance.current_stage row' = "closed_won" /\
    WorkflowInstance.history row' =
      (if list_truthy (WorkflowInstance.history lead_instance)
       then WorkflowInstance.history lead_instance
       else Some [WorkflowInstanceRepository.transition_record
                    (WorkflowInstance.current_stage lead_instance) "closed_won"
                    "2024-05-01T09:00:00" (Some 3)
                    (Some {[ "amount" := JInt 5000 ]})]) /\
    WorkflowInstance.stage_data row' =
      (if negb (dict_truthy (Some {[ "amount" := JInt 5000 ]}))
          || dict_truthy (WorkflowInstance.stage_data lead_instance)
       then WorkflowInstance.stage_data lead_instance
       else Some {[ "amount" := JInt 5000 ]}) /\
    (if list_truthy (WorkflowInstance.history lead_instance)
        && (negb (dict_truthy (Some {[ "amount" := JInt 5000 ]}))
            || dict_truthy (WorkflowInstance.stage_data lead_instance))
        && String.eqb "closed_won" (WorkflowInstance.current_stage lead_instance)
     then row' = lead_instance
     else WorkflowInstance.updated_at row' = 20).
Proof.
  apply (transition_stage_stored_row "2024-05-01T09:00:00" 20 7 "closed_won"
           (Some {[ "amount" := JInt 5000 ]}) (Some 3) example_db lead_instance).
  - reflexivity.
  - cbn. lia.
Defined.

Lemma transition_calls_stored id calls db row :
  WorkflowInstanceRepository.get id db = Some row ->
  Forall (fun c => (String.length (call_new_stage c) <= 100)%nat) calls ->
  list_truthy (WorkflowInstance.history row) = true ->
  exists row',
    WorkflowInstanceRepository.get id (transition_calls id calls db) = Some row' /\
    WorkflowInstance.history row' = WorkflowInstance.history row /\
    WorkflowInstance.current_stage row' =
      default (WorkflowInstance.current_stage row) (call_new_stage <$> last calls).
Proof.
  revert db row. induction calls as [|c calls IH]; intros db row Hget Hfit Hh.
  - exists row. by cbn.
  - apply Forall_cons in Hfit as [Hfit_c Hfit].
    unfold transition_calls. cbn [foldl].
    rewrite (transition_stage_stored _ _ _ _ _ _ _ _ Hget Hfit_c). cbn [snd].
    set (row1 := stored_after _ _ _ _ _ row).
    set (db1 := set_workflow_instances _ db).
    assert (Hget1 : WorkflowInstanceRepository.get id db1 = Some row1)
      by apply lookup_insert_eq.
    assert (Hh1 : WorkflowInstance.history row1 = WorkflowInstance.history row).
    { unfold row1. by rewrite stored_after_history, Hh. }
    destruct (IH db1 row1 Hget1 Hfit) as (row' & Hget' & Hhist & Hstage);
      [by rewrite Hh1|].
    exists row'. split; [done|]. split; [congruence|].
    rewrite Hstage. unfold row1. rewrite stored_after_current_stage, last_cons.
    by destruct (last calls).
Qed.

(** X23.  Any number of transitions in a row, at least one, of an existing
    instance, each to a stage of at most 100 characters: [current_stage]
    ends at the stage of the last call, and the
    stored history does not grow with the number of calls; it is the history
    the instance had when that was non-empty, and otherwise the single
    record of the first call. *)
Theorem transition_calls_history id first calls db row :
  WorkflowInstanceRepository.get id db = Some row ->
  Forall (fun c => (String.length (call_new_stage c) <= 100)%nat) (first :: calls) ->
  exists row',
    WorkflowInstanceRepository.get id (transition_calls id (first :: calls) db)
      = Some row' /\
    call_new_stage <$> last (first :: calls)
      = Some (WorkflowInstance.current_stage row') /\
    WorkflowInstance.history row' =
      (if list_truthy (WorkflowInstance.history row) then WorkflowInstance.history row
       else Some [WorkflowInstanceRepository.transition_record
                    (WorkflowInstance.current_stage row) (call_new_stage first)
                    (call_utcnow first) (call_triggered_by first)
                    (call_transition_data first)]).
Proof.
  intros Hget [Hfit_first Hfit]%Forall_cons. unfold transition_calls. cbn [foldl].
  rewrite (transition_stage_stored _ _ _ _ _ _ _ _ Hget Hfit_first). cbn [snd].
  set (row1 := stored_after _ _ _ _ _ row).
  set (db1 := set_workflow_instances _ db).
  assert (Hget1 : WorkflowInstanceRepository.get id db1 = Some row1)
    by apply lookup_insert_eq.
  assert (Hh1 : list_truthy (WorkflowInstance.history row1) = true).
  { unfold row1. rewrite stored_after_history.
    by destruct (list_truthy (WorkflowInstance.history row)) eqn:E. }
  destruct (transition_calls_stored id calls db1 row1 Hget1 Hfit Hh1)
    as (row' & Hget' & Hhist & Hstage).
  exists row'. split; [done|]. split.
  - rewrite Hstage. unfold row1. rewrite stored_after_current_stage, last_cons.
    by destruct (last calls).
  - rewrite Hhist. unfold row1. by rewrite stored_after_history.
Qed.

Lemma transition_calls_history_witness :
  exists row',
    WorkflowInstanceRepository.get 7
      (transition_calls 7
         (mkCall "2024-05-01T09:00:00" 20 "qualification" None (Some 3)
            :: [mkCall "2024-05-02T09:00:00" 30 "proposal" None (Some 3)])
         example_db) = Some row' /\
    call_new_stage <$>
      last (mkCall "2024-05-01T09:00:00" 20 "qualification" None (Some 3)
              :: [mkCall "2024-05-02T09:00:00" 30 "proposal" None (Some 3)])
      = Some (WorkflowInstance.current_stage row') /\
    WorkflowInstance.history row' =
      (if list_truthy (WorkflowInstance.history lead_instance)
       then WorkflowInstance.history lead_instance
       else Some [WorkflowInstanceRepository.transition_record
                    (WorkflowInstance.current_stage lead_instance)
                    (call_new_stage
                       (mkCall "2024-05-01T09:00:00" 20 "qualification" None (Some 3)))
                    (call_utcnow
                       (mkCall "2024-05-01T09:00:00" 20 "qualification" None (Some 3)))
                    (call_triggered_by
                       (mkCall "2024-05-01T09:00:00" 20 "qualification" None (Some 3)))
                    (call_transition_data
                       (mkCall "2024-05-01T09:00:00" 20 "qualification" None
                          (Some 3)))]).
Proof.
  apply (transition_calls_history 7
           (mkCall "2024-05-01T09:00:00" 20 "qualification" None (Some 3))
           [mkCall "2024-05-02T09:00:00" 30 "proposal" None (Some 3)]
           example_db lead_instance).
  - reflexivity.
  - repeat constructor; cbn; lia.
Defined.

(** ** The type enumeration *)

(** X24.  Looking a workflow type up by value inverts [value]: every member
    is found from its value, a string is found only as the value of the
    member returned, and two members with the same value are the same. *)
Theorem WorkflowType_value_round_trip :
  (forall t, WorkflowType_of_value (WorkflowType_value t) = Some t) /\
  (forall s t, WorkflowType_of_value s = Some t -> WorkflowType_value t = s) /\
  (forall t1 t2, WorkflowType_value t1 = WorkflowType_value t2 -> t1 = t2) /\
  (forall s, WorkflowType_of_value s = None <-> forall t, WorkflowType_value t <> s).
Proof.
  split; [|split; [|split]].
  - intros t. by apply WorkflowType_of_value_Some.
  - intros s t. apply WorkflowType_of_value_Some.
  - intros t1 t2 H. apply WorkflowType_of_value_Some in H.
    assert (H2 : WorkflowType_of_value (WorkflowType_value t2) = Some t2)
      by by apply WorkflowType_of_value_Some.
    congruence.
  - intros s. split.
    + intros Hn t Ht. apply WorkflowType_of_value_Some in Ht. congruence.
    + intros Hall. destruct (WorkflowType_of_value s) as [t|] eqn:E; [|done].
      apply WorkflowType_of_value_Some in E. by destruct (Hall t).
Qed.
